(** * ProcImap.ImapMailbox: a shallow embedding and its properties

    The Python class [ImapMailbox] wraps an IMAP session (an [ImapServer]
    object) behind the [mailbox.Mailbox] interface.  Every method talks to
    the server through a handful of calls ([uid], [append], [expunge],
    [select], ...) and keeps three pieces of state of its own: the folder
    name, the single-slot raw-message cache ([_cached_uid], [_cached_text])
    and the optional trash target.

    The embedding is a state-and-exception monad over a [World]: the
    mailbox object, the state of the server behind the session, and the
    trace of the calls the mailbox issued.  The session itself is an
    interface ([SessionPort]); the methods are written once against that
    interface and then run against a small IMAP server model. *)

From Stdlib Require Import List String Ascii ZArith Bool Lia.
From Stdlib Require Import DecimalString DecimalZ DecimalPos DecimalN.
Import ListNotations.

Local Open Scope string_scope.
Local Open Scope Z_scope.

(** ** Python values, exceptions and results *)

(** The values a session hands back: [None], integers, strings, and the
    tuples and lists built from them. *)
#[local] Set Warnings "-register-all".
Inductive pyval : Type :=
| PNone
| PInt (z : Z)
| PStr (s : string)
| PTuple (items : list pyval)
| PList (items : list pyval).

(** The exception classes the module raises or lets escape. *)
Inductive exn_class : Type :=
| ImapNotOkError
| NoSuchUIDError
| NotSupportedError
| NoSuchMailboxError
| KeyError
| ValueError
| TypeError
| IndexError
| AttributeError
| UnboundLocalError
| NameError
| OtherError (name : string).

(** [raise K, fmt % args]: the class, the format string and the values
    substituted in it (kept unformatted). *)
Record exn : Type := mkExn {
  e_class : exn_class;
  e_fmt : string;
  e_args : list pyval
}.

Inductive result (A : Type) : Type :=
| Ok (a : A)
| Raise (e : exn).
Arguments Ok {A} a.
Arguments Raise {A} e.

Definition exn_class_eqb (a b : exn_class) : bool :=
  match a, b with
  | ImapNotOkError, ImapNotOkError => true
  | NoSuchUIDError, NoSuchUIDError => true
  | NotSupportedError, NotSupportedError => true
  | NoSuchMailboxError, NoSuchMailboxError => true
  | KeyError, KeyError => true
  | ValueError, ValueError => true
  | TypeError, TypeError => true
  | IndexError, IndexError => true
  | AttributeError, AttributeError => true
  | UnboundLocalError, UnboundLocalError => true
  | NameError, NameError => true
  | OtherError x, OtherError y => String.eqb x y
  | _, _ => false
  end.

(** [except K:] also catches the subclasses of [K]; the only subclass
    relation among the classes above is [UnboundLocalError <= NameError]. *)
Definition isinstance_exn (e : exn) (k : exn_class) : bool :=
  exn_class_eqb (e_class e) k ||
  match e_class e, k with
  | UnboundLocalError, NameError => true
  | _, _ => false
  end.

(** ** The Python string and sequence primitives the module uses *)

Module Py.

(** [str.isspace] for a single byte in the C locale. *)
Definition isspace (c : ascii) : bool :=
  let n := nat_of_ascii c in
  (Nat.eqb n 32 || (Nat.leb 9 n && Nat.leb n 13))%bool.

(** [s.split()]: the maximal runs of non-whitespace characters.
    [cur] is the run being read, in reverse. *)
Fixpoint split_from (cur : list ascii) (s : string) : list string :=
  match s with
  | EmptyString =>
      match cur with
      | [] => []
      | _ => [string_of_list_ascii (rev cur)]
      end
  | String c r =>
      if isspace c then
        match cur with
        | [] => split_from [] r
        | _ => string_of_list_ascii (rev cur) :: split_from [] r
        end
      else split_from (c :: cur) r
  end.

Definition split (s : string) : list string := split_from [] s.

Fixpoint lstrip_list (l : list ascii) : list ascii :=
  match l with
  | c :: r => if isspace c then lstrip_list r else l
  | [] => []
  end.

(** [s.strip()]. *)
Definition strip (s : string) : string :=
  string_of_list_ascii
    (rev (lstrip_list (rev (lstrip_list (list_ascii_of_string s))))).

(** A non-empty run of decimal digits, as a natural number. *)
Definition digits (s : string) : option Z :=
  match s with
  | EmptyString => None
  | _ => option_map Z.of_uint (NilEmpty.uint_of_string s)
  end.

(** [int(s)] for a string: surrounding whitespace, an optional sign, and
    at least one decimal digit; [None] stands for [ValueError]. *)
Definition int (s : string) : option Z :=
  match strip s with
  | EmptyString => None
  | String c r =>
      if Ascii.eqb c "-" then option_map Z.opp (digits r)
      else if Ascii.eqb c "+" then digits r
      else digits (String c r)
  end.

(** [str(n)] for an integer. *)
Definition str_int (z : Z) : string := NilZero.string_of_int (Z.to_int z).

(** [[int(x) for x in l]]: stops at the first [ValueError]. *)
Fixpoint ints (l : list string) : option (list Z) :=
  match l with
  | [] => Some []
  | x :: r =>
      match int x with
      | None => None
      | Some z =>
          match ints r with
          | None => None
          | Some zs => Some (z :: zs)
          end
      end
  end.

(** [s.find(sub, start)]: the lowest index [>= start] at which [sub]
    occurs, or [-1]. *)
Fixpoint prefix (p s : string) : bool :=
  match p, s with
  | EmptyString, _ => true
  | String a p', String b s' => Ascii.eqb a b && prefix p' s'
  | String _ _, EmptyString => false
  end.

Fixpoint find_at (sub s : string) (i : Z) : Z :=
  if prefix sub s then i
  else match s with
       | EmptyString => -1
       | String _ r => find_at sub r (i + 1)
       end.

Fixpoint drop (n : nat) (s : string) : string :=
  match n, s with
  | O, _ => s
  | S k, String _ r => drop k r
  | S _, EmptyString => EmptyString
  end.

Fixpoint take (n : nat) (s : string) : string :=
  match n, s with
  | O, _ => EmptyString
  | S k, String c r => String c (take k r)
  | S _, EmptyString => EmptyString
  end.

Definition len (s : string) : Z := Z.of_nat (String.length s).

(** A slice bound: negative bounds count from the end, and every bound is
    clipped to [0 .. len s]. *)
Definition clip (s : string) (i : Z) : Z :=
  let j := if i <? 0 then i + len s else i in
  Z.max 0 (Z.min j (len s)).

(** [s[a:b]]. *)
Definition slice (s : string) (a b : Z) : string :=
  let a' := clip s a in
  let b' := clip s b in
  take (Z.to_nat (b' - a')) (drop (Z.to_nat a') s).

(** [s.find(sub, start)] with a non-negative or negative [start]. *)
Definition find (s sub : string) (start : Z) : Z :=
  let a := clip s start in
  if len s <? (if start <? 0 then start + len s else start) then -1
  else find_at sub (drop (Z.to_nat a) s) a.

(** [" ".join(l)]. *)
Fixpoint join (sep : string) (l : list string) : string :=
  match l with
  | [] => EmptyString
  | [x] => x
  | x :: r => x ++ sep ++ join sep r
  end.

(** [v[i]] for a non-negative literal index [i]: [TypeError] on values
    that cannot be subscripted, [IndexError] out of range. *)
Definition getitem (v : pyval) (i : nat) : result pyval :=
  match v with
  | PTuple l | PList l =>
      match nth_error l i with
      | Some x => Ok x
      | None => Raise (mkExn IndexError "index out of range" [])
      end
  | PStr s =>
      match String.get i s with
      | Some c => Ok (PStr (String c EmptyString))
      | None => Raise (mkExn IndexError "string index out of range" [])
      end
  | PNone | PInt _ =>
      Raise (mkExn TypeError "object has no attribute '__getitem__'" [])
  end.

(** [l[-1]] on a list. *)
Definition last_item {A : Type} (l : list A) : result A :=
  match rev l with
  | x :: _ => Ok x
  | [] => Raise (mkExn IndexError "list index out of range" [])
  end.

End Py.

(** ** The mailbox object, its collaborators and the world *)

(** A copy/move/trash target as the code inspects it with [isinstance]:
    a [str], an [ImapMailbox] (the identity of the object, the identity
    of its server object and its folder name), another [mailbox.Mailbox],
    or anything else. *)
Inductive target : Type :=
| TStr (name : string)
| TImapMailbox (id : nat) (server : nat) (name : string)
| TMailbox (id : nat)
| TOther.


(** Modelled from the spec: the class [ImapMessage] (ProcImap/ImapMessage.py
    is not part of the sources at hand).  The spec's MessageView is "a
    materialized message composed of (a) parsed header/body content built
    from a RawMessage, (b) its FlagSet snapshot at fetch time, (c) its
    internal received-timestamp, (d) its byte size". *)
Record ImapMessage : Type := mkImapMessage {
  im_content : pyval;
  im_flags : list string;
  internaldate : pyval;
  size : pyval
}.

(** Modelled from the spec: [ImapMessage(rfc822string)], a message built
    from raw text whose flag set, internal date and size are not yet set. *)
Definition ImapMessage_of (rfc822string : pyval) : ImapMessage :=
  mkImapMessage rfc822string [] PNone PNone.

Definition set_imapflags_msg (m : ImapMessage) (flags : list string) : ImapMessage :=
  mkImapMessage (im_content m) flags (internaldate m) (size m).
Definition set_internaldate (m : ImapMessage) (d : pyval) : ImapMessage :=
  mkImapMessage (im_content m) (im_flags m) d (size m).
Definition set_size (m : ImapMessage) (n : pyval) : ImapMessage :=
  mkImapMessage (im_content m) (im_flags m) (internaldate m) n.

(** The attributes of an [ImapMailbox] instance.  [_server] is the
    identity of the [ImapServer] object the instance is bound to;
    [_factory] is [None] when the factory is the class [ImapMessage]
    itself (the default). *)
Record ImapMailbox : Type := mkImapMailbox {
  name : string;
  _server : nat;
  _factory : option (ImapMessage -> ImapMessage);
  _cached_uid : option Z;
  _cached_text : pyval;
  trash : option target
}.

(** The calls a [mailbox.Mailbox] target receives from [copy]. *)
Inductive mailbox_call : Type :=
| McLock
| McAdd (m : ImapMessage)
| McFlush
| McUnlock.

(** One entry of the trace: a call the mailbox issued to a collaborator. *)
Inductive event : Type :=
| EUid (command : string) (args : list pyval)
| EAppend (mailbox flags date_time message : string)
| EExpunge
| ESelect (mailbox : string)
| ECreate (mailbox : string)
| EClose
| ELogout
| EReconnect
| ELogin
| ETarget (id : nat) (call : mailbox_call).

(** The session port: what an [ImapServer] object (and, for foreign
    targets, a [mailbox.Mailbox] object) does when called.  [S] is the
    state of everything behind the session.  Every call may raise. *)
Class SessionPort (S : Type) : Type := {
  port_uid : string -> list pyval -> S -> result (string * pyval) * S;
  port_append : string -> string -> string -> string -> S -> result (string * pyval) * S;
  port_expunge : S -> result unit * S;
  port_select : string -> S -> result unit * S;
  port_create : string -> S -> result unit * S;
  port_close : S -> result unit * S;
  port_logout : S -> result unit * S;
  port_reconnect : S -> result unit * S;
  port_login : S -> result unit * S;
  port_target : nat -> mailbox_call -> S -> result unit * S
}.

(** The library functions the module imports: [imaplib.ParseFlags],
    [imaplib.Internaldate2tuple], and the serialisation of an
    [ImapMessage] that [add] asks for. *)
Class MessageLib : Type := {
  ParseFlags : pyval -> result (list string);
  Internaldate2tuple : pyval -> result pyval;
  flagstring : ImapMessage -> string;
  internaldatestring : ImapMessage -> string;
  flatten : ImapMessage -> string
}.

Record World (S : Type) : Type := mkWorld {
  self : ImapMailbox;
  remote : S;
  trace : list event;
  stdout : list (string * option target)
}.
Arguments mkWorld {S}.
Arguments self {S}.
Arguments remote {S}.
Arguments trace {S}.
Arguments stdout {S}.

(** ** The state-and-exception monad *)

Definition M (S A : Type) : Type := World S -> result A * World S.

Definition ret {S A : Type} (a : A) : M S A := fun w => (Ok a, w).

Definition bind {S A B : Type} (m : M S A) (k : A -> M S B) : M S B :=
  fun w =>
    match m w with
    | (Ok a, w') => k a w'
    | (Raise e, w') => (Raise e, w')
    end.

Definition raise {S A : Type} (k : exn_class) (fmt : string) (args : list pyval) : M S A :=
  fun w => (Raise (mkExn k fmt args), w).

Definition lift {S A : Type} (r : result A) : M S A := fun w => (r, w).

(** Run [m] and hand its outcome, normal or exceptional, to the caller. *)
Definition attempt {S A : Type} (m : M S A) : M S (result A) :=
  fun w => let (r, w') := m w in (Ok r, w').

(** [try: body except K1, K2, ...: handler], the handler seeing the
    exception; exceptions of other classes propagate. *)
Definition try_except {S A : Type} (body : M S A) (classes : list exn_class)
    (handler : exn -> M S A) : M S A :=
  fun w =>
    match body w with
    | (Ok a, w') => (Ok a, w')
    | (Raise e, w') =>
        if existsb (isinstance_exn e) classes then handler e w'
        else (Raise e, w')
    end.

(** [try: body except: handler], a bare [except]. *)
Definition try_except_all {S A : Type} (body : M S A) (handler : M S A) : M S A :=
  fun w =>
    match body w with
    | (Ok a, w') => (Ok a, w')
    | (Raise _, w') => handler w'
    end.

(** [try: body finally: final]. *)
Definition try_finally {S A : Type} (body : M S A) (final : M S unit) : M S A :=
  fun w =>
    let (r, w') := body w in
    match final w' with
    | (Ok _, w'') => (r, w'')
    | (Raise e, w'') => (Raise e, w'')
    end.

Declare Scope py_scope.
Delimit Scope py_scope with py.
Notation "x <- m ;; k" := (bind m (fun x => k))
  (at level 61, m at next level, right associativity) : py_scope.
Notation "' pat <- m ;; k" := (bind m (fun x => match x with pat => k end))
  (at level 61, pat pattern, m at next level, right associativity) : py_scope.
Notation "m ;; k" := (bind m (fun _ => k))
  (at level 61, right associativity) : py_scope.
Local Open Scope py_scope.

Definition get_self {S : Type} : M S ImapMailbox := fun w => (Ok (self w), w).

Definition set_self {S : Type} (f : ImapMailbox -> ImapMailbox) : M S unit :=
  fun w => (Ok tt, mkWorld (f (self w)) (remote w) (trace w) (stdout w)).

Definition set_name (n : string) (me : ImapMailbox) : ImapMailbox :=
  mkImapMailbox n (_server me) (_factory me) (_cached_uid me) (_cached_text me) (trash me).
Definition set__cached_uid (u : option Z) (me : ImapMailbox) : ImapMailbox :=
  mkImapMailbox (name me) (_server me) (_factory me) u (_cached_text me) (trash me).
Definition set__cached_text (t : pyval) (me : ImapMailbox) : ImapMailbox :=
  mkImapMailbox (name me) (_server me) (_factory me) (_cached_uid me) t (trash me).
Definition set_trash (t : option target) (me : ImapMailbox) : ImapMailbox :=
  mkImapMailbox (name me) (_server me) (_factory me) (_cached_uid me) (_cached_text me) t.

(** [print fmt % arg]. *)
Definition print {S : Type} (fmt : string) (arg : option target) : M S unit :=
  fun w => (Ok tt, mkWorld (self w) (remote w) (trace w) (stdout w ++ [(fmt, arg)])).

(** A call through the session: the server moves on, the call is traced. *)
Definition call {S A : Type} (ev : event) (op : S -> result A * S) : M S A :=
  fun w =>
    let (r, s') := op (remote w) in
    (r, mkWorld (self w) s' (trace w ++ [ev]) (stdout w)).

(** ** The methods of [ImapMailbox] *)

Definition FIX_BUGGY_IMAP_FROMLINE : bool := false.

Definition py_of_option (o : option string) : pyval :=
  match o with
  | None => PNone
  | Some s => PStr s
  end.

(** ["%s" % x] for [x] a string or [None]. *)
Definition percent_s (o : option string) : string :=
  match o with
  | None => "None"
  | Some s => s
  end.

(** [x.split()]: only strings have the method. *)
Definition py_split {S : Type} (v : pyval) : M S (list string) :=
  match v with
  | PStr s => ret (Py.split s)
  | _ => raise AttributeError "object has no attribute 'split'" []
  end.

Definition opt_Z_eqb (a b : option Z) : bool :=
  match a, b with
  | Some x, Some y => Z.eqb x y
  | None, None => true
  | _, _ => false
  end.

Definition mem_Z (u : Z) (l : list Z) : bool := existsb (Z.eqb u) l.

(** [ImapMailbox.__eq__(self, other)]: equal in server and name. *)
Definition mailbox_eq (me : ImapMailbox) (other : target) : bool :=
  match other with
  | TImapMailbox _ srv nm => Nat.eqb (_server me) srv && String.eqb (name me) nm
  | _ => false
  end.

Section Methods.

Context {S : Type} `{Port : SessionPort S} `{Lib : MessageLib}.

Local Abbreviation M := (M S).

Definition server_uid (command : string) (args : list pyval) : M (string * pyval) :=
  call (EUid command args) (port_uid command args).

Definition server_append (mailbox flags date_time message : string) : M (string * pyval) :=
  call (EAppend mailbox flags date_time message)
       (port_append mailbox flags date_time message).

Definition server_expunge : M unit := call EExpunge port_expunge.
Definition server_select (mailbox : string) : M unit :=
  call (ESelect mailbox) (port_select mailbox).
Definition server_create (mailbox : string) : M unit :=
  call (ECreate mailbox) (port_create mailbox).
Definition server_close : M unit := call EClose port_close.
Definition server_logout : M unit := call ELogout port_logout.
Definition server_reconnect : M unit := call EReconnect port_reconnect.
Definition server_login : M unit := call ELogin port_login.
Definition target_call (id : nat) (c : mailbox_call) : M unit :=
  call (ETarget id c) (port_target id c).

(** [__init__((server, name), factory, create)], run on the object under
    construction ([server] and [factory] are already stored). *)
Definition __init__ (nm : string) (create : bool) : M unit :=
  set_self (set_name nm) ;;
  try_except (server_select nm) [NoSuchMailboxError]
    (fun _ =>
       if create then server_create nm ;; server_select nm
       else raise NoSuchMailboxError "mailbox %s does not exist." [PStr nm]) ;;
  set_self (set__cached_uid None) ;;
  set_self (set__cached_text PNone) ;;
  set_self (set_trash None).

(** [expunge()] and [flush()]. *)
Definition expunge : M unit := server_expunge.
Definition flush : M unit := expunge.

(** [reconnect()].  The inner handler reads the name [create], which is
    neither a local nor a global of the module.  The wrapper attribute
    [self.server] rebuilt in the [finally] clause is a view of [_server]
    and carries no state. *)
Definition reconnect : M unit :=
  server_reconnect ;;
  server_login ;;
  me <- get_self ;;
  try_finally
    (try_except_all (server_select (name me))
       (server_reconnect ;;
        server_login ;;
        try_except (server_select (name me)) [NoSuchMailboxError]
          (fun _ => raise NameError "global name 'create' is not defined" [])))
    (ret tt).

(** [switch(name, create=False)]. *)
Definition switch (nm : string) (create : bool) : M unit :=
  flush ;;
  set_self (set_name nm) ;;
  try_except (server_select nm) [NoSuchMailboxError]
    (fun _ =>
       if create then server_create nm ;; server_select nm
       else raise NoSuchMailboxError "mailbox %s does not exist." [PStr nm]) ;;
  set_self (set__cached_uid None) ;;
  set_self (set__cached_text PNone).

(** [search(criteria='ALL', charset=None)]. *)
Definition search (criteria : option string) (charset : option string) : M (list Z) :=
  '(code, data) <- server_uid "search"
                     [py_of_option charset; PStr ("(" ++ percent_s criteria ++ ")")] ;;
  d0 <- lift (Py.getitem data 0) ;;
  uidlist <- py_split d0 ;;
  if negb (String.eqb code "OK") then
    raise ImapNotOkError "%s in search" [PStr code]
  else
    match Py.ints uidlist with
    | Some uids => ret uids
    | None => raise ImapNotOkError "received unparsable response." []
    end.

Definition get_unseen_uids : M (list Z) := search (Some "UNSEEN UNDELETED") None.
Definition get_all_uids : M (list Z) := search (Some "UNDELETED") None.

(** The [FIX_BUGGY_IMAP_FROMLINE] adjustment of [_cache_message]. *)
Definition fix_fromline (rfc822string : pyval) : M pyval :=
  if FIX_BUGGY_IMAP_FROMLINE then
    match rfc822string with
    | PStr s =>
        if Py.prefix ">From " s then
          ret (PStr (Py.slice s (Py.find s (String "010"%char EmptyString) 0 + 1) (Py.len s)))
        else ret rfc822string
    | _ => raise AttributeError "object has no attribute 'startswith'" []
    end
  else ret rfc822string.

(** [_cache_message(uid)]. *)
Definition _cache_message (uid : Z) : M pyval :=
  me <- get_self ;;
  (if negb (opt_Z_eqb (_cached_uid me) (Some uid)) then
     '(code, data) <- server_uid "fetch" [PInt uid; PStr "(RFC822)"] ;;
     (if negb (String.eqb code "OK") then
        raise ImapNotOkError "%s in fetch_message(%s)" [PStr code; PInt uid]
      else ret tt) ;;
     rfc822string <-
       try_except
         (d0 <- lift (Py.getitem data 0) ;;
          r <- lift (Py.getitem d0 1) ;;
          fix_fromline r)
         [TypeError]
         (fun _ => raise KeyError "No message %s in _cache_message" [PInt uid]) ;;
     set_self (set__cached_uid (Some uid)) ;;
     set_self (set__cached_text rfc822string)
   else ret tt) ;;
  me' <- get_self ;;
  ret (_cached_text me').

(** [get_imapflags(uid)].  The handler formats [code] and [data] into
    its message: when the fetch itself raised, they are unbound. *)
Definition get_imapflags (uid : Z) : M (list string) :=
  r <- attempt (server_uid "fetch" [PInt uid; PStr "(FLAGS)"]) ;;
  match r with
  | Raise e =>
      if isinstance_exn e TypeError || isinstance_exn e ValueError then
        raise UnboundLocalError
          "local variable 'code' referenced before assignment" []
      else lift (Raise e)
  | Ok (code, data) =>
      try_except
        (flagresult <- lift (Py.getitem data 0) ;;
         (if negb (String.eqb code "OK") then
            raise ImapNotOkError "%s in get_imapflags(%s)" [PStr code; PInt uid]
          else ret tt) ;;
         lift (ParseFlags flagresult))
        [TypeError; ValueError]
        (fun _ =>
           raise ValueError
             "Unexpected results while fetching flags from server for message %s; response was (%s, %s)"
             [PInt uid; PStr code; data])
  end.

(** [get_internaldate(uid)]. *)
Definition get_internaldate (uid : Z) : M pyval :=
  try_except
    ('(code, data) <- server_uid "fetch" [PInt uid; PStr "(INTERNALDATE)"] ;;
     dateresult <- lift (Py.getitem data 0) ;;
     (if negb (String.eqb code "OK") then
        raise ImapNotOkError "%s in get_internaldate(%s)" [PStr code; PInt uid]
      else ret tt) ;;
     match dateresult with
     | PNone => raise NoSuchUIDError "No message %s in get_internaldate" [PInt uid]
     | _ => lift (Internaldate2tuple dateresult)
     end)
    [TypeError; ValueError]
    (fun _ =>
       raise ValueError
         "Unexpected results while fetching flags from server for message %s"
         [PInt uid]).

(** [get_size(uid)]: the digits after ["SIZE "], up to the next blank. *)
Definition get_size (uid : Z) : M Z :=
  try_except
    ('(code, data) <- server_uid "fetch" [PInt uid; PStr "(RFC822.SIZE)"] ;;
     sizeresult <- lift (Py.getitem data 0) ;;
     (if negb (String.eqb code "OK") then
        raise ImapNotOkError "%s in get_imapflags(%s)" [PStr code; PInt uid]
      else ret tt) ;;
     match sizeresult with
     | PNone => raise NoSuchUIDError "No message %s in get_size" [PInt uid]
     | PStr s =>
         let startindex := Py.find s "SIZE" 0 + 5 in
         let stopindex := Py.find s " " startindex in
         match Py.int (Py.slice s startindex stopindex) with
         | Some n => ret n
         | None => raise ValueError "invalid literal for int() with base 10" []
         end
     | _ => raise AttributeError "object has no attribute 'find'" []
     end)
    [TypeError; ValueError]
    (fun _ =>
       raise ValueError
         "Unexpected results while fetching flags from server for message %s"
         [PInt uid]).

(** [get_message(uid)], also [__getitem__]. *)
Definition get_message (uid : Z) : M ImapMessage :=
  rfc822string <- _cache_message uid ;;
  let result := ImapMessage_of rfc822string in
  flags <- get_imapflags uid ;;
  let result := set_imapflags_msg result flags in
  date <- get_internaldate uid ;;
  let result := set_internaldate result date in
  n <- get_size uid ;;
  let result := set_size result (PInt n) in
  me <- get_self ;;
  match _factory me with
  | None => ret result
  | Some factory => ret (factory result)
  end.

Definition __getitem__ (uid : Z) : M ImapMessage := get_message uid.

(** [get(uid, default=None)]. *)
Definition get (uid : Z) (default : pyval) : M (ImapMessage + pyval) :=
  try_except (m <- __getitem__ uid ;; ret (inl m)) [KeyError]
    (fun _ => ret (inr default)).

(** [get_string(uid)] and [get_file(uid)]; the [StringIO] wrapper holds
    the same text. *)
Definition get_string (uid : Z) : M pyval := _cache_message uid.
Definition get_file (uid : Z) : M pyval := _cache_message uid.

Definition has_key (uid : Z) : M bool :=
  uids <- search (Some "ALL") None ;;
  ret (mem_Z uid uids).

Definition __contains__ (uid : Z) : M bool := has_key uid.

Definition __len__ : M Z :=
  uids <- search (Some "ALL") None ;;
  ret (Z.of_nat (List.length uids)).

(** [for flag in flags: store ...], used by the two flag methods. *)
Fixpoint store_each (uid : Z) (mode fmt : string) (flags : list string) : M unit :=
  match flags with
  | [] => ret tt
  | flag :: rest =>
      '(code, data) <- server_uid "store"
                         [PInt uid; PStr mode; PStr ("(" ++ flag ++ ")")] ;;
      (if negb (String.eqb code "OK") then
         raise ImapNotOkError fmt [PInt uid; PStr flag; PStr code; data]
       else ret tt) ;;
      store_each uid mode fmt rest
  end.

(** [add_imapflag(uid, *flags)]. *)
Definition add_imapflag (uid : Z) (flags : list string) : M unit :=
  store_each uid "+FLAGS" "%s in add_flags(%s, %s): %s" flags.

(** [remove_imapflag(uid, *flags)]. *)
Definition remove_imapflag (uid : Z) (flags : list string) : M unit :=
  store_each uid "-FLAGS" "%s in remove_flag(%s, %s): %s" flags.

(** [set_imapflags(uid, flags)], [flags] already a list (a lone string is
    wrapped into one by the method). *)
Definition set_imapflags (uid : Z) (flags : list string) : M unit :=
  let flagstring := "(" ++ Py.join " " flags ++ ")" in
  '(code, data) <- server_uid "store" [PInt uid; PStr "FLAGS"; PStr flagstring] ;;
  if negb (String.eqb code "OK") then
    raise ImapNotOkError "%s in set_imapflags(%s, %s): %s"
      [PStr code; PInt uid; PList (map PStr flags); data]
  else ret tt.

(** [add(message)], [message] already an [ImapMessage]. *)
Definition add (message : ImapMessage) : M Z :=
  let flags := flagstring message in
  let date_time := internaldatestring message in
  let message_str := flatten message in
  me <- get_self ;;
  '(code, data) <- server_append (name me) flags date_time message_str ;;
  (if negb (String.eqb code "OK") then
     raise ImapNotOkError "%s in add: %s" [PStr code; data]
   else ret tt) ;;
  uids <- get_all_uids ;;
  lift (Py.last_item uids).

(** [copy(uid, targetmailbox)]. *)
Definition copy (uid : Z) (targetmailbox : target) : M unit :=
  me <- get_self ;;
  let targetmailbox :=
    match targetmailbox with
    | TImapMailbox _ srv nm =>
        if Nat.eqb srv (_server me) then TStr nm else targetmailbox
    | _ => targetmailbox
    end in
  match targetmailbox with
  | TImapMailbox id _ _ | TMailbox id =>
      if negb (mailbox_eq me targetmailbox) then
        target_call id McLock ;;
        m <- __getitem__ uid ;;
        target_call id (McAdd m) ;;
        target_call id McFlush ;;
        target_call id McUnlock
      else ret tt
  | TStr nm =>
      if negb (String.eqb nm (name me)) then
        '(code, data) <- server_uid "copy" [PInt uid; PStr nm] ;;
        if negb (String.eqb code "OK") then
          raise ImapNotOkError "%s in copy: %s" [PStr code; data]
        else ret tt
      else ret tt
  | TOther => raise TypeError "targetmailbox in copy is of unknown type." []
  end.

(** [targetmailbox != self.name]: only a string can equal the name. *)
Definition ne_name (me : ImapMailbox) (t : target) : bool :=
  match t with
  | TStr nm => negb (String.eqb nm (name me))
  | _ => true
  end.

(** [move(uid, targetmailbox)]. *)
Definition move (uid : Z) (targetmailbox : target) : M unit :=
  copy uid targetmailbox ;;
  me <- get_self ;;
  if negb (mailbox_eq me targetmailbox) && ne_name me targetmailbox then
    '(code, data) <- server_uid "store"
                       [PInt uid; PStr "+FLAGS"; PStr "(\Deleted)"] ;;
    if negb (String.eqb code "OK") then
      raise ImapNotOkError "%s in move: %s" [PStr code; data]
    else ret tt
  else ret tt.

(** [discard(uid)]. *)
Definition discard (uid : Z) : M unit :=
  me <- get_self ;;
  match trash me with
  | None => add_imapflag uid ["\Deleted"]
  | Some t =>
      print "Moving to %s" (Some t) ;;
      move uid t
  end.

(** [remove(uid)], also [__delitem__]. *)
Definition remove (uid : Z) : M unit :=
  uids <- search (Some "ALL") None ;;
  (if negb (mem_Z uid uids) then raise KeyError "No UID %s" [PInt uid]
   else ret tt) ;;
  discard uid.

Definition __delitem__ (uid : Z) : M unit := remove uid.

(** [clear()]. *)
Fixpoint discard_each (uids : list Z) : M unit :=
  match uids with
  | [] => ret tt
  | uid :: rest => discard uid ;; discard_each rest
  end.

Definition clear : M unit :=
  uids <- get_all_uids ;;
  discard_each uids ;;
  expunge.

(** [pop(uid, default=None)]; [default = PNone] is Python's [None],
    whether written by the caller or left to the parameter's default. *)
Definition pop (uid : Z) (default : pyval) : M (ImapMessage + pyval) :=
  try_except
    (message <- __getitem__ uid ;;
     __delitem__ uid ;;
     expunge ;;
     ret (inl message))
    [KeyError]
    (fun _ =>
       match default with
       | PNone => raise KeyError "No such UID" []
       | _ => ret (inr default)
       end).


(** [iterkeys()]: an iterator over the list [search("ALL")] returned;
    the iterator is the list of the keys it has yet to yield. *)
Definition iterkeys : M (list Z) := search (Some "ALL") None.

(** [list(it)]: exhausting an iterator. *)
Definition exhaust {A : Type} (it : list A) : list A := it.

(** [keys()]: the call is [self.search(None, "ALL")]. *)
Definition keys : M (list Z) := search None (Some "ALL").

(** [close()]. *)
Definition close : M unit :=
  flush ;;
  server_close ;;
  server_logout.

(** [get_header(uid)]: the header is fetched on each call, never through
    the cache. *)
Definition get_header (uid : Z) : M ImapMessage :=
  '(code, data) <- server_uid "fetch" [PInt uid; PStr "(BODY.PEEK[HEADER])"] ;;
  (if negb (String.eqb code "OK") then
     raise ImapNotOkError "%s in fetch_header(%s)" [PStr code; PInt uid]
   else ret tt) ;;
  rfc822string <-
    try_except
      (d0 <- lift (Py.getitem data 0) ;;
       lift (Py.getitem d0 1))
      [TypeError]
      (fun _ => raise KeyError "No UID %s in get_header" [PInt uid]) ;;
  let result := ImapMessage_of rfc822string in
  flags <- get_imapflags uid ;;
  let result := set_imapflags_msg result flags in
  date <- get_internaldate uid ;;
  let result := set_internaldate result date in
  n <- get_size uid ;;
  let result := set_size result (PInt n) in
  me <- get_self ;;
  match _factory me with
  | None => ret result
  | Some factory => ret (factory result)
  end.

(** [update(arg)] and [__setitem__(uid, message)]. *)
Definition update : M unit :=
  raise NotSupportedError "Updating items in IMAP not supported" [].

Definition __setitem__ (uid : Z) (message : ImapMessage) : M unit :=
  raise NotSupportedError "Setting items in IMAP not supported" [].

(** [lock()] and [unlock()]. *)
Definition lock : M unit := ret tt.
Definition unlock : M unit := ret tt.

(** [for uid in uids: ... self[uid]], the loop of [itervalues] run to its
    end. *)
Fixpoint get_each (uids : list Z) : M (list ImapMessage) :=
  match uids with
  | [] => ret []
  | uid :: rest =>
      m <- __getitem__ uid ;;
      ms <- get_each rest ;;
      ret (m :: ms)
  end.

(** [values()]: the generator [itervalues()] (also [__iter__()]) run to
    exhaustion, its search issued first. *)
Definition values : M (list ImapMessage) :=
  uids <- search (Some "ALL") None ;;
  get_each uids.

(** The loop of [items] and [iteritems]. *)
Fixpoint pair_each (uids : list Z) : M (list (Z * ImapMessage)) :=
  match uids with
  | [] => ret []
  | uid :: rest =>
      m <- __getitem__ uid ;;
      ps <- pair_each rest ;;
      ret ((uid, m) :: ps)
  end.

(** [items()], over [self.keys()]. *)
Definition items : M (list (Z * ImapMessage)) :=
  uids <- keys ;;
  pair_each uids.

End Methods.

(** ** A model of the server behind the session *)

Module Server.

(** Modelled from the spec: the remote mail store behind the Session
    Port (ProcImap/ImapServer.py and the IMAP server it talks to are not
    part of the sources at hand).  A folder holds messages keyed by UID,
    "unique and monotonically non-decreasing within one folder's
    lifetime"; each message carries its flag set, its internal date and
    its raw text. *)
Record stored : Type := mkStored {
  s_uid : Z;
  s_flags : list string;
  s_date : string;
  s_text : string
}.

Record folder : Type := mkFolder {
  messages : list stored;
  uidnext : Z
}.

(** The folders by name, the folder the session has selected, and what
    foreign [mailbox.Mailbox] targets have been handed, oldest first. *)
Record state : Type := mkState {
  folders : list (string * folder);
  selected : option string;
  delivered : list (nat * ImapMessage)
}.

Fixpoint lookup (nm : string) (fs : list (string * folder)) : option folder :=
  match fs with
  | [] => None
  | (k, f) :: r => if String.eqb k nm then Some f else lookup nm r
  end.

Fixpoint update (nm : string) (f : folder) (fs : list (string * folder))
    : list (string * folder) :=
  match fs with
  | [] => [(nm, f)]
  | (k, g) :: r => if String.eqb k nm then (k, f) :: r else (k, g) :: update nm f r
  end.

Definition current (s : state) : option folder :=
  match selected s with
  | None => None
  | Some nm => lookup nm (folders s)
  end.

Definition set_current (s : state) (f : folder) : state :=
  match selected s with
  | None => s
  | Some nm => mkState (update nm f (folders s)) (selected s) (delivered s)
  end.

Definition has_flag (flag : string) (m : stored) : bool :=
  existsb (String.eqb flag) (s_flags m).

Definition deleted (m : stored) : bool := has_flag "\Deleted" m.

Definition uids_of (ms : list stored) : list Z := map s_uid ms.

(** The position (from 1) and the message with a given UID. *)
Fixpoint locate (u : Z) (n : Z) (ms : list stored) : option (Z * stored) :=
  match ms with
  | [] => None
  | m :: r => if Z.eqb (s_uid m) u then Some (n, m) else locate u (n + 1) r
  end.

Fixpoint replace (u : Z) (f : stored -> stored) (ms : list stored) : list stored :=
  match ms with
  | [] => []
  | m :: r => if Z.eqb (s_uid m) u then f m :: r else m :: replace u f r
  end.

Definition quote : string := String "034"%char EmptyString.

(** A parenthesised flag list, ["(\Seen \Deleted)"], as its tokens. *)
Fixpoint unparen (s : string) : string :=
  match s with
  | EmptyString => EmptyString
  | String c r =>
      String (if Ascii.eqb c "("%char || Ascii.eqb c ")"%char then " "%char else c)
             (unparen r)
  end.

Definition flags_of_spec (spec : string) : list string := Py.split (unparen spec).

Fixpoint add_flags (new old : list string) : list string :=
  match new with
  | [] => old
  | f :: r =>
      if existsb (String.eqb f) old then add_flags r old
      else add_flags r (old ++ [f])
  end.

Definition remove_flags (gone old : list string) : list string :=
  filter (fun f => negb (existsb (String.eqb f) gone)) old.

Definition with_flags (fl : list string) (m : stored) : stored :=
  mkStored (s_uid m) fl (s_date m) (s_text m).

Definition ok (v : pyval) : result (string * pyval) := Ok ("OK", PList [v]).
Definition status (code text : string) : result (string * pyval) :=
  Ok (code, PList [PStr text]).

Definition head_of (n u : Z) : string :=
  Py.str_int n ++ " (UID " ++ Py.str_int u ++ " ".

(** Modelled from the spec: what the search command answers.  "ALL" is
    every message in the folder, flagged deleted or not, until an
    expunge removes it; the answer is "decimal-integer text". *)
Definition matching (crit : string) (ms : list stored) : option (list Z) :=
  if String.eqb crit "(ALL)" then Some (uids_of ms)
  else if String.eqb crit "(UNDELETED)" then
    Some (uids_of (filter (fun m => negb (deleted m)) ms))
  else if String.eqb crit "(DELETED)" then
    Some (uids_of (filter deleted ms))
  else if String.eqb crit "(UNSEEN UNDELETED)" then
    Some (uids_of (filter (fun m => negb (has_flag "\Seen" m) && negb (deleted m)) ms))
  else None.

(** Modelled from the spec: what a fetch of one item answers for a
    message that exists: "raw bytes for fetch bodies, textual tokens
    for flags/size/date". *)
Definition fetch (item : string) (n : Z) (m : stored) : result (string * pyval) :=
  let h := head_of n (s_uid m) in
  if String.eqb item "(RFC822)" then
    Ok ("OK", PList [PTuple [PStr (h ++ "RFC822 {" ++ Py.str_int (Py.len (s_text m)) ++ "}");
                             PStr (s_text m)];
                     PStr ")"])
  else if String.eqb item "(FLAGS)" then
    ok (PStr (h ++ "FLAGS (" ++ Py.join " " (s_flags m) ++ "))"))
  else if String.eqb item "(INTERNALDATE)" then
    ok (PStr (h ++ "INTERNALDATE " ++ quote ++ s_date m ++ quote ++ ")"))
  else if String.eqb item "(RFC822.SIZE)" then
    ok (PStr (h ++ "RFC822.SIZE " ++ Py.str_int (Py.len (s_text m)) ++ ")"))
  else status "BAD" "Could not parse command".

Definition store (mode spec : string) (m : stored) : option stored :=
  let fl := flags_of_spec spec in
  if String.eqb mode "+FLAGS" then Some (with_flags (add_flags fl (s_flags m)) m)
  else if String.eqb mode "-FLAGS" then Some (with_flags (remove_flags fl (s_flags m)) m)
  else if String.eqb mode "FLAGS" then Some (with_flags fl m)
  else None.

Definition deliver (f : folder) (fl : list string) (date text : string) : folder :=
  mkFolder (messages f ++ [mkStored (uidnext f) fl date text]) (uidnext f + 1).

Definition no_session : exn := mkExn (OtherError "imaplib.error") "no mailbox selected" [].

(** Modelled from the spec: [uidCommand(command, ...args) ->
    (statusCode, responseData)] for the commands the mailbox issues. *)
Definition on_uid (command : string) (args : list pyval) (s : state)
    : result (string * pyval) * state :=
  match current s with
  | None => (Raise no_session, s)
  | Some f =>
      match command, args with
      | "search", [PNone; PStr crit] =>
          match matching crit (messages f) with
          | Some us => (ok (PStr (Py.join " " (map Py.str_int us))), s)
          | None => (status "BAD" "Could not parse command", s)
          end
      | "fetch", [PInt u; PStr item] =>
          match locate u 1 (messages f) with
          | Some (n, m) => (fetch item n m, s)
          | None => (ok PNone, s)
          end
      | "store", [PInt u; PStr mode; PStr spec] =>
          match locate u 1 (messages f) with
          | Some (n, m) =>
              match store mode spec m with
              | Some m' =>
                  (ok (PStr (head_of n u ++ "FLAGS (" ++ Py.join " " (s_flags m') ++ "))")),
                   set_current s (mkFolder (replace u (fun _ => m') (messages f)) (uidnext f)))
              | None => (status "BAD" "Could not parse command", s)
              end
          | None => (ok PNone, s)
          end
      | "copy", [PInt u; PStr nm] =>
          match lookup nm (folders s) with
          | None => (status "NO" "[TRYCREATE] Mailbox does not exist", s)
          | Some g =>
              match locate u 1 (messages f) with
              | Some (_, m) =>
                  (ok (PStr "Copy completed"),
                   mkState (update nm (deliver g (s_flags m) (s_date m) (s_text m)) (folders s))
                           (selected s) (delivered s))
              | None => (ok PNone, s)
              end
          end
      | _, _ => (status "BAD" "Could not parse command", s)
      end
  end.

(** Modelled from the spec: [append(folderName, flagString, dateString,
    messageBytes) -> (statusCode, responseData)]. *)
Definition on_append (nm flags date text : string) (s : state)
    : result (string * pyval) * state :=
  match lookup nm (folders s) with
  | None => (status "NO" "[TRYCREATE] Mailbox does not exist", s)
  | Some g =>
      (ok (PStr "Append completed"),
       mkState (update nm (deliver g (flags_of_spec flags) date text) (folders s))
               (selected s) (delivered s))
  end.

(** Modelled from the spec: "Expunge: permanent removal of all messages
    currently marked deleted." *)
Definition on_expunge (s : state) : result unit * state :=
  match current s with
  | None => (Raise no_session, s)
  | Some f =>
      (Ok tt, set_current s (mkFolder (filter (fun m => negb (deleted m)) (messages f))
                                      (uidnext f)))
  end.

(** Modelled from the spec: "[select(folderName)]: makes folderName the
    active folder; fails with NoSuchFolderError if absent." *)
Definition on_select (nm : string) (s : state) : result unit * state :=
  match lookup nm (folders s) with
  | None => (Raise (mkExn NoSuchMailboxError "no such mailbox" [PStr nm]), s)
  | Some _ => (Ok tt, mkState (folders s) (Some nm) (delivered s))
  end.

Definition on_create (nm : string) (s : state) : result unit * state :=
  match lookup nm (folders s) with
  | None => (Ok tt, mkState (update nm (mkFolder [] 1) (folders s)) (selected s) (delivered s))
  | Some _ => (Ok tt, s)
  end.

Definition on_close (s : state) : result unit * state :=
  match on_expunge s with
  | (Ok _, s') => (Ok tt, mkState (folders s') None (delivered s'))
  | (Raise e, s') => (Raise e, s')
  end.

Definition idle (s : state) : result unit * state := (Ok tt, s).

(** A foreign [mailbox.Mailbox]: [add] keeps the message, the other
    calls of the lock/add/flush/unlock lifecycle do nothing. *)
Definition on_target (id : nat) (c : mailbox_call) (s : state) : result unit * state :=
  match c with
  | McAdd m => (Ok tt, mkState (folders s) (selected s) (delivered s ++ [(id, m)]))
  | _ => (Ok tt, s)
  end.

#[global] Instance port : SessionPort state := {
  port_uid := on_uid;
  port_append := on_append;
  port_expunge := on_expunge;
  port_select := on_select;
  port_create := on_create;
  port_close := on_close;
  port_logout := idle;
  port_reconnect := idle;
  port_login := idle;
  port_target := on_target
}.

(** Modelled from the spec: [imaplib.ParseFlags] on the answers above:
    the tokens between ["FLAGS ("] and the next [")"], nothing when the
    answer has no flag list, [TypeError] when it is not a string. *)
Definition parse_flags (v : pyval) : result (list string) :=
  match v with
  | PStr s =>
      let i := Py.find s "FLAGS (" 0 in
      if i <? 0 then Ok []
      else
        let rest := Py.drop (Z.to_nat (i + 7)) s in
        let j := Py.find rest ")" 0 in
        if j <? 0 then Ok [] else Ok (Py.split (Py.take (Z.to_nat j) rest))
  | _ => Raise (mkExn TypeError "expected string or buffer" [])
  end.

(** Modelled from the spec: [imaplib.Internaldate2tuple], keeping the
    quoted timestamp as text; [None] when the answer has none. *)
Definition internaldate_of (v : pyval) : result pyval :=
  match v with
  | PStr s =>
      let i := Py.find s ("INTERNALDATE " ++ quote) 0 in
      if i <? 0 then Ok PNone
      else
        let rest := Py.drop (Z.to_nat (i + 14)) s in
        let j := Py.find rest quote 0 in
        if j <? 0 then Ok PNone else Ok (PStr (Py.take (Z.to_nat j) rest))
  | _ => Raise (mkExn TypeError "expected string or buffer" [])
  end.

(** Modelled from the spec: what [add] sends for a message: "serializes
    the message, computes its flag string and internal-date string". *)
#[global] Instance lib : MessageLib := {
  ParseFlags := parse_flags;
  Internaldate2tuple := internaldate_of;
  flagstring := fun m => "(" ++ Py.join " " (im_flags m) ++ ")";
  internaldatestring := fun m =>
    match internaldate m with
    | PStr d => quote ++ d ++ quote
    | _ => EmptyString
    end;
  flatten := fun m =>
    match im_content m with
    | PStr s => s
    | _ => EmptyString
    end
}.

End Server.

(** ** Sample worlds *)

Module Sample.

Definition msg (u : Z) (fl : list string) (text : string) : Server.stored :=
  Server.mkStored u fl "01-Jan-2008 12:00:00 +0000" text.

Definition inbox : Server.folder :=
  Server.mkFolder
    [msg 5 [] "Subject: five"; msg 9 [] "Subject: nine"; msg 12 ["\Seen"] "Subject: twelve"]
    13.

Definition server_of (f : Server.folder) : Server.state :=
  Server.mkState [("INBOX", f); ("Trash", Server.mkFolder [] 1)] (Some "INBOX") [].

Definition mailbox (tr : option target) : ImapMailbox :=
  mkImapMailbox "INBOX" 0 None None PNone tr.

Definition world_of (f : Server.folder) (tr : option target) : World Server.state :=
  mkWorld (mailbox tr) (server_of f) [] [].

Definition world : World Server.state := world_of inbox None.

End Sample.

(** A scripted session: every call is answered by the next canned
    response, whatever the command.  It stands for a server whose
    answers are known beforehand. *)
Module Scripted.

Definition state : Type := list (result (string * pyval)).

Definition answer (s : state) : result (string * pyval) * state :=
  match s with
  | r :: rest => (r, rest)
  | [] => (Raise (mkExn (OtherError "socket.error") "connection closed" []), [])
  end.

Definition quiet (s : state) : result unit * state := (Ok tt, s).

#[global] Instance port : SessionPort state := {
  port_uid := fun _ _ => answer;
  port_append := fun _ _ _ _ => answer;
  port_expunge := quiet;
  port_select := fun _ => quiet;
  port_create := fun _ => quiet;
  port_close := quiet;
  port_logout := quiet;
  port_reconnect := quiet;
  port_login := quiet;
  port_target := fun _ _ => quiet
}.

Definition world_of (s : state) : World state :=
  mkWorld (mkImapMailbox "INBOX" 0 None None PNone None) s [] [].

End Scripted.

(** [keeps P m]: run from a world whose mailbox object satisfies [P],
    the computation [m] hands the object back as it found it, whatever
    it returns or raises. *)
Definition keeps {S A : Type} (P : ImapMailbox -> Prop) (m : M S A) : Prop :=
  forall w, P (self w) -> self (snd (m w)) = self w.

(** The target is the source folder: its own name, or a mailbox handle
    on the same server with the same name (the mailbox itself included). *)
Definition is_source (me : ImapMailbox) (t : target) : bool :=
  match t with
  | TStr nm => String.eqb nm (name me)
  | TImapMailbox _ srv nm => Nat.eqb srv (_server me) && String.eqb nm (name me)
  | TMailbox _ | TOther => false
  end.

(** The mailbox objects whose cache slot holds UID [u]. *)
Definition caches (u : Z) : ImapMailbox -> Prop := fun me => _cached_uid me = Some u.

(** The flag and deletion operations on one UID. *)
Inductive cache_frame_op : Type :=
| OpAddImapflag (flags : list string)
| OpRemoveImapflag (flags : list string)
| OpSetImapflags (flags : list string)
| OpDiscard
| OpRemove
| OpDelitem.

Definition run_op {S : Type} `{SessionPort S} `{MessageLib}
    (op : cache_frame_op) (uid : Z) : M S unit :=
  match op with
  | OpAddImapflag flags => add_imapflag uid flags
  | OpRemoveImapflag flags => remove_imapflag uid flags
  | OpSetImapflags flags => set_imapflags uid flags
  | OpDiscard => discard uid
  | OpRemove => remove uid
  | OpDelitem => __delitem__ uid
  end.

(** Character classes of a string: every character satisfies [P]. *)
Fixpoint all_chars (P : ascii -> bool) (s : string) : bool :=
  match s with
  | EmptyString => true
  | String c r => P c && all_chars P r
  end.

Definition is_digit (c : ascii) : bool :=
  let n := nat_of_ascii c in (Nat.leb 48 n && Nat.leb n 57)%bool.

Definition numeric (c : ascii) : bool := is_digit c || Ascii.eqb c "-".

(** What [split] yields: a non-empty string without whitespace. *)
Definition token (s : string) : Prop :=
  s <> EmptyString /\ all_chars (fun c => negb (Py.isspace c)) s = true.

(** *** Vocabulary for the cache and the trace *)

(** The raw-fetch request for [u]. *)
Definition fetch_rfc822 (u : Z) : event := EUid "fetch" [PInt u; PStr "(RFC822)"].

Definition event_is_fetch_rfc822 (u : Z) (e : event) : bool :=
  match e with
  | EUid "fetch" [PInt v; PStr "(RFC822)"] => Z.eqb u v
  | _ => false
  end.

(** How many raw-fetch requests for [u] a trace holds. *)
Definition raw_fetches (u : Z) (tr : list event) : nat :=
  List.length (filter (event_is_fetch_rfc822 u) tr).

(** The cache slot: the one (UID, text) pair the mailbox holds, if any. *)
Definition cache_slot (me : ImapMailbox) : option (Z * pyval) :=
  match _cached_uid me with
  | Some u => Some (u, _cached_text me)
  | None => None
  end.

(** The one request a search sends. *)
Definition search_request (criteria charset : option string) : event :=
  EUid "search" [py_of_option charset; PStr ("(" ++ percent_s criteria ++ ")")%string].


(** The fetches of [get_header], in the order it sends them. *)
Definition header_fetches (uid : Z) : list event :=
  [EUid "fetch" [PInt uid; PStr "(BODY.PEEK[HEADER])"];
   EUid "fetch" [PInt uid; PStr "(FLAGS)"];
   EUid "fetch" [PInt uid; PStr "(INTERNALDATE)"];
   EUid "fetch" [PInt uid; PStr "(RFC822.SIZE)"]].

(** *** Vocabulary for worlds run against the server model *)

(** The session has folder [nm] selected, and its content is [f]. *)
Definition serves (s : Server.state) (nm : string) (f : Server.folder) : Prop :=
  Server.selected s = Some nm /\ Server.lookup nm (Server.folders s) = Some f.

(** The server with folder [nm] replaced by [f]. *)
Definition put (s : Server.state) (nm : string) (f : Server.folder) : Server.state :=
  Server.mkState (Server.update nm f (Server.folders s)) (Server.selected s) (Server.delivered s).

(** A message that does not carry the deleted flag. *)
Definition live (m : Server.stored) : bool := negb (Server.deleted m).

(** The world after one more traced call that left the server in [s']. *)
Definition step (w : World Server.state) (s' : Server.state) (ev : event)
    : World Server.state :=
  mkWorld (self w) s' (trace w ++ [ev]) (stdout w).

(** The world after one more traced call that only read the server. *)
Definition tick (w : World Server.state) (ev : event) : World Server.state :=
  step w (remote w) ev.

(** The message a retrieval hands out, after the factory. *)
Definition through_factory (me : ImapMailbox) (m : ImapMessage) : ImapMessage :=
  match _factory me with
  | None => m
  | Some factory => factory m
  end.

(** Two states of the mailbox object that differ at most in the cache. *)
Definition same_box (a b : ImapMailbox) : Prop :=
  name b = name a /\ _server b = _server a /\ _factory b = _factory a /\ trash b = trash a.

(** The folder name a target stands for when it lives on the mailbox's
    own server: a name, or a handle bound to the same server object. *)
Definition folder_on_server (me : ImapMailbox) (t : target) : option string :=
  match t with
  | TStr nm => Some nm
  | TImapMailbox _ srv nm => if Nat.eqb srv (_server me) then Some nm else None
  | TMailbox _ | TOther => None
  end.

(** A stored message with the deleted flag added, as the store of
    ["+FLAGS (\Deleted)"] leaves it. *)
Definition marked (m : Server.stored) : Server.stored :=
  Server.with_flags (Server.add_flags ["\Deleted"%string] (Server.s_flags m)) m.

(** The folder with the message of UID [u] flagged deleted. *)
Definition mark (u : Z) (f : Server.folder) : Server.folder :=
  Server.mkFolder (Server.replace u marked (Server.messages f)) (Server.uidnext f).

(** The folder with the messages of the UIDs [us] flagged deleted, one
    after the other. *)
Definition mark_all (us : list Z) (f : Server.folder) : Server.folder :=
  fold_left (fun g u => mark u g) us f.

(** The folder after an expunge. *)
Definition flushed (f : Server.folder) : Server.folder :=
  Server.mkFolder (filter live (Server.messages f)) (Server.uidnext f).

(** The folder [g] after a server-side copy of [m] into it. *)
Definition copy_of (m : Server.stored) (g : Server.folder) : Server.folder :=
  Server.deliver g (Server.s_flags m) (Server.s_date m) (Server.s_text m).

(** The trash target, when there is one, is a folder of the mailbox's own
    server that exists and is not the source folder. *)
Definition trash_elsewhere (me : ImapMailbox) (s : Server.state) : Prop :=
  match trash me with
  | None => True
  | Some t =>
      exists tn g,
        folder_on_server me t = Some tn /\ tn <> name me /\
        Server.lookup tn (Server.folders s) = Some g
  end.

(** The cache does not contradict the folder: if it holds the UID of
    [m], it holds the text of [m]. *)
Definition coherent (me : ImapMailbox) (m : Server.stored) : Prop :=
  _cached_uid me = Some (Server.s_uid m) -> _cached_text me = PStr (Server.s_text m).

(** The target is a mailbox outside the mailbox's server: a
    [mailbox.Mailbox] of another kind, or an [ImapMailbox] handle bound to
    another server object.  [copy] hands such a target the message
    itself, read with [self[uid]]. *)
Definition outside_server (me : ImapMailbox) (t : target) : bool :=
  match t with
  | TMailbox _ => true
  | TImapMailbox _ srv _ => negb (Nat.eqb srv (_server me))
  | TStr _ | TOther => false
  end.

(** The trash target is a mailbox outside the server. *)
Definition trash_outside (me : ImapMailbox) : bool :=
  match trash me with
  | Some t => outside_server me t
  | None => false
  end.


(** The three operations that only store flags. *)
Definition is_flag_op (op : cache_frame_op) : bool :=
  match op with
  | OpAddImapflag _ | OpRemoveImapflag _ | OpSetImapflags _ => true
  | OpDiscard | OpRemove | OpDelitem => false
  end.

(** ** Properties *)

Local Open Scope list_scope.

(** *** The message cache *)

Lemma opt_Z_eqb_true (a : option Z) (u : Z) :
  opt_Z_eqb a (Some u) = true <-> a = Some u.
Proof.
  destruct a as [x|]; simpl; split; intro H; try discriminate.
  - apply Z.eqb_eq in H. now subst.
  - injection H as ->. apply Z.eqb_refl.
Qed.

Lemma opt_Z_eqb_false (a : option Z) (u : Z) :
  opt_Z_eqb a (Some u) = false <-> a <> Some u.
Proof.
  rewrite <- opt_Z_eqb_true.
  destruct (opt_Z_eqb a (Some u)); split; intro H; congruence.
Qed.

Lemma raw_fetches_app (u : Z) (a b : list event) :
  raw_fetches u (a ++ b) = (raw_fetches u a + raw_fetches u b)%nat.
Proof.
  unfold raw_fetches. now rewrite filter_app, length_app.
Qed.


Section CacheFacts.

Context {S : Type} `{Port : SessionPort S} `{Lib : MessageLib}.

(** A hit: the cached text is returned and the world is untouched. *)
Lemma _cache_message_hit (w : World S) (u : Z) :
  _cached_uid (self w) = Some u ->
  _cache_message u w = (Ok (_cached_text (self w)), w).
Proof.
  intro H. unfold _cache_message, bind, get_self, ret.
  apply opt_Z_eqb_true in H. rewrite H. reflexivity.
Qed.


End CacheFacts.

Section Cache.

Context {S : Type} `{Port : SessionPort S} `{Lib : MessageLib}.


Lemma cache_slot_uid (me : ImapMailbox) (u : Z) (t : pyval) :
  cache_slot me = Some (u, t) -> _cached_uid me = Some u /\ _cached_text me = t.
Proof.
  unfold cache_slot. destruct (_cached_uid me); intro H; [|discriminate].
  injection H as -> ->. auto.
Qed.


End Cache.


(** *** Frame reasoning: which computations leave the mailbox object alone *)

Section Frames.

Context {S : Type} `{Port : SessionPort S} `{Lib : MessageLib}.

Lemma keeps_ret {A : Type} (P : ImapMailbox -> Prop) (a : A) :
  keeps (S := S) P (ret a).
Proof. now intros w _. Qed.

Lemma keeps_raise {A : Type} (P : ImapMailbox -> Prop) k fmt args :
  keeps (S := S) (A := A) P (raise k fmt args).
Proof. now intros w _. Qed.

Lemma keeps_lift {A : Type} (P : ImapMailbox -> Prop) (r : result A) :
  keeps (S := S) P (lift r).
Proof. now intros w _. Qed.

Lemma keeps_get_self (P : ImapMailbox -> Prop) : keeps (S := S) P get_self.
Proof. now intros w _. Qed.

Lemma keeps_print (P : ImapMailbox -> Prop) fmt arg :
  keeps (S := S) P (print fmt arg).
Proof. now intros w _. Qed.

Lemma keeps_call {A : Type} (P : ImapMailbox -> Prop) ev (op : S -> result A * S) :
  keeps P (call ev op).
Proof. intros w _. unfold call. now destruct (op (remote w)). Qed.

Lemma keeps_bind {A B : Type} (P : ImapMailbox -> Prop) (m : M S A) (k : A -> M S B) :
  keeps P m -> (forall a, keeps P (k a)) -> keeps P (bind m k).
Proof.
  intros Hm Hk w HP. unfold bind.
  specialize (Hm w HP). destruct (m w) as [[a|e] w']; simpl in *; [|exact Hm].
  rewrite <- Hm. apply Hk. now rewrite Hm.
Qed.

Lemma keeps_attempt {A : Type} (P : ImapMailbox -> Prop) (m : M S A) :
  keeps P m -> keeps P (attempt m).
Proof.
  intros Hm w HP. unfold attempt. specialize (Hm w HP).
  now destruct (m w).
Qed.

Lemma keeps_try_except {A : Type} (P : ImapMailbox -> Prop) (m : M S A) ks h :
  keeps P m -> (forall e, keeps P (h e)) -> keeps P (try_except m ks h).
Proof.
  intros Hm Hh w HP. unfold try_except.
  specialize (Hm w HP). destruct (m w) as [[a|e] w']; simpl in *; [exact Hm|].
  destruct (existsb (isinstance_exn e) ks); [|exact Hm].
  rewrite <- Hm. apply Hh. now rewrite Hm.
Qed.

Lemma keeps_try_except_all {A : Type} (P : ImapMailbox -> Prop) (m h : M S A) :
  keeps P m -> keeps P h -> keeps P (try_except_all m h).
Proof.
  intros Hm Hh w HP. unfold try_except_all.
  specialize (Hm w HP). destruct (m w) as [[a|e] w']; simpl in *; [exact Hm|].
  rewrite <- Hm. apply Hh. now rewrite Hm.
Qed.

Lemma keeps_try_finally {A : Type} (P : ImapMailbox -> Prop) (m : M S A) f :
  keeps P m -> keeps P f -> keeps P (try_finally m f).
Proof.
  intros Hm Hf w HP. unfold try_finally.
  specialize (Hm w HP). destruct (m w) as [r w']; simpl in *.
  assert (HP' : P (self w')) by now rewrite Hm.
  specialize (Hf w' HP'). destruct (f w') as [[u|e] w'']; simpl in *; congruence.
Qed.

Lemma keeps_weaken {A : Type} (P Q : ImapMailbox -> Prop) (m : M S A) :
  (forall me, Q me -> P me) -> keeps P m -> keeps Q m.
Proof. intros PQ Hm w HQ. apply Hm, PQ, HQ. Qed.

End Frames.

Create HintDb frame.
#[local] Hint Resolve keeps_ret keeps_raise keeps_lift keeps_get_self keeps_print
  keeps_call keeps_bind keeps_attempt keeps_try_except keeps_try_except_all
  keeps_try_finally : frame.

(** Unfolds the session calls down to [call] and splits every
    composition, branch and pattern on the way. *)
Ltac frame_step :=
  match goal with
  | |- keeps _ (bind _ _) => apply keeps_bind; [|intro]
  | |- keeps _ (try_except _ _ _) => apply keeps_try_except; [|intro]
  | |- keeps _ (try_except_all _ _) => apply keeps_try_except_all
  | |- keeps _ (try_finally _ _) => apply keeps_try_finally
  | |- keeps _ (attempt _) => apply keeps_attempt
  | |- keeps _ (match ?x with _ => _ end) => destruct x
  | |- keeps _ _ => solve [auto with frame]
  end.

Ltac frame := repeat frame_step.

Section MethodFrames.

Context {S : Type} `{Port : SessionPort S} `{Lib : MessageLib}.

Lemma keeps_server_uid P c args : keeps (S := S) P (server_uid c args).
Proof. apply keeps_call. Qed.

Lemma keeps_expunge P : keeps (S := S) P expunge.
Proof. apply keeps_call. Qed.

Lemma keeps_target_call P id c : keeps (S := S) P (target_call id c).
Proof. apply keeps_call. Qed.


Lemma keeps_search P crit cs : keeps (S := S) P (search crit cs).
Proof. unfold search, py_split, server_uid. frame. Qed.

Lemma keeps_store_each P u mode fmt flags : keeps (S := S) P (store_each u mode fmt flags).
Proof.
  induction flags as [|f r IH]; simpl; [apply keeps_ret|].
  unfold server_uid. frame.
Qed.

Lemma keeps_set_imapflags P u flags : keeps (S := S) P (set_imapflags u flags).
Proof. unfold set_imapflags, server_uid. frame. Qed.

End MethodFrames.

(** *** Search *)

Section Search.

Context {S : Type} `{Port : SessionPort S} `{Lib : MessageLib}.

(** Every search is one round trip, whatever comes back. *)
Lemma search_trace (w : World S) criteria charset :
  trace (snd (search criteria charset w)) = trace w ++ [search_request criteria charset] /\
  stdout (snd (search criteria charset w)) = stdout w.
Proof.
  unfold search, search_request, bind, server_uid, call, lift, py_split, raise, ret.
  destruct (port_uid _ _ (remote w)) as [[[code data]|e] s']; simpl; auto.
  destruct (Py.getitem data 0) as [d0|e0]; simpl; auto.
  destruct d0; simpl; auto.
  destruct (String.eqb code "OK"); simpl; auto.
  destruct (Py.ints (Py.split s)); simpl; auto.
Qed.

(** When the first record of the answer is a string, [search] does what
    its docstring says: the status decides first, then the parse. *)
Lemma search_string_body (w : World S) criteria charset code body rest s' :
  port_uid "search" [py_of_option charset; PStr ("(" ++ percent_s criteria ++ ")")%string]
           (remote w) = (Ok (code, PList (PStr body :: rest)), s') ->
  fst (search criteria charset w) =
    if String.eqb code "OK" then
      match Py.ints (Py.split body) with
      | Some uids => Ok uids
      | None => Raise (mkExn ImapNotOkError "received unparsable response." [])
      end
    else Raise (mkExn ImapNotOkError "%s in search" [PStr code]).
Proof.
  intro E.
  unfold search, bind, server_uid, call, lift, py_split, raise, ret.
  rewrite E. simpl.
  destruct (String.eqb code "OK"); simpl; [|reflexivity].
  now destruct (Py.ints (Py.split body)).
Qed.

(** C3. [search] splits the first record of the answer before it looks
    at the status and outside its [try]: when that record is [None]
    (an answer without a SEARCH line), the [AttributeError] of
    [None.split()] escapes, for an OK status and for a non-OK one alike,
    where the docstring promises [ImapNotOkError]. *)
Theorem search_none_body_escapes (w : World S) criteria charset code s' :
  port_uid "search" [py_of_option charset; PStr ("(" ++ percent_s criteria ++ ")")%string]
           (remote w) = (Ok (code, PList [PNone]), s') ->
  fst (search criteria charset w) =
    Raise (mkExn AttributeError "object has no attribute 'split'" []).
Proof.
  intro E.
  unfold search, bind, server_uid, call, lift, py_split, raise, ret.
  rewrite E. reflexivity.
Qed.

(** C4. [keys()] calls [self.search(None, "ALL")]: with the signature
    [search(criteria, charset)] that is criteria [None] and charset
    ["ALL"], so the request sent is [uid('search', 'ALL', '(None)')],
    not the [uid('search', None, '(ALL)')] of [iterkeys()] and of
    [search("ALL")].  On a mailbox holding UIDs 5, 9 and 12 the iterator
    yields them while [keys()] raises. *)
Theorem keys_sends_other_request (w : World S) :
  trace (snd (keys w)) = trace w ++ [EUid "search" [PStr "ALL"; PStr "(None)"]] /\
  trace (snd (iterkeys w)) = trace w ++ [EUid "search" [PNone; PStr "(ALL)"]] /\
  trace (snd (search (Some "ALL"%string) None w))
    = trace w ++ [EUid "search" [PNone; PStr "(ALL)"]] /\
  (fst (iterkeys Sample.world) = Ok (A := list Z) [5; 9; 12] /\
   fst (search (Some "ALL"%string) None Sample.world) = Ok (A := list Z) [5; 9; 12] /\
   fst (keys Sample.world) = Raise (mkExn ImapNotOkError "%s in search" [PStr "BAD"])).
Proof.
  split; [apply (search_trace w None (Some "ALL"%string))|].
  split; [apply (search_trace w (Some "ALL"%string) None)|].
  split; [apply (search_trace w (Some "ALL"%string) None)|].
  repeat split; vm_compute; reflexivity.
Qed.

End Search.

Lemma search_none_body_escapes_witness :
  fst (search (Some "ALL"%string) None
         (Scripted.world_of [Ok ("OK"%string, PList [PNone])]))
    = Raise (mkExn AttributeError "object has no attribute 'split'" []) /\
  fst (search (Some "ALL"%string) None
         (Scripted.world_of [Ok ("NO"%string, PList [PNone])]))
    = Raise (mkExn AttributeError "object has no attribute 'split'" []).
Proof.
  split.
  - apply (search_none_body_escapes (Scripted.world_of [Ok ("OK"%string, PList [PNone])])
             (Some "ALL"%string) None "OK"%string []).
    reflexivity.
  - apply (search_none_body_escapes (Scripted.world_of [Ok ("NO"%string, PList [PNone])])
             (Some "ALL"%string) None "NO"%string []).
    reflexivity.
Defined.

(** *** Reconnecting *)

Section Reconnect.

Context {S : Type} `{Port : SessionPort S} `{Lib : MessageLib}.


End Reconnect.



(** *** Moving a message onto its own folder *)

Section Move.

Context {S : Type} `{Port : SessionPort S} `{Lib : MessageLib}.

Lemma is_source_mailbox_eq (me : ImapMailbox) (id srv : nat) (nm : string) :
  is_source me (TImapMailbox id srv nm) = mailbox_eq me (TImapMailbox id srv nm).
Proof.
  simpl. rewrite (Nat.eqb_sym srv), (String.eqb_sym nm). reflexivity.
Qed.

(** [copy] onto the source folder does nothing at all. *)
Lemma copy_to_source (w : World S) (u : Z) (t : target) :
  is_source (self w) t = true -> copy u t w = (Ok tt, w).
Proof.
  destruct w as [me s tr out]. simpl.
  destruct t as [nm|id srv nm| |]; simpl; try discriminate; intro H.
  - unfold copy, bind, get_self, ret. simpl. now rewrite H.
  - apply andb_prop in H. destruct H as [H1 H2].
    unfold copy, bind, get_self, ret. simpl. rewrite H1. simpl. now rewrite H2.
Qed.

(** C7. When the target of [move] is the source folder, given by its
    name or by a handle equal to the mailbox (same server, same name),
    [move] returns without a single request: the world after it is the
    world before it, so no copy and no flag store is issued, the
    message count and the flags of [u] read as before, and nothing is
    marked deleted.  For a target name other than the folder's own, the
    copy request is followed, when it is answered OK, by the store of
    the deleted flag. *)
Theorem move_to_source_is_noop (w : World S) (u : Z) (t : target) :
  (is_source (self w) t = true ->
   move u t w = (Ok tt, w) /\
   trace (snd (move u t w)) = trace w /\
   remote (snd (move u t w)) = remote w /\
   fst (__len__ (snd (move u t w))) = fst (__len__ w) /\
   fst (get_imapflags u (snd (move u t w))) = fst (get_imapflags u w)) /\
  (forall nm, t = TStr nm -> is_source (self w) t = false ->
   trace (snd (move u t w)) =
     trace w ++ EUid "copy" [PInt u; PStr nm] ::
       match fst (port_uid "copy" [PInt u; PStr nm] (remote w)) with
       | Ok ("OK"%string, _) => [EUid "store" [PInt u; PStr "+FLAGS"; PStr "(\Deleted)"]]
       | _ => []
       end).
Proof.
  split.
  - intro H.
    assert (E : move u t w = (Ok tt, w)).
    { unfold move, bind. rewrite (copy_to_source w u t H).
      unfold get_self, ret. simpl.
      destruct t as [nm|id srv nm| |]; simpl in *; try discriminate.
      - rewrite H. reflexivity.
      - rewrite (Nat.eqb_sym (_server (self w))), (String.eqb_sym (name (self w))), H.
        reflexivity. }
    rewrite E. simpl. auto.
  - intros nm -> H. simpl in H.
    unfold move, copy, bind, get_self, ret, server_uid, call, raise. simpl.
    rewrite H. simpl.
    destruct (port_uid "copy" [PInt u; PStr nm] (remote w)) as [[[code data]|e] s1];
      simpl; [|reflexivity].
    destruct (String.eqb code "OK") eqn:C; simpl.
    + apply String.eqb_eq in C. subst code. rewrite H. simpl.
      destruct (port_uid "store" _ s1) as [[[code2 data2]|e2] s2]; simpl.
      * destruct (String.eqb code2 "OK"); simpl; now rewrite <- app_assoc.
      * now rewrite <- app_assoc.
    + assert (N : code <> "OK"%string) by (intro X; subst; discriminate).
      destruct code as [|c0 code]; [reflexivity|].
      destruct c0 as [[] [] [] [] [] [] [] []]; try reflexivity.
      destruct code as [|c1 code]; [reflexivity|].
      destruct c1 as [[] [] [] [] [] [] [] []]; try reflexivity.
      destruct code; [congruence|reflexivity].
Qed.

End Move.

Lemma move_to_source_is_noop_witness :
  move 5 (TStr "INBOX") Sample.world = (Ok tt, Sample.world) /\
  move 5 (TImapMailbox 7 0 "INBOX") Sample.world = (Ok tt, Sample.world) /\
  trace (snd (move 5 (TStr "Trash") Sample.world)) =
    [EUid "copy" [PInt 5; PStr "Trash"];
     EUid "store" [PInt 5; PStr "+FLAGS"; PStr "(\Deleted)"]].
Proof.
  split; [|split].
  - apply (proj1 (move_to_source_is_noop Sample.world 5 (TStr "INBOX"))). reflexivity.
  - apply (proj1 (move_to_source_is_noop Sample.world 5 (TImapMailbox 7 0 "INBOX"))).
    reflexivity.
  - exact (proj2 (move_to_source_is_noop Sample.world 5 (TStr "Trash")) "Trash"%string
                 eq_refl eq_refl).
Defined.

(** *** Flag and deletion operations against the cache *)

Section CacheFrame.

Context {S : Type} `{Port : SessionPort S} `{Lib : MessageLib}.

Lemma keeps__cache_message_hit (u : Z) : keeps (S := S) (caches u) (_cache_message u).
Proof. intros w C. now rewrite (_cache_message_hit w u C). Qed.

Lemma keeps_get_imapflags P u : keeps (S := S) P (get_imapflags u).
Proof. unfold get_imapflags, server_uid. frame. Qed.

Lemma keeps_get_internaldate P u : keeps (S := S) P (get_internaldate u).
Proof. unfold get_internaldate, server_uid. frame. Qed.

Lemma keeps_get_size P u : keeps (S := S) P (get_size u).
Proof. unfold get_size, server_uid. frame. Qed.

Lemma keeps_get_message_hit (u : Z) : keeps (S := S) (caches u) (get_message u).
Proof.
  unfold get_message.
  pose proof (keeps__cache_message_hit u).
  pose proof (keeps_get_imapflags (caches u) u).
  pose proof (keeps_get_internaldate (caches u) u).
  pose proof (keeps_get_size (caches u) u).
  frame.
Qed.

(** [copy] fetches the message only for a foreign target, and then
    through the cache. *)
Lemma keeps_copy_hit (u : Z) (t : target) : keeps (S := S) (caches u) (copy u t).
Proof.
  pose proof (keeps_get_message_hit u).
  unfold copy, __getitem__, target_call, server_uid.
  apply keeps_bind; [auto with frame|]. intro me.
  destruct t as [nm|id srv nm|id|]; simpl.
  - frame.
  - destruct (Nat.eqb srv (_server me)); simpl; frame.
  - frame.
  - frame.
Qed.

Lemma keeps_move_hit (u : Z) (t : target) : keeps (S := S) (caches u) (move u t).
Proof.
  pose proof (keeps_copy_hit u t).
  unfold move, server_uid. frame.
Qed.

Lemma keeps_discard_hit (u : Z) : keeps (S := S) (caches u) (discard u).
Proof.
  unfold discard, add_imapflag.
  apply keeps_bind; [auto with frame|]. intro me.
  destruct (trash me) as [t|].
  - pose proof (keeps_move_hit u t). frame.
  - apply keeps_store_each.
Qed.

Lemma keeps_remove_hit (u : Z) : keeps (S := S) (caches u) (remove u).
Proof.
  pose proof (keeps_discard_hit u).
  pose proof (keeps_search (S := S) (caches u) (Some "ALL"%string) None).
  unfold remove. frame.
Qed.

Lemma keeps_run_op (op : cache_frame_op) (u : Z) :
  keeps (S := S) (caches u) (run_op op u).
Proof.
  destruct op; simpl.
  - apply keeps_store_each.
  - apply keeps_store_each.
  - apply keeps_set_imapflags.
  - apply keeps_discard_hit.
  - apply keeps_remove_hit.
  - apply keeps_remove_hit.
Qed.

(** The flag operations leave the cache alone whatever it holds and
    whichever UID they address. *)
Lemma flag_ops_keep_mailbox (w : World S) (v : Z) (flags : list string) :
  self (snd (add_imapflag v flags w)) = self w /\
  self (snd (remove_imapflag v flags w)) = self w /\
  self (snd (set_imapflags v flags w)) = self w.
Proof.
  repeat split.
  - now apply (keeps_store_each (fun _ => True)).
  - now apply (keeps_store_each (fun _ => True)).
  - now apply (keeps_set_imapflags (fun _ => True)).
Qed.

(** A method that starts by reading [self] keeps the object when what
    follows keeps it, for the object read. *)
Lemma keeps_with_self {B : Type} (P : ImapMailbox -> Prop) (k : ImapMailbox -> M S B) :
  (forall me, P me -> keeps (fun x => x = me) (k me)) ->
  keeps P (bind get_self k).
Proof.
  intros H w Pw. unfold bind, get_self. cbv beta iota.
  exact (H (self w) Pw w eq_refl).
Qed.

(** [copy] to a target that is not a mailbox outside the server sends at
    most a copy request: it does not read the message. *)
Lemma keeps_copy_on_server (v : Z) (t : target) :
  keeps (S := S) (fun me => outside_server me t = false) (copy v t).
Proof.
  unfold copy. apply keeps_with_self. intros me O. unfold server_uid.
  destruct t as [nm|id srv nm|id|]; simpl in O.
  - frame.
  - destruct (Nat.eqb srv (_server me)); [cbv beta iota; frame|discriminate O].
  - discriminate O.
  - frame.
Qed.

Lemma keeps_move_on_server (v : Z) (t : target) :
  keeps (S := S) (fun me => outside_server me t = false) (move v t).
Proof.
  pose proof (keeps_copy_on_server v t).
  unfold move, server_uid. frame.
Qed.

Lemma keeps_discard_on_server (v : Z) :
  keeps (S := S) (fun me => trash_outside me = false) (discard v).
Proof.
  unfold discard. apply keeps_with_self. intros me O. unfold trash_outside in O.
  destruct (trash me) as [t|]; [|apply keeps_store_each].
  apply keeps_bind; [apply keeps_print|]. intros _.
  apply (keeps_weaken (fun x => outside_server x t = false));
    [now intros x ->|apply keeps_move_on_server].
Qed.

Lemma keeps_remove_on_server (v : Z) :
  keeps (S := S) (fun me => trash_outside me = false) (remove v).
Proof.
  pose proof (keeps_discard_on_server v).
  pose proof (keeps_search (S := S) (fun me => trash_outside me = false)
                (Some "ALL"%string) None).
  unfold remove. frame.
Qed.

(** C9 (amended). With the raw text of [u] in the cache, an operation
    among [add_imapflag], [remove_imapflag], [set_imapflags], [discard],
    [remove] and [__delitem__] on a UID [v] leaves the mailbox object as
    it was, whether it returns or raises, in each of three cases: the
    operation is one of the three flag operations; or [v] is the cached
    UID [u]; or the trash target is not a mailbox outside the server.
    The cached UID and text are then as before, and the raw reads
    [_cache_message], [get_string] and [get_file] of [u] that follow
    return the cached text without a request (the world they leave is
    the world they found). *)
Theorem flag_and_delete_ops_keep_cache (w : World S) (op : cache_frame_op) (u v : Z) :
  _cached_uid (self w) = Some u ->
  is_flag_op op = true \/ v = u \/ trash_outside (self w) = false ->
  let w' := snd (run_op op v w) in
  self w' = self w /\
  _cache_message u w' = (Ok (_cached_text (self w)), w') /\
  get_string u w' = (Ok (_cached_text (self w)), w') /\
  get_file u w' = (Ok (_cached_text (self w)), w').
Proof.
  intros C H w'.
  assert (E : self w' = self w).
  { destruct H as [F|[->|T]].
    - destruct op; try discriminate F; simpl.
      + now apply (keeps_store_each (fun _ => True)).
      + now apply (keeps_store_each (fun _ => True)).
      + now apply (keeps_set_imapflags (fun _ => True)).
    - apply (keeps_run_op op u). exact C.
    - destruct op; simpl.
      + now apply (keeps_store_each (fun _ => True)).
      + now apply (keeps_store_each (fun _ => True)).
      + now apply (keeps_set_imapflags (fun _ => True)).
      + now apply (keeps_discard_on_server v).
      + now apply (keeps_remove_on_server v).
      + now apply (keeps_remove_on_server v). }
  assert (R : _cache_message u w' = (Ok (_cached_text (self w)), w')).
  { rewrite <- E. apply _cache_message_hit. now rewrite E. }
  auto.
Qed.

End CacheFrame.

(** C9, refuted as stated: with the text of UID 5 in the cache and a
    mailbox outside the server as trash target, [discard(9)] hands
    message 9 to the trash mailbox, reading it with [self[9]]: the raw
    fetch of 9 goes through the cache and takes the slot, and the next
    raw read of 5 sends a new fetch.  [remove(9)] does the same. *)
Lemma discard_other_uid_replaces_cache :
  let w := snd (_cache_message 5 (Sample.world_of Sample.inbox (Some (TMailbox 1)))) in
  let w' := snd (discard 9 w) in
  cache_slot (self w) = Some (5, PStr "Subject: five") /\
  fst (discard 9 w) = Ok tt /\
  cache_slot (self w') = Some (9, PStr "Subject: nine") /\
  self w' <> self w /\
  raw_fetches 5 (trace (snd (get_string 5 w'))) = S (raw_fetches 5 (trace w')) /\
  cache_slot (self (snd (remove 9 w))) = Some (9, PStr "Subject: nine").
Proof.
  vm_compute. repeat split; try reflexivity. discriminate.
Qed.

(** C9 on the sample folder, the text of UID 5 cached: [discard(5)]; a
    flag set on UID 9 with a mailbox outside the server as trash target;
    [remove(9)] with the folder "Trash" as trash target. *)
Lemma flag_and_delete_ops_keep_cache_witness :
  (let w := snd (_cache_message 5 Sample.world) in
   let w' := snd (run_op OpDiscard 5 w) in
   self w' = self w /\
   _cache_message 5 w' = (Ok (PStr "Subject: five"), w') /\
   get_string 5 w' = (Ok (PStr "Subject: five"), w') /\
   get_file 5 w' = (Ok (PStr "Subject: five"), w')) /\
  (let w := snd (_cache_message 5 (Sample.world_of Sample.inbox (Some (TMailbox 1)))) in
   let w' := snd (run_op (OpAddImapflag ["\Seen"%string]) 9 w) in
   self w' = self w /\
   get_string 5 w' = (Ok (PStr "Subject: five"), w')) /\
  (let w := snd (_cache_message 5 (Sample.world_of Sample.inbox (Some (TStr "Trash")))) in
   let w' := snd (run_op OpRemove 9 w) in
   self w' = self w /\
   get_string 5 w' = (Ok (PStr "Subject: five"), w')).
Proof.
  split; [|split].
  - exact (flag_and_delete_ops_keep_cache (snd (_cache_message 5 Sample.world))
             OpDiscard 5 5 eq_refl (or_intror (or_introl eq_refl))).
  - destruct (flag_and_delete_ops_keep_cache
                (snd (_cache_message 5 (Sample.world_of Sample.inbox (Some (TMailbox 1)))))
                (OpAddImapflag ["\Seen"%string]) 5 9) as (E & _ & G & _).
    + vm_compute. reflexivity.
    + left. reflexivity.
    + split; [exact E|exact G].
  - destruct (flag_and_delete_ops_keep_cache
                (snd (_cache_message 5 (Sample.world_of Sample.inbox (Some (TStr "Trash")))))
                OpRemove 5 9) as (E & _ & G & _).
    + vm_compute. reflexivity.
    + right. right. vm_compute. reflexivity.
    + split; [exact E|exact G].
Defined.

(** *** [pop] on a UID the folder does not hold *)

Section Pop.

Context {S : Type} `{Port : SessionPort S} `{Lib : MessageLib}.

(** The raw fetch of a UID the server does not know: status OK, first
    record [None]; the subscript fails and [KeyError] is raised. *)
Lemma _cache_message_absent (w : World S) (u : Z) s' :
  _cached_uid (self w) <> Some u ->
  port_uid "fetch" [PInt u; PStr "(RFC822)"] (remote w)
    = (Ok ("OK"%string, PList [PNone]), s') ->
  _cache_message u w =
    (Raise (mkExn KeyError "No message %s in _cache_message" [PInt u]),
     mkWorld (self w) s' (trace w ++ [fetch_rfc822 u]) (stdout w)).
Proof.
  intros C E. apply opt_Z_eqb_false in C.
  unfold _cache_message, bind, get_self, ret, server_uid, call.
  rewrite C. simpl. rewrite E. reflexivity.
Qed.

(** X18. For a UID the server reports absent and whose text is not
    the one in the cache, [pop] issues the one raw fetch and then: with
    [default] equal to [None], written out or left out, it raises
    [KeyError "No such UID"]; with any other [default] it returns that
    default. *)
Theorem pop_absent_uncached (w : World S) (u : Z) (default : pyval) s' :
  _cached_uid (self w) <> Some u ->
  port_uid "fetch" [PInt u; PStr "(RFC822)"] (remote w)
    = (Ok ("OK"%string, PList [PNone]), s') ->
  pop u default w =
    (match default with
     | PNone => Raise (mkExn KeyError "No such UID" [])
     | _ => Ok (inr default)
     end,
     mkWorld (self w) s' (trace w ++ [fetch_rfc822 u]) (stdout w)).
Proof.
  intros C E.
  unfold pop, try_except, bind, __getitem__, get_message.
  unfold bind. rewrite (_cache_message_absent w u s' C E). simpl.
  destruct default; reflexivity.
Qed.

(** C10. [pop] turns only [KeyError] into the default, and [KeyError]
    comes from the raw fetch alone.  When the text of [u] is in the
    cache, the raw read is a hit and sends nothing; if the server no
    longer holds [u], the flag fetch that follows is answered OK with
    the record [None], [ParseFlags(None)] raises [TypeError], and
    [get_imapflags] turns it into [ValueError]: that is what [pop]
    raises, whatever the default, where its docstring promises the
    default (and the claim [KeyError] for a default of [None]). *)
Theorem pop_stale_cache_raises (w : World S) (u : Z) (default : pyval) s' (e : exn) :
  _cached_uid (self w) = Some u ->
  port_uid "fetch" [PInt u; PStr "(FLAGS)"] (remote w)
    = (Ok ("OK"%string, PList [PNone]), s') ->
  ParseFlags PNone = Raise e ->
  e_class e = TypeError ->
  pop u default w =
    (Raise (mkExn ValueError
       "Unexpected results while fetching flags from server for message %s; response was (%s, %s)"
       [PInt u; PStr "OK"; PList [PNone]]),
     mkWorld (self w) s' (trace w ++ [EUid "fetch" [PInt u; PStr "(FLAGS)"]]) (stdout w)).
Proof.
  intros C E P K.
  assert (I : isinstance_exn e TypeError = true).
  { unfold isinstance_exn. now rewrite K. }
  unfold pop, try_except, bind, __getitem__, get_message.
  unfold bind. rewrite (_cache_message_hit w u C).
  unfold get_imapflags, attempt, try_except, bind, server_uid, call, lift, raise, ret.
  rewrite E. cbn [Py.getitem nth_error negb String.eqb Ascii.eqb Bool.eqb].
  cbv beta iota. rewrite P. cbn [existsb]. rewrite I. reflexivity.
Qed.

End Pop.

(** C10 on the sample folder: [pop(5)] returns message 5, deletes it and
    expunges; UID 5 is then absent from the folder (the raw fetch would
    answer [None]), yet its text is still in the cache.  A second
    [pop(5, "gone")] does not return the default, and a second [pop(5)]
    does not raise [KeyError]: both raise [ValueError]. *)
Lemma pop_stale_cache_raises_witness :
  let w1 := snd (pop 5 PNone Sample.world) in
  let value_error :=
    Raise (mkExn ValueError
      "Unexpected results while fetching flags from server for message %s; response was (%s, %s)"
      [PInt 5; PStr "OK"; PList [PNone]]) in
  fst (search (Some "ALL"%string) None w1) = Ok (A := list Z) [9; 12] /\
  fst (port_uid "fetch" [PInt 5; PStr "(RFC822)"] (remote w1))
    = Ok ("OK"%string, PList [PNone]) /\
  fst (pop 5 (PStr "gone") w1) = value_error /\
  fst (pop 5 PNone w1) = value_error.
Proof.
  intros w1 value_error.
  split; [vm_compute; reflexivity|]. split; [vm_compute; reflexivity|].
  split.
  - rewrite (pop_stale_cache_raises w1 5 (PStr "gone") (remote w1)
               (mkExn TypeError "expected string or buffer" [])).
    + reflexivity.
    + vm_compute. reflexivity.
    + vm_compute. reflexivity.
    + reflexivity.
    + reflexivity.
  - rewrite (pop_stale_cache_raises w1 5 PNone (remote w1)
               (mkExn TypeError "expected string or buffer" [])).
    + reflexivity.
    + vm_compute. reflexivity.
    + vm_compute. reflexivity.
    + reflexivity.
    + reflexivity.
Defined.

(** X18 on the sample folder: UID 7 is not in it and nothing is
    cached. *)
Lemma pop_absent_uncached_witness :
  fst (pop 7 PNone Sample.world) = Raise (mkExn KeyError "No such UID" []) /\
  fst (pop 7 (PStr "gone") Sample.world) = Ok (inr (PStr "gone")).
Proof.
  split.
  - rewrite (pop_absent_uncached Sample.world 7 PNone (remote Sample.world)).
    + reflexivity.
    + simpl. discriminate.
    + reflexivity.
  - rewrite (pop_absent_uncached Sample.world 7 (PStr "gone") (remote Sample.world)).
    + reflexivity.
    + simpl. discriminate.
    + reflexivity.
Defined.

(** *** [add] on any session *)

Section AddTrace.

Context {S : Type} `{Port : SessionPort S} `{Lib : MessageLib}.

(** Whatever the session answers, [add] sends an append and, when that
    is answered OK, one search for "UNDELETED": it never sends an
    expunge. *)
Lemma add_sends_no_expunge (w : World S) (message : ImapMessage) :
  exists evs,
    trace (snd (add message w)) = trace w ++ evs /\
    ~ In EExpunge evs.
Proof.
  unfold add, bind, get_self, server_append, call.
  destruct (port_append _ _ _ _ (remote w)) as [[[code data]|e] s1]; simpl.
  2:{ eexists. split; [reflexivity|]. simpl. intuition discriminate. }
  destruct (String.eqb code "OK"); simpl.
  2:{ eexists. split; [reflexivity|]. simpl. intuition discriminate. }
  match goal with
  | |- context [get_all_uids ?W] =>
      pose proof (search_trace W (Some "UNDELETED"%string) None) as [T _];
      unfold get_all_uids; destruct (search (Some "UNDELETED"%string) None W) as [[us|e] w2]
  end; simpl in *.
  - unfold lift. simpl. rewrite T, <- app_assoc.
    eexists. split; [reflexivity|]. simpl. unfold search_request.
    intuition discriminate.
  - rewrite T, <- app_assoc.
    eexists. split; [reflexivity|]. simpl. unfold search_request.
    intuition discriminate.
Qed.

End AddTrace.

(** *** Facts about the string primitives *)

Module PyFacts.

Lemma append_assoc (a b c : string) : ((a ++ b) ++ c = a ++ (b ++ c))%string.
Proof. induction a as [|x a IH]; simpl; [reflexivity|now rewrite IH]. Qed.

Lemma append_nil_r (a : string) : (a ++ "")%string = a.
Proof. induction a as [|x a IH]; simpl; [reflexivity|now rewrite IH]. Qed.

Lemma length_append (a b : string) :
  String.length (a ++ b) = (String.length a + String.length b)%nat.
Proof. induction a as [|x a IH]; simpl; [reflexivity|now rewrite IH]. Qed.

Lemma len_append (a b : string) : Py.len (a ++ b) = Py.len a + Py.len b.
Proof. unfold Py.len. rewrite length_append. lia. Qed.

Lemma len_nonneg (a : string) : 0 <= Py.len a.
Proof. unfold Py.len. lia. Qed.

Lemma all_chars_app (P : ascii -> bool) (a b : string) :
  all_chars P (a ++ b) = all_chars P a && all_chars P b.
Proof.
  induction a as [|x a IH]; simpl; [reflexivity|].
  now rewrite IH, andb_assoc.
Qed.

Lemma all_chars_weaken (P Q : ascii -> bool) (s : string) :
  (forall c, P c = true -> Q c = true) ->
  all_chars P s = true -> all_chars Q s = true.
Proof.
  intro PQ. induction s as [|x s IH]; simpl; [reflexivity|].
  intro H. apply andb_prop in H. destruct H as [H1 H2].
  now rewrite (PQ _ H1), (IH H2).
Qed.

Lemma all_chars_list (P : ascii -> bool) (s : string) :
  all_chars P s = forallb P (list_ascii_of_string s).
Proof. induction s as [|x s IH]; simpl; [reflexivity|now rewrite IH]. Qed.

(** The decimal text of a number. *)

Lemma string_of_uint_digits (d : Decimal.uint) :
  all_chars is_digit (NilEmpty.string_of_uint d) = true.
Proof. induction d; simpl; auto. Qed.

Lemma string_of_uint_nonempty (d : Decimal.uint) :
  d <> Decimal.Nil -> NilEmpty.string_of_uint d <> EmptyString.
Proof. destruct d; simpl; congruence. Qed.

Lemma str_int_pos (p : positive) :
  Py.str_int (Z.pos p) = NilEmpty.string_of_uint (Pos.to_uint p).
Proof.
  unfold Py.str_int. simpl. unfold NilZero.string_of_uint.
  pose proof (DecimalPos.Unsigned.to_uint_nonnil p) as N.
  destruct (Pos.to_uint p); congruence.
Qed.

Lemma str_int_neg (p : positive) :
  Py.str_int (Z.neg p) = String "-" (NilEmpty.string_of_uint (Pos.to_uint p)).
Proof.
  unfold Py.str_int. simpl. unfold NilZero.string_of_uint.
  pose proof (DecimalPos.Unsigned.to_uint_nonnil p) as N.
  destruct (Pos.to_uint p); congruence.
Qed.

Lemma str_int_numeric (z : Z) : all_chars numeric (Py.str_int z) = true.
Proof.
  assert (D : forall d, all_chars numeric (NilEmpty.string_of_uint d) = true).
  { intro d. apply (all_chars_weaken is_digit); [|apply string_of_uint_digits].
    intros c H. unfold numeric. now rewrite H. }
  destruct z as [|p|p].
  - reflexivity.
  - rewrite str_int_pos. apply D.
  - rewrite str_int_neg. simpl. apply D.
Qed.

Lemma str_int_nonempty (z : Z) : Py.str_int z <> EmptyString.
Proof.
  destruct z as [|p|p].
  - discriminate.
  - rewrite str_int_pos. apply string_of_uint_nonempty, DecimalPos.Unsigned.to_uint_nonnil.
  - rewrite str_int_neg. discriminate.
Qed.

Lemma numeric_not_space (c : ascii) : numeric c = true -> negb (Py.isspace c) = true.
Proof.
  destruct c as [[] [] [] [] [] [] [] []]; vm_compute; congruence.
Qed.

Lemma str_int_token (z : Z) : token (Py.str_int z).
Proof.
  split; [apply str_int_nonempty|].
  apply (all_chars_weaken numeric); [apply numeric_not_space|apply str_int_numeric].
Qed.

(** [strip] and [int]. *)

Lemma lstrip_list_id (l : list ascii) :
  forallb (fun c => negb (Py.isspace c)) l = true -> Py.lstrip_list l = l.
Proof.
  destruct l as [|c l]; simpl; [reflexivity|].
  intro H. apply andb_prop in H. destruct H as [H _].
  now destruct (Py.isspace c).
Qed.

Lemma forallb_rev {A : Type} (P : A -> bool) (l : list A) :
  forallb P (rev l) = forallb P l.
Proof.
  induction l as [|x l IH]; simpl; [reflexivity|].
  rewrite forallb_app, IH. simpl. rewrite andb_true_r. apply andb_comm.
Qed.

Lemma strip_id (s : string) :
  all_chars (fun c => negb (Py.isspace c)) s = true -> Py.strip s = s.
Proof.
  intro H. rewrite all_chars_list in H. unfold Py.strip.
  rewrite (lstrip_list_id _ H).
  rewrite lstrip_list_id by now rewrite forallb_rev.
  now rewrite rev_involutive, string_of_list_ascii_of_string.
Qed.

Lemma digits_string_of_uint (d : Decimal.uint) :
  d <> Decimal.Nil ->
  Py.digits (NilEmpty.string_of_uint d) = Some (Z.of_uint d).
Proof.
  intro N. unfold Py.digits.
  destruct (NilEmpty.string_of_uint d) eqn:E.
  - now apply string_of_uint_nonempty in E.
  - now rewrite <- E, NilEmpty.usu.
Qed.

Lemma of_uint_to_uint (p : positive) : Z.of_uint (Pos.to_uint p) = Z.pos p.
Proof. unfold Z.of_uint. now rewrite DecimalPos.Unsigned.of_to. Qed.

Lemma is_digit_not_sign (c : ascii) :
  is_digit c = true -> Ascii.eqb c "-" = false /\ Ascii.eqb c "+" = false.
Proof.
  destruct c as [[] [] [] [] [] [] [] []]; vm_compute; intuition congruence.
Qed.

(** [int(str(z)) == z]. *)
Lemma int_str_int (z : Z) : Py.int (Py.str_int z) = Some z.
Proof.
  unfold Py.int. rewrite strip_id by apply str_int_token.
  destruct z as [|p|p].
  - reflexivity.
  - rewrite str_int_pos.
    pose proof (string_of_uint_digits (Pos.to_uint p)) as D.
    pose proof (digits_string_of_uint (Pos.to_uint p) (DecimalPos.Unsigned.to_uint_nonnil p)) as G.
    destruct (NilEmpty.string_of_uint (Pos.to_uint p)) as [|c r] eqn:E.
    + discriminate.
    + simpl in D. apply andb_prop in D. destruct D as [D _].
      destruct (is_digit_not_sign c D) as [-> ->].
      now rewrite G, of_uint_to_uint.
  - rewrite str_int_neg. simpl.
    rewrite digits_string_of_uint by apply DecimalPos.Unsigned.to_uint_nonnil.
    now rewrite of_uint_to_uint.
Qed.

Lemma ints_str_int (zs : list Z) : Py.ints (map Py.str_int zs) = Some zs.
Proof.
  induction zs as [|z zs IH]; simpl; [reflexivity|].
  now rewrite int_str_int, IH.
Qed.

(** [split] undoes [join]. *)

Lemma split_from_token (t rest : string) (cur : list ascii) :
  all_chars (fun c => negb (Py.isspace c)) t = true ->
  Py.split_from cur (t ++ rest) = Py.split_from (rev (list_ascii_of_string t) ++ cur) rest.
Proof.
  revert cur. induction t as [|c t IH]; intros cur H; simpl in *; [reflexivity|].
  apply andb_prop in H. destruct H as [H1 H2].
  destruct (Py.isspace c); [discriminate|].
  rewrite (IH _ H2). now rewrite <- app_assoc.
Qed.

Lemma rev_chars_nonempty (t : string) :
  t <> EmptyString -> rev (list_ascii_of_string t) <> [].
Proof.
  destruct t as [|c t]; [congruence|]. simpl. intros _ H.
  now apply app_eq_nil in H.
Qed.

Lemma string_of_rev_rev (t : string) :
  string_of_list_ascii (rev (rev (list_ascii_of_string t) ++ [])) = t.
Proof.
  now rewrite app_nil_r, rev_involutive, string_of_list_ascii_of_string.
Qed.

Lemma split_join (l : list string) :
  Forall token l -> Py.split (Py.join " " l) = l.
Proof.
  unfold Py.split. induction l as [|x l IH]; intro F; [reflexivity|].
  inversion F as [|? ? [Nx Cx] F']; subst.
  pose proof (rev_chars_nonempty x Nx) as R.
  destruct l as [|y l].
  - simpl. rewrite <- (append_nil_r x) at 1.
    rewrite (split_from_token x "" [] Cx). simpl.
    destruct (rev (list_ascii_of_string x) ++ []) eqn:E.
    + rewrite app_nil_r in E. congruence.
    + now rewrite <- E, string_of_rev_rev.
  - change (Py.join " " (x :: y :: l)) with (x ++ String " " (Py.join " " (y :: l)))%string.
    rewrite (split_from_token x _ [] Cx).
    change (Py.split_from (rev (list_ascii_of_string x) ++ [])
              (String " " (Py.join " " (y :: l))))
      with (match rev (list_ascii_of_string x) ++ [] with
            | [] => Py.split_from [] (Py.join " " (y :: l))
            | _ => string_of_list_ascii (rev (rev (list_ascii_of_string x) ++ []))
                     :: Py.split_from [] (Py.join " " (y :: l))
            end).
    destruct (rev (list_ascii_of_string x) ++ []) eqn:E.
    + rewrite app_nil_r in E. congruence.
    + rewrite <- E, string_of_rev_rev. now rewrite (IH F').
Qed.

(** The answer to a search parses back to the UIDs it lists. *)
Lemma ints_split_join (zs : list Z) :
  Py.ints (Py.split (Py.join " " (map Py.str_int zs))) = Some zs.
Proof.
  rewrite split_join; [apply ints_str_int|].
  apply Forall_forall. intros t H. apply in_map_iff in H.
  destruct H as (z & <- & _). apply str_int_token.
Qed.

(** [find] and slices. *)

Lemma find_at_skip (c : ascii) (sub p rest : string) (i : Z) :
  all_chars (fun x => negb (Ascii.eqb c x)) p = true ->
  Py.find_at (String c sub) (p ++ rest) i
    = Py.find_at (String c sub) rest (i + Py.len p).
Proof.
  revert i. induction p as [|a p IH]; intros i H.
  - simpl. f_equal. unfold Py.len. simpl. lia.
  - simpl in H. apply andb_prop in H. destruct H as [H1 H2].
    apply negb_true_iff in H1.
    cbn [append].
    change (Py.find_at (String c sub) (String a (p ++ rest)) i)
      with (if Py.prefix (String c sub) (String a (p ++ rest)) then i
            else Py.find_at (String c sub) (p ++ rest) (i + 1)).
    change (Py.prefix (String c sub) (String a (p ++ rest)))
      with (Ascii.eqb c a && Py.prefix sub (p ++ rest)).
    rewrite H1. cbv beta iota delta [andb].
    rewrite (IH _ H2). f_equal. unfold Py.len. simpl String.length. lia.
Qed.

Lemma find_at_here (sub s : string) (i : Z) :
  Py.prefix sub s = true -> Py.find_at sub s i = i.
Proof. intro H. destruct s; simpl; now rewrite H. Qed.

Lemma find_at_absent (c : ascii) (sub s : string) (i : Z) :
  all_chars (fun x => negb (Ascii.eqb c x)) s = true ->
  Py.find_at (String c sub) s i = -1.
Proof.
  intro H. rewrite <- (append_nil_r s).
  rewrite (find_at_skip c sub s "" i H). reflexivity.
Qed.

Lemma drop_append (p r : string) : Py.drop (String.length p) (p ++ r) = r.
Proof. induction p as [|a p IH]; simpl; [now destruct r|exact IH]. Qed.

Lemma take_append (p r : string) : Py.take (String.length p) (p ++ r) = p.
Proof. induction p as [|a p IH]; simpl; [now destruct r|now rewrite IH]. Qed.

Lemma find_from_start (s sub : string) :
  Py.find s sub 0 = Py.find_at sub s 0.
Proof.
  unfold Py.find, Py.clip. change (0 <? 0) with false. cbv beta iota zeta.
  pose proof (len_nonneg s) as L.
  destruct (Py.len s <? 0) eqn:E; [apply Z.ltb_lt in E; lia|].
  rewrite Z.min_l, Z.max_l by lia. reflexivity.
Qed.

(** What [get_size] cuts out of an answer [p ++ "SIZE " ++ d ++ ")"]
    whose part [p] before the keyword has no [S] and whose number [d]
    has no blank. *)
Lemma size_field (p d : string) :
  all_chars (fun x => negb (Ascii.eqb "S" x)) p = true ->
  all_chars (fun x => negb (Ascii.eqb " " x)) d = true ->
  let s := (p ++ "SIZE " ++ d ++ ")")%string in
  let startindex := Py.find s "SIZE" 0 + 5 in
  let stopindex := Py.find s " " startindex in
  Py.slice s startindex stopindex = d.
Proof.
  intros Hp Hd s startindex stopindex.
  assert (Ls : Py.len s = Py.len p + 5 + Py.len d + 1).
  { unfold s. rewrite !len_append.
    change (Py.len "SIZE ") with 5. change (Py.len ")") with 1. lia. }
  pose proof (len_nonneg p) as Lp. pose proof (len_nonneg d) as Ld.
  assert (Es : startindex = Py.len p + 5).
  { unfold startindex. rewrite find_from_start. unfold s.
    rewrite (find_at_skip "S" "IZE" p _ 0 Hp).
    rewrite find_at_here by reflexivity. lia. }
  assert (Dr : Py.drop (Z.to_nat startindex) s = (d ++ ")")%string).
  { rewrite Es. unfold s.
    replace (Z.to_nat (Py.len p + 5)) with (String.length (p ++ "SIZE "))
      by (rewrite length_append; unfold Py.len; simpl; lia).
    rewrite <- (drop_append (p ++ "SIZE ") (d ++ ")")) at 2.
    now rewrite !append_assoc. }
  assert (Cs : Py.clip s startindex = startindex).
  { unfold Py.clip. destruct (startindex <? 0) eqn:E; [apply Z.ltb_lt in E; lia|].
    rewrite Z.min_l, Z.max_r by lia. reflexivity. }
  assert (Et : stopindex = -1).
  { unfold stopindex, Py.find. rewrite Cs, Dr.
    destruct (startindex <? 0) eqn:E; [apply Z.ltb_lt in E; lia|].
    destruct (Py.len s <? startindex) eqn:E2; [reflexivity|].
    apply find_at_absent. rewrite all_chars_app, Hd. reflexivity. }
  unfold Py.slice. rewrite Cs, Dr, Et.
  assert (Ce : Py.clip s (-1) = Py.len s - 1).
  { unfold Py.clip. change (-1 <? 0) with true. cbv beta iota zeta.
    rewrite Z.min_l, Z.max_r by lia. lia. }
  rewrite Ce.
  replace (Z.to_nat (Py.len s - 1 - startindex)) with (String.length d)
    by (unfold Py.len in *; lia).
  apply take_append.
Qed.

End PyFacts.

(** *** The server model: folders and commands *)

Module ServerFacts.
Import Server.

Lemma lookup_update_eq nm f fs : lookup nm (update nm f fs) = Some f.
Proof.
  induction fs as [|[k g] fs IH]; simpl.
  - now rewrite String.eqb_refl.
  - destruct (String.eqb k nm) eqn:E; simpl; rewrite E; [reflexivity|exact IH].
Qed.

Lemma lookup_update_ne nm nm' f fs :
  nm <> nm' -> lookup nm' (update nm f fs) = lookup nm' fs.
Proof.
  intro N. induction fs as [|[k g] fs IH]; simpl.
  - apply String.eqb_neq in N. now rewrite N.
  - destruct (String.eqb k nm) eqn:E; simpl.
    + apply String.eqb_eq in E. subst k.
      apply String.eqb_neq in N. now rewrite N.
    + now rewrite IH.
Qed.

Lemma serves_current s nm f : serves s nm f -> current s = Some f.
Proof. intros [H1 H2]. unfold current. now rewrite H1. Qed.

Lemma serves_set_current s nm f g : serves s nm f -> set_current s g = put s nm g.
Proof. intros [H1 H2]. unfold set_current, put. now rewrite H1. Qed.

Lemma serves_put s nm f g : serves s nm f -> serves (put s nm g) nm g.
Proof.
  intros [H1 H2]. split; simpl; [exact H1|apply lookup_update_eq].
Qed.

Lemma uid_search s nm f crit us :
  serves s nm f ->
  matching crit (messages f) = Some us ->
  on_uid "search" [PNone; PStr crit] s = (ok (PStr (Py.join " " (map Py.str_int us))), s).
Proof.
  intros B E. unfold on_uid. rewrite (serves_current _ _ _ B).
  cbv beta iota. rewrite E. reflexivity.
Qed.

Lemma locate_uid u n ms k m : locate u n ms = Some (k, m) -> s_uid m = u.
Proof.
  revert n. induction ms as [|x ms IH]; intros n; simpl; [discriminate|].
  destruct (Z.eqb (s_uid x) u) eqn:E.
  - intro H. injection H as <- <-. now apply Z.eqb_eq.
  - apply IH.
Qed.

Lemma uid_fetch s nm f u item n m :
  serves s nm f ->
  locate u 1 (messages f) = Some (n, m) ->
  on_uid "fetch" [PInt u; PStr item] s = (fetch item n m, s).
Proof.
  intros B E. unfold on_uid. rewrite (serves_current _ _ _ B).
  cbv beta iota. rewrite E. reflexivity.
Qed.

Lemma uid_fetch_absent s nm f u item :
  serves s nm f ->
  locate u 1 (messages f) = None ->
  on_uid "fetch" [PInt u; PStr item] s = (ok PNone, s).
Proof.
  intros B E. unfold on_uid. rewrite (serves_current _ _ _ B).
  cbv beta iota. rewrite E. reflexivity.
Qed.

Lemma uid_store s nm f u spec n m m' mode :
  serves s nm f ->
  locate u 1 (messages f) = Some (n, m) ->
  store mode spec m = Some m' ->
  on_uid "store" [PInt u; PStr mode; PStr spec] s =
    (ok (PStr (head_of n u ++ "FLAGS (" ++ Py.join " " (s_flags m') ++ "))")%string),
     put s nm (mkFolder (replace u (fun _ => m') (messages f)) (uidnext f))).
Proof.
  intros B E St. unfold on_uid. rewrite (serves_current _ _ _ B).
  cbv beta iota. rewrite E, St. now rewrite (serves_set_current _ _ _ _ B).
Qed.

Lemma expunge_serves s nm f :
  serves s nm f ->
  Server.on_expunge s = (Ok tt, put s nm (flushed f)).
Proof.
  intros B. unfold Server.on_expunge. rewrite (serves_current _ _ _ B).
  now rewrite (serves_set_current _ _ _ _ B).
Qed.

Lemma parse_flags_str (s : string) : exists l, parse_flags (PStr s) = Ok l.
Proof.
  unfold parse_flags.
  destruct (Py.find s "FLAGS (" 0 <? 0); [now eexists|].
  destruct (Py.find _ ")" 0 <? 0); now eexists.
Qed.

Lemma internaldate_of_str (s : string) : exists d, internaldate_of (PStr s) = Ok d.
Proof.
  unfold internaldate_of.
  destruct (Py.find s _ 0 <? 0); [now eexists|].
  destruct (Py.find _ quote 0 <? 0); now eexists.
Qed.

End ServerFacts.

Section OnServer.
Import Server ServerFacts PyFacts.

Implicit Types (w : World Server.state) (f : folder) (m : stored).

Lemma search_on w f crit us :
  serves (remote w) (name (self w)) f ->
  Server.matching ("(" ++ crit ++ ")")%string (messages f) = Some us ->
  search (Some crit) None w = (Ok us, tick w (search_request (Some crit) None)).
Proof.
  intros B E.
  unfold search, bind, server_uid, call.
  change (@port_uid _ Server.port) with Server.on_uid.
  change (percent_s (Some crit)) with crit.
  change (py_of_option None) with PNone.
  rewrite (uid_search _ _ _ _ _ B E). simpl.
  unfold lift, py_split, ret. simpl. rewrite ints_split_join. reflexivity.
Qed.

Lemma expunge_on w f :
  serves (remote w) (name (self w)) f ->
  expunge w =
    (Ok tt, step w (put (remote w) (name (self w))
                      (flushed f)) EExpunge).
Proof.
  intro B. unfold expunge, server_expunge, call.
  change (@port_expunge _ Server.port) with Server.on_expunge.
  now rewrite (expunge_serves _ _ _ B).
Qed.

Lemma numeric_not_S (c : ascii) : numeric c = true -> negb (Ascii.eqb "S" c) = true.
Proof. destruct c as [[] [] [] [] [] [] [] []]; vm_compute; congruence. Qed.

Lemma numeric_not_blank (c : ascii) : numeric c = true -> negb (Ascii.eqb " " c) = true.
Proof. destruct c as [[] [] [] [] [] [] [] []]; vm_compute; congruence. Qed.

(** [get_size] reads the size back from the server's answer. *)
Lemma size_answer (n u L : Z) :
  let s := (head_of n u ++ "RFC822.SIZE " ++ Py.str_int L ++ ")")%string in
  let startindex := Py.find s "SIZE" 0 + 5 in
  Py.int (Py.slice s startindex (Py.find s " " startindex)) = Some L.
Proof.
  intros s startindex.
  assert (E : s = ((head_of n u ++ "RFC822.") ++ "SIZE " ++ Py.str_int L ++ ")")%string).
  { unfold s. now rewrite append_assoc. }
  unfold startindex. rewrite E.
  rewrite (size_field (head_of n u ++ "RFC822.") (Py.str_int L)).
  - apply int_str_int.
  - unfold head_of. rewrite !all_chars_app.
    rewrite !(all_chars_weaken numeric _ _ numeric_not_S (str_int_numeric _)).
    reflexivity.
  - apply (all_chars_weaken numeric _ _ numeric_not_blank (str_int_numeric _)).
Qed.

Lemma get_size_on w f u n m :
  serves (remote w) (name (self w)) f ->
  locate u 1 (messages f) = Some (n, m) ->
  get_size u w =
    (Ok (Py.len (s_text m)), tick w (EUid "fetch" [PInt u; PStr "(RFC822.SIZE)"])).
Proof.
  intros B E.
  unfold get_size, try_except, bind, server_uid, call.
  change (@port_uid _ Server.port) with Server.on_uid.
  rewrite (uid_fetch _ _ _ _ _ _ _ B E).
  change (fetch "(RFC822.SIZE)" n m)
    with (ok (PStr (head_of n (s_uid m) ++ "RFC822.SIZE "
                      ++ Py.str_int (Py.len (s_text m)) ++ ")")%string)).
  unfold ok, lift, ret, raise. cbv beta iota.
  change (Py.getitem (PList [?x]) 0) with (Ok x).
  cbv beta iota.
  change (negb ("OK" =? "OK")%string) with false. cbv beta iota.
  rewrite (size_answer n (s_uid m) (Py.len (s_text m))).
  reflexivity.
Qed.

Lemma get_imapflags_on w f u n m :
  serves (remote w) (name (self w)) f ->
  locate u 1 (messages f) = Some (n, m) ->
  exists fl,
    get_imapflags u w = (Ok fl, tick w (EUid "fetch" [PInt u; PStr "(FLAGS)"])).
Proof.
  intros B E.
  unfold get_imapflags, attempt, try_except, bind, server_uid, call.
  change (@port_uid _ Server.port) with Server.on_uid.
  rewrite (uid_fetch _ _ _ _ _ _ _ B E).
  change (fetch "(FLAGS)" n m)
    with (ok (PStr (head_of n (s_uid m) ++ "FLAGS ("
                      ++ Py.join " " (s_flags m) ++ "))")%string)).
  unfold ok, lift, ret, raise. cbv beta iota.
  change (Py.getitem (PList [?x]) 0) with (Ok x).
  cbv beta iota.
  change (negb ("OK" =? "OK")%string) with false. cbv beta iota.
  change (@ParseFlags Server.lib) with parse_flags.
  destruct (parse_flags_str (head_of n (s_uid m) ++ "FLAGS ("
                      ++ Py.join " " (s_flags m) ++ "))")%string) as [fl ->].
  now exists fl.
Qed.

Lemma get_internaldate_on w f u n m :
  serves (remote w) (name (self w)) f ->
  locate u 1 (messages f) = Some (n, m) ->
  exists d,
    get_internaldate u w = (Ok d, tick w (EUid "fetch" [PInt u; PStr "(INTERNALDATE)"])).
Proof.
  intros B E.
  unfold get_internaldate, try_except, bind, server_uid, call.
  change (@port_uid _ Server.port) with Server.on_uid.
  rewrite (uid_fetch _ _ _ _ _ _ _ B E).
  change (fetch "(INTERNALDATE)" n m)
    with (ok (PStr (head_of n (s_uid m) ++ "INTERNALDATE "
                      ++ quote ++ s_date m ++ quote ++ ")")%string)).
  unfold ok, lift, ret, raise. cbv beta iota.
  change (Py.getitem (PList [?x]) 0) with (Ok x).
  cbv beta iota.
  change (negb ("OK" =? "OK")%string) with false. cbv beta iota.
  change (@Internaldate2tuple Server.lib) with internaldate_of.
  destruct (internaldate_of_str (head_of n (s_uid m) ++ "INTERNALDATE "
                      ++ quote ++ s_date m ++ quote ++ ")")%string) as [d ->].
  now exists d.
Qed.

(** A raw fetch of a message the folder holds, through a cache that
    does not contradict the folder: the text of the message, and the
    slot filled with it. *)
Lemma _cache_message_on w f u n m :
  serves (remote w) (name (self w)) f ->
  locate u 1 (messages f) = Some (n, m) ->
  coherent (self w) m ->
  exists w',
    _cache_message u w = (Ok (PStr (s_text m)), w') /\
    remote w' = remote w /\
    same_box (self w) (self w') /\
    cache_slot (self w') = Some (u, PStr (s_text m)).
Proof.
  intros B E Co. pose proof (locate_uid _ _ _ _ _ E) as U.
  destruct (opt_Z_eqb (_cached_uid (self w)) (Some u)) eqn:C.
  - apply opt_Z_eqb_true in C. exists w.
    rewrite (_cache_message_hit w u C).
    unfold coherent in Co. rewrite U in Co. rewrite (Co C).
    repeat split. unfold cache_slot. now rewrite C, (Co C).
  - unfold _cache_message, bind, get_self, ret, server_uid, call.
    rewrite C. cbv beta iota.
    change (negb false) with true. cbv beta iota.
    change (@port_uid _ Server.port) with Server.on_uid.
    rewrite (uid_fetch _ _ _ _ _ _ _ B E).
    change (fetch "(RFC822)" n m)
      with (Ok ("OK"%string,
                PList [PTuple [PStr (head_of n (s_uid m) ++ "RFC822 {"
                                       ++ Py.str_int (Py.len (s_text m)) ++ "}")%string;
                               PStr (s_text m)];
                       PStr ")"])).
    eexists. split; [reflexivity|]. simpl. repeat split.
Qed.

Lemma serves_same_box w w' f :
  serves (remote w) (name (self w)) f ->
  remote w' = remote w -> same_box (self w) (self w') ->
  serves (remote w') (name (self w')) f.
Proof. intros B R (N & _). now rewrite R, N. Qed.

Lemma same_box_refl me : same_box me me.
Proof. now repeat split. Qed.

Lemma same_box_trans a b c : same_box a b -> same_box b c -> same_box a c.
Proof. unfold same_box. intuition congruence. Qed.

(** Retrieving a message the folder holds. *)
Lemma get_message_on w f u n m :
  serves (remote w) (name (self w)) f ->
  locate u 1 (messages f) = Some (n, m) ->
  coherent (self w) m ->
  exists msg w',
    get_message u w = (Ok (through_factory (self w) msg), w') /\
    im_content msg = PStr (s_text m) /\
    size msg = PInt (Py.len (s_text m)) /\
    remote w' = remote w /\
    same_box (self w) (self w') /\
    cache_slot (self w') = Some (u, PStr (s_text m)).
Proof.
  intros B E Co.
  destruct (_cache_message_on w f u n m B E Co) as (w1 & E1 & R1 & SB1 & C1).
  pose proof (serves_same_box _ _ _ B R1 SB1) as B1.
  destruct (get_imapflags_on w1 f u n m B1 E) as (fl & E2).
  set (w2 := tick w1 (EUid "fetch" [PInt u; PStr "(FLAGS)"])) in *.
  assert (B2 : serves (remote w2) (name (self w2)) f) by exact B1.
  destruct (get_internaldate_on w2 f u n m B2 E) as (d & E3).
  set (w3 := tick w2 (EUid "fetch" [PInt u; PStr "(INTERNALDATE)"])) in *.
  assert (B3 : serves (remote w3) (name (self w3)) f) by exact B1.
  pose proof (get_size_on w3 f u n m B3 E) as E4.
  set (w4 := tick w3 (EUid "fetch" [PInt u; PStr "(RFC822.SIZE)"])) in *.
  exists (set_size (set_internaldate (set_imapflags_msg
            (ImapMessage_of (PStr (s_text m))) fl) d) (PInt (Py.len (s_text m)))), w4.
  split.
  - unfold get_message, bind. rewrite E1, E2, E3, E4.
    unfold get_self, ret, through_factory.
    destruct SB1 as (_ & _ & F & _).
    change (_factory (self w4)) with (_factory (self w1)). rewrite F.
    now destruct (_factory (self w)).
  - repeat split; try exact R1; try apply SB1. exact C1.
Qed.



Lemma deleted_marked m : deleted (marked m) = true.
Proof.
  unfold marked, deleted, has_flag, with_flags. cbn [s_flags add_flags].
  destruct (existsb (String.eqb "\Deleted") (s_flags m)) eqn:E; [exact E|].
  rewrite existsb_app. cbn [existsb]. rewrite String.eqb_refl.
  now rewrite orb_true_r.
Qed.

Lemma replace_located u (g : stored -> stored) ms n k m :
  locate u n ms = Some (k, m) ->
  replace u (fun _ => g m) ms = replace u g ms.
Proof.
  revert n. induction ms as [|x ms IH]; intros n; simpl; [discriminate|].
  destruct (Z.eqb (s_uid x) u).
  - intro H. now injection H as _ ->.
  - intro H. now rewrite (IH _ H).
Qed.

(** The store of the deleted flag on a message the folder holds. *)
Lemma store_deleted_on w f u n m :
  serves (remote w) (name (self w)) f ->
  locate u 1 (messages f) = Some (n, m) ->
  exists data,
    server_uid "store" [PInt u; PStr "+FLAGS"; PStr "(\Deleted)"] w =
      (Ok ("OK"%string, data),
       step w (put (remote w) (name (self w)) (mark u f))
            (EUid "store" [PInt u; PStr "+FLAGS"; PStr "(\Deleted)"])).
Proof.
  intros B E. unfold server_uid, call, mark.
  change (@port_uid _ Server.port) with Server.on_uid.
  rewrite (uid_store _ _ _ u "(\Deleted)" n m (marked m) "+FLAGS" B E eq_refl).
  rewrite (replace_located u marked _ _ _ _ E).
  eexists. reflexivity.
Qed.

Lemma uid_copy s nm f u n m tn g :
  serves s nm f ->
  lookup tn (folders s) = Some g ->
  locate u 1 (messages f) = Some (n, m) ->
  on_uid "copy" [PInt u; PStr tn] s = (ok (PStr "Copy completed"), put s tn (copy_of m g)).
Proof.
  intros B G E. unfold on_uid. rewrite (serves_current _ _ _ B).
  cbv beta iota. now rewrite G, E.
Qed.

Lemma serves_put_other s nm f tn g :
  serves s nm f -> tn <> nm -> serves (put s tn g) nm f.
Proof.
  intros [H1 H2] N. split; simpl; [exact H1|].
  now rewrite lookup_update_ne.
Qed.

(** [discard] without a trash target: one store of the deleted flag. *)
Lemma discard_no_trash_on w f u n m :
  serves (remote w) (name (self w)) f ->
  locate u 1 (messages f) = Some (n, m) ->
  trash (self w) = None ->
  discard u w =
    (Ok tt, step w (put (remote w) (name (self w)) (mark u f))
                 (EUid "store" [PInt u; PStr "+FLAGS"; PStr "(\Deleted)"])).
Proof.
  intros B E T.
  unfold discard, bind, get_self. rewrite T.
  unfold add_imapflag, store_each, bind.
  change ("(" ++ "\Deleted" ++ ")")%string with "(\Deleted)"%string.
  destruct (store_deleted_on w f u n m B E) as (data & ->).
  reflexivity.
Qed.

(** [discard] with a trash folder on the same server, other than the
    source: a server-side copy, then the store of the deleted flag. *)
Lemma discard_to_trash_on w f u n m t tn g :
  serves (remote w) (name (self w)) f ->
  locate u 1 (messages f) = Some (n, m) ->
  trash (self w) = Some t ->
  folder_on_server (self w) t = Some tn ->
  tn <> name (self w) ->
  lookup tn (folders (remote w)) = Some g ->
  discard u w =
    (Ok tt,
     mkWorld (self w)
       (put (put (remote w) tn (copy_of m g)) (name (self w)) (mark u f))
       (trace w ++ [EUid "copy" [PInt u; PStr tn];
                    EUid "store" [PInt u; PStr "+FLAGS"; PStr "(\Deleted)"]])
       (stdout w ++ [("Moving to %s"%string, Some t)])).
Proof.
  intros B E T F N G.
  assert (Nb : String.eqb tn (name (self w)) = false) by now apply String.eqb_neq.
  set (w1 := mkWorld (self w) (remote w) (trace w) (stdout w ++ [("Moving to %s"%string, Some t)])).
  set (w2 := step w1 (put (remote w) tn (copy_of m g)) (EUid "copy" [PInt u; PStr tn])).
  assert (C : copy u t w1 = (Ok tt, w2)).
  { unfold copy, bind, get_self. cbv beta iota.
    assert (X : match t with
                | TImapMailbox _ srv nm0 =>
                    if Nat.eqb srv (_server (self w1)) then TStr nm0 else t
                | _ => t
                end = TStr tn).
    { destruct t as [x|id srv x| |]; simpl in F; try discriminate.
      - now injection F as ->.
      - change (self w1) with (self w).
        destruct (Nat.eqb srv (_server (self w))); [now injection F as ->|discriminate]. }
    rewrite X. change (name (self w1)) with (name (self w)). rewrite Nb.
    change (negb false) with true. cbv beta iota.
    unfold server_uid, call, bind.
    change (@port_uid _ Server.port) with Server.on_uid.
    change (remote w1) with (remote w).
    rewrite (uid_copy _ _ _ u n m tn g B G E). reflexivity. }
  assert (B2 : serves (remote w2) (name (self w2)) f).
  { apply serves_put_other; [exact B|exact N]. }
  assert (Mv : negb (mailbox_eq (self w2) t) && ne_name (self w2) t = true).
  { change (self w2) with (self w).
    destruct t as [x|id srv x| |]; simpl in F; try discriminate.
    - injection F as ->. simpl. now rewrite Nb.
    - destruct (Nat.eqb srv (_server (self w))); [|discriminate].
      injection F as ->. simpl. rewrite (String.eqb_sym (name (self w))), Nb.
      now rewrite andb_false_r. }
  unfold discard, bind, get_self. rewrite T.
  unfold print. fold w1.
  unfold move, bind. rewrite C. unfold get_self. rewrite Mv.
  destruct (store_deleted_on w2 f u n m B2 E) as (data & ->).
  cbv beta iota. change (negb ("OK" =? "OK")%string) with false. cbv beta iota.
  unfold ret, step, w2, w1, step. simpl. now rewrite <- app_assoc.
Qed.

End OnServer.



Section Discard.
Import Server ServerFacts PyFacts.

Implicit Types (w : World Server.state) (f : folder) (m : stored).

Lemma s_uid_marked m : s_uid (marked m) = s_uid m.
Proof. reflexivity. Qed.

Lemma uids_replace u (g : stored -> stored) ms :
  (forall x, s_uid (g x) = s_uid x) -> uids_of (replace u g ms) = uids_of ms.
Proof.
  intro G. induction ms as [|x ms IH]; simpl; [reflexivity|].
  destruct (Z.eqb (s_uid x) u); simpl; [now rewrite G|now rewrite IH].
Qed.

Lemma uids_mark u f : uids_of (messages (mark u f)) = uids_of (messages f).
Proof. apply uids_replace, s_uid_marked. Qed.

Lemma locate_In u n ms k m : locate u n ms = Some (k, m) -> In u (uids_of ms).
Proof.
  revert n. induction ms as [|x ms IH]; intros n; simpl; [discriminate|].
  destruct (Z.eqb (s_uid x) u) eqn:E.
  - intros _. left. now apply Z.eqb_eq.
  - intro H. right. exact (IH _ H).
Qed.

Lemma locate_replace u (g : stored -> stored) ms n k m :
  (forall x, s_uid (g x) = s_uid x) ->
  locate u n ms = Some (k, m) ->
  locate u n (replace u g ms) = Some (k, g m).
Proof.
  intro G. revert n. induction ms as [|x ms IH]; intros n; simpl; [discriminate|].
  destruct (Z.eqb (s_uid x) u) eqn:E; simpl.
  - rewrite G, E. intro H. now injection H as <- <-.
  - rewrite E. apply IH.
Qed.

Lemma replaced_unique u (g : stored -> stored) ms x :
  (forall y, s_uid (g y) = s_uid y) ->
  NoDup (uids_of ms) ->
  In x (replace u g ms) -> s_uid x = u -> exists y, x = g y.
Proof.
  intros G. induction ms as [|x0 ms IH]; simpl; intros ND H U; [easy|].
  inversion ND as [|? ? Hn ND']; subst.
  destruct (Z.eqb (s_uid x0) (s_uid x)) eqn:E.
  - destruct H as [<-|H]; [now exists x0|].
    apply Z.eqb_eq in E. exfalso. apply Hn. rewrite E.
    unfold uids_of. now apply in_map.
  - destruct H as [<-|H]; [now rewrite Z.eqb_refl in E|].
    now apply IH.
Qed.

(** Once flagged deleted and expunged, a UID is gone. *)
Lemma expunged_gone u f :
  NoDup (uids_of (messages f)) ->
  ~ In u (uids_of (messages (flushed (mark u f)))).
Proof.
  intros ND H. unfold flushed, mark in H. simpl in H.
  unfold uids_of in H. apply in_map_iff in H. destruct H as (x & U & H).
  apply filter_In in H. destruct H as [H L].
  destruct (replaced_unique u marked _ x s_uid_marked ND H U) as (y & ->).
  unfold live in L. now rewrite deleted_marked in L.
Qed.

Lemma search_all_on w f :
  serves (remote w) (name (self w)) f ->
  search (Some "ALL"%string) None w =
    (Ok (uids_of (messages f)), tick w (search_request (Some "ALL"%string) None)).
Proof. intro B. now apply (search_on w f "ALL"). Qed.

(** C6 (amended). For a UID [u] the folder holds: (1) with no trash
    target, [discard(u)] is one store of the deleted flag; [u] is then
    flagged deleted, stays in [search("ALL")], and is gone from it after
    [expunge()].  (2) With a trash folder on the same server, other than
    the source, [discard(u)] is a server-side copy followed by the same
    store: the message is in the trash folder, and in the source [u] is
    flagged deleted, stays in [search("ALL")], and is gone from it only
    after [expunge()]. *)
Theorem discard_marks_until_expunge w f u n m :
  serves (remote w) (name (self w)) f ->
  NoDup (uids_of (messages f)) ->
  locate u 1 (messages f) = Some (n, m) ->
  let w1 := snd (discard u w) in
  let w2 := snd (expunge w1) in
  (trash (self w) = None ->
   fst (discard u w) = Ok tt /\
   trace w1 = trace w ++ [EUid "store" [PInt u; PStr "+FLAGS"; PStr "(\Deleted)"]] /\
   serves (remote w1) (name (self w1)) (mark u f) /\
   locate u 1 (messages (mark u f)) = Some (n, marked m) /\
   deleted (marked m) = true /\
   fst (search (Some "ALL"%string) None w1) = Ok (uids_of (messages f)) /\
   In u (uids_of (messages f)) /\
   fst (search (Some "ALL"%string) None w2)
     = Ok (uids_of (messages (flushed (mark u f)))) /\
   ~ In u (uids_of (messages (flushed (mark u f))))) /\
  (forall t tn g,
   trash (self w) = Some t ->
   folder_on_server (self w) t = Some tn ->
   tn <> name (self w) ->
   lookup tn (folders (remote w)) = Some g ->
   fst (discard u w) = Ok tt /\
   trace w1 = trace w ++ [EUid "copy" [PInt u; PStr tn];
                          EUid "store" [PInt u; PStr "+FLAGS"; PStr "(\Deleted)"]] /\
   lookup tn (folders (remote w1)) = Some (copy_of m g) /\
   serves (remote w1) (name (self w1)) (mark u f) /\
   locate u 1 (messages (mark u f)) = Some (n, marked m) /\
   deleted (marked m) = true /\
   fst (search (Some "ALL"%string) None w1) = Ok (uids_of (messages f)) /\
   In u (uids_of (messages f)) /\
   fst (search (Some "ALL"%string) None w2)
     = Ok (uids_of (messages (flushed (mark u f)))) /\
   ~ In u (uids_of (messages (flushed (mark u f))))).
Proof.
  intros B ND E w1 w2.
  assert (Tail : forall w', w' = w1 ->
            serves (remote w') (name (self w')) (mark u f) ->
            locate u 1 (messages (mark u f)) = Some (n, marked m) /\
            deleted (marked m) = true /\
            fst (search (Some "ALL"%string) None w') = Ok (uids_of (messages f)) /\
            In u (uids_of (messages f)) /\
            fst (search (Some "ALL"%string) None w2)
              = Ok (uids_of (messages (flushed (mark u f)))) /\
            ~ In u (uids_of (messages (flushed (mark u f))))).
  { intros w' -> B1.
    split; [apply (locate_replace u marked _ _ _ _ s_uid_marked E)|].
    split; [apply deleted_marked|].
    split; [rewrite (search_all_on w1 _ B1); cbn [fst]; now rewrite uids_mark|].
    split; [exact (locate_In _ _ _ _ _ E)|].
    split; [|now apply expunged_gone].
    unfold w2. rewrite (expunge_on w1 _ B1). cbn [snd].
    rewrite (search_all_on _ (flushed (mark u f))); [reflexivity|].
    now apply (serves_put _ _ (mark u f)). }
  split.
  - intro T. unfold w1 in *. rewrite (discard_no_trash_on w f u n m B E T) in *.
    simpl fst. simpl snd in *.
    assert (B1 : serves (put (remote w) (name (self w)) (mark u f)) (name (self w)) (mark u f))
      by now apply (serves_put _ _ f).
    split; [reflexivity|]. split; [reflexivity|]. split; [exact B1|].
    now apply Tail.
  - intros t tn g T F N G. unfold w1 in *.
    rewrite (discard_to_trash_on w f u n m t tn g B E T F N G) in *.
    simpl fst. simpl snd in *.
    assert (B1 : serves (put (put (remote w) tn (copy_of m g)) (name (self w)) (mark u f))
                   (name (self w)) (mark u f)).
    { apply (serves_put _ _ f). now apply serves_put_other. }
    split; [reflexivity|]. split; [reflexivity|].
    split.
    { simpl. rewrite lookup_update_ne by congruence. apply lookup_update_eq. }
    split; [exact B1|].
    now apply Tail.
Qed.

End Discard.

Section PopItem.
Import Server ServerFacts PyFacts.

Implicit Types (w : World Server.state) (f : folder) (m : stored).

Lemma discard_on w f u n m :
  serves (remote w) (name (self w)) f ->
  locate u 1 (messages f) = Some (n, m) ->
  trash_elsewhere (self w) (remote w) ->
  exists w',
    discard u w = (Ok tt, w') /\
    self w' = self w /\
    serves (remote w') (name (self w)) (mark u f).
Proof.
  intros B E T. unfold trash_elsewhere in T.
  destruct (trash (self w)) as [t|] eqn:Tr.
  - destruct T as (tn & g & F & N & G).
    rewrite (discard_to_trash_on w f u n m t tn g B E Tr F N G).
    eexists. split; [reflexivity|]. split; [reflexivity|].
    apply (serves_put _ _ f). now apply serves_put_other.
  - rewrite (discard_no_trash_on w f u n m B E Tr).
    eexists. split; [reflexivity|]. split; [reflexivity|].
    now apply (serves_put _ _ f).
Qed.

Lemma mem_Z_In u l : In u l -> mem_Z u l = true.
Proof.
  intro H. unfold mem_Z. apply existsb_exists. exists u. split; [exact H|apply Z.eqb_refl].
Qed.

Lemma remove_on w f u n m :
  serves (remote w) (name (self w)) f ->
  locate u 1 (messages f) = Some (n, m) ->
  trash_elsewhere (self w) (remote w) ->
  exists w',
    remove u w = (Ok tt, w') /\
    self w' = self w /\
    serves (remote w') (name (self w)) (mark u f).
Proof.
  intros B E T.
  unfold remove, bind. rewrite (search_all_on w f B).
  rewrite (mem_Z_In _ _ (locate_In _ _ _ _ _ E)).
  unfold ret. cbv beta iota. change (negb true) with false. cbv beta iota.
  apply (discard_on (tick w _) f u n m B E T).
Qed.

Lemma trash_elsewhere_put me s nm f :
  nm = name me -> trash_elsewhere me s -> trash_elsewhere me (put s nm f).
Proof.
  intros -> T. unfold trash_elsewhere in *.
  destruct (trash me) as [t|]; [|exact I].
  destruct T as (tn & g & F & N & G). exists tn, g.
  repeat split; try assumption. simpl.
  rewrite lookup_update_ne by congruence. exact G.
Qed.

Lemma trash_elsewhere_same_box me me' s :
  same_box me me' -> trash_elsewhere me s -> trash_elsewhere me' s.
Proof.
  intros (N & Sv & _ & Tr) T. unfold trash_elsewhere in *. rewrite Tr.
  destruct (trash me) as [t|]; [|exact I].
  destruct T as (tn & g & F & Ne & G). exists tn, g.
  rewrite N. repeat split; try assumption.
  destruct t; simpl in *; try assumption. now rewrite Sv.
Qed.








End PopItem.

Section Add.
Import Server ServerFacts PyFacts.

Implicit Types (w : World Server.state) (f : folder) (m : stored).

Lemma append_on s nm f flags date text :
  serves s nm f ->
  on_append nm flags date text s =
    (ok (PStr "Append completed"), put s nm (deliver f (flags_of_spec flags) date text)).
Proof. intros [_ L]. unfold on_append. now rewrite L. Qed.

Lemma last_item_snoc {A : Type} (l : list A) (x : A) : Py.last_item (l ++ [x]) = Ok x.
Proof. unfold Py.last_item. now rewrite rev_app_distr. Qed.

Lemma search_undeleted_on w f :
  serves (remote w) (name (self w)) f ->
  search (Some "UNDELETED"%string) None w =
    (Ok (uids_of (filter live (messages f))),
     tick w (search_request (Some "UNDELETED"%string) None)).
Proof. intro B. now apply (search_on w f "UNDELETED"). Qed.

(** C2 (amended). [add(m)] is an append followed by one search for
    "UNDELETED", with no expunge in between or after: messages flagged
    deleted stay in the folder.  It returns the last UID that search
    lists.  When [m] is not appended with the deleted flag, that is the
    UID the server gave to [m]; it is then the last and the largest
    entry of [search("ALL")] issued right after. *)
Theorem add_returns_last_undeleted w f (message : ImapMessage) :
  serves (remote w) (name (self w)) f ->
  let flags := flags_of_spec (flagstring message) in
  let f' := deliver f flags (internaldatestring message) (flatten message) in
  let w1 := snd (add message w) in
  trace w1 = trace w ++
    [EAppend (name (self w)) (flagstring message) (internaldatestring message)
             (flatten message);
     search_request (Some "UNDELETED"%string) None] /\
  serves (remote w1) (name (self w1)) f' /\
  fst (add message w) = Py.last_item (uids_of (filter live (messages f'))) /\
  (existsb (String.eqb "\Deleted") flags = false ->
   Forall (fun x => x < uidnext f) (uids_of (messages f)) ->
   fst (add message w) = Ok (uidnext f) /\
   fst (search (Some "ALL"%string) None w1) = Ok (uids_of (messages f) ++ [uidnext f]) /\
   forall x, In x (uids_of (messages f) ++ [uidnext f]) -> x <= uidnext f).
Proof.
  intros B flags f' w1.
  set (w0 := step w (put (remote w) (name (self w)) f')
               (EAppend (name (self w)) (flagstring message)
                  (internaldatestring message) (flatten message))).
  assert (B0 : serves (remote w0) (name (self w0)) f') by now apply (serves_put _ _ f).
  assert (E : add message w =
                (Py.last_item (uids_of (filter live (messages f'))),
                 tick w0 (search_request (Some "UNDELETED"%string) None))).
  { unfold add, bind, get_self, server_append, call.
    change (@port_append _ Server.port) with on_append.
    rewrite (append_on _ _ f _ _ _ B). fold flags. fold f'. fold w0.
    unfold ok, ret. cbv beta iota.
    change (negb ("OK" =? "OK")%string) with false. cbv beta iota.
    unfold get_all_uids.
    match goal with |- context [search _ _ ?W] => change W with w0 end.
    rewrite (search_undeleted_on w0 f' B0).
    unfold lift. reflexivity. }
  unfold w1. rewrite E. cbn [fst snd].
  split; [simpl; now rewrite <- app_assoc|].
  split; [exact B0|]. split; [reflexivity|].
  intros ND Lt.
  assert (U : uids_of (messages f') = uids_of (messages f) ++ [uidnext f]).
  { unfold f', deliver, uids_of. cbn [messages]. now rewrite map_app. }
  split; [|split].
  - unfold f', deliver. cbn [messages]. rewrite filter_app. cbn [filter].
    unfold live at 2, deleted, has_flag. cbn [s_flags]. rewrite ND. cbn [negb].
    unfold uids_of. rewrite map_app. cbn [map s_uid]. apply last_item_snoc.
  - rewrite (search_all_on (tick w0 _) f' B0). cbn [fst]. now rewrite U.
  - intros x H. apply in_app_or in H. destruct H as [H|[<-|[]]]; [|lia].
    rewrite Forall_forall in Lt. specialize (Lt x H). lia.
Qed.

End Add.

(** *** The claims on sample worlds *)

(** C2, refuted as stated.  (1) In a folder holding UID 5 and UID 9,
    the latter flagged deleted, [add] of a plain message returns 10 after
    an append and a search and nothing else: no expunge is sent, and UID 9
    is still listed by [search("ALL")]; an expunge after [add] is what
    removes it.  (2) In the folder holding 5, 9 and 12, [add] of a message
    carrying the deleted flag returns 12, while [search("ALL")] right
    after lists 13 as its largest UID. *)
Lemma add_does_not_flush :
  let w := Sample.world_of
             (Server.mkFolder [Sample.msg 5 [] "Subject: five";
                               Sample.msg 9 ["\Deleted"%string] "Subject: nine"] 10)
             None in
  let plain := mkImapMessage (PStr "Subject: new") [] PNone PNone in
  let doomed := mkImapMessage (PStr "Subject: new") ["\Deleted"%string] PNone PNone in
  (fst (add plain w) = Ok 10 /\
   trace (snd (add plain w)) =
     [EAppend "INBOX" "()" "" "Subject: new"; EUid "search" [PNone; PStr "(UNDELETED)"]] /\
   ~ In EExpunge (trace (snd (add plain w))) /\
   fst (search (Some "ALL"%string) None (snd (add plain w))) = Ok [5; 9; 10] /\
   fst (search (Some "ALL"%string) None (snd (expunge (snd (add plain w))))) = Ok [5; 10]) /\
  (fst (add doomed Sample.world) = Ok 12 /\
   fst (search (Some "ALL"%string) None (snd (add doomed Sample.world))) = Ok [5; 9; 12; 13] /\
   12 <> 13).
Proof.
  vm_compute. repeat split; try reflexivity; try discriminate.
  intros [H|[H|[]]]; discriminate.
Qed.

Lemma add_returns_last_undeleted_witness :
  let plain := mkImapMessage (PStr "Subject: new") ["\Seen"%string] PNone PNone in
  fst (add plain Sample.world) = Ok 13 /\
  fst (search (Some "ALL"%string) None (snd (add plain Sample.world))) = Ok [5; 9; 12; 13] /\
  forall x, In x [5; 9; 12; 13] -> x <= 13.
Proof.
  intro plain.
  destruct (add_returns_last_undeleted Sample.world Sample.inbox plain) as (_ & _ & _ & H).
  - split; reflexivity.
  - apply H.
    + reflexivity.
    + repeat constructor.
Defined.

(** C6, refuted as stated: with the folder "Trash" as trash target,
    [discard(5)] copies message 5 into "Trash" and flags it deleted in
    the source, but UID 5 is still in the source's [search("ALL")]; it
    leaves that list with the next [expunge()]. *)
Lemma discard_to_trash_leaves_uid_listed :
  let w := Sample.world_of Sample.inbox (Some (TStr "Trash")) in
  let w1 := snd (discard 5 w) in
  fst (discard 5 w) = Ok tt /\
  trace w1 = [EUid "copy" [PInt 5; PStr "Trash"];
              EUid "store" [PInt 5; PStr "+FLAGS"; PStr "(\Deleted)"]] /\
  fst (search (Some "ALL"%string) None w1) = Ok [5; 9; 12] /\
  In 5 [5; 9; 12] /\
  option_map Server.messages (Server.lookup "Trash" (Server.folders (remote w1)))
    = Some [Server.mkStored 1 [] "01-Jan-2008 12:00:00 +0000" "Subject: five"] /\
  fst (search (Some "ALL"%string) None (snd (expunge w1))) = Ok [9; 12].
Proof.
  vm_compute. repeat split; try reflexivity. now left.
Qed.

Lemma discard_marks_until_expunge_witness :
  (let w := Sample.world in
   let w1 := snd (discard 5 w) in
   fst (discard 5 w) = Ok tt /\
   fst (search (Some "ALL"%string) None w1) = Ok [5; 9; 12] /\
   fst (search (Some "ALL"%string) None (snd (expunge w1))) = Ok [9; 12]) /\
  (let w := Sample.world_of Sample.inbox (Some (TImapMailbox 3 0 "Trash")) in
   let w1 := snd (discard 5 w) in
   fst (discard 5 w) = Ok tt /\
   Server.lookup "Trash" (Server.folders (remote w1))
     = Some (copy_of (Sample.msg 5 [] "Subject: five") (Server.mkFolder [] 1)) /\
   fst (search (Some "ALL"%string) None w1) = Ok [5; 9; 12] /\
   fst (search (Some "ALL"%string) None (snd (expunge w1))) = Ok [9; 12]).
Proof.
  assert (ND : NoDup (Server.uids_of (Server.messages Sample.inbox))).
  { repeat constructor; simpl; intuition discriminate. }
  split.
  - destruct (discard_marks_until_expunge Sample.world Sample.inbox 5 1
                (Sample.msg 5 [] "Subject: five")) as [H _].
    + split; reflexivity.
    + exact ND.
    + reflexivity.
    + destruct (H eq_refl) as (H1 & _ & _ & _ & _ & H6 & _ & H8 & _).
      split; [exact H1|]. split; [exact H6|exact H8].
  - destruct (discard_marks_until_expunge
                (Sample.world_of Sample.inbox (Some (TImapMailbox 3 0 "Trash")))
                Sample.inbox 5 1 (Sample.msg 5 [] "Subject: five")) as [_ H].
    + split; reflexivity.
    + exact ND.
    + reflexivity.
    + destruct (H (TImapMailbox 3 0 "Trash") "Trash"%string (Server.mkFolder [] 1)
                  eq_refl eq_refl) as (H1 & _ & H3 & _ & _ & _ & H7 & _ & H9 & _).
      * discriminate.
      * reflexivity.
      * split; [exact H1|]. split; [exact H3|]. split; [exact H7|exact H9].
Defined.



(** *** Further properties of the methods, on any session *)

Section OnAnySession.

Context {S : Type} `{Port : SessionPort S} `{Lib : MessageLib}.

(** X1. The answer to a search is parsed back into the UIDs it prints:
    when the session answers OK with the decimal UIDs joined by blanks
    (the empty string for no UID), [search] returns exactly that list,
    having sent one request and left the mailbox object alone. *)
Theorem search_reads_printed_uids (w : World S) criteria charset (us : list Z) rest s' :
  port_uid "search" [py_of_option charset; PStr ("(" ++ percent_s criteria ++ ")")%string]
           (remote w)
    = (Ok ("OK"%string, PList (PStr (Py.join " " (map Py.str_int us)) :: rest)), s') ->
  search criteria charset w =
    (Ok us, mkWorld (self w) s' (trace w ++ [search_request criteria charset]) (stdout w)).
Proof.
  intro E.
  unfold search, bind, server_uid, call, lift, py_split, raise, ret.
  rewrite E. simpl. rewrite PyFacts.ints_split_join. reflexivity.
Qed.



(** X3. [switch(name, create)] flushes, renames the handle, selects, and
    only then empties the cache.  When it returns, the handle carries the
    new name and an empty cache, server, factory and trash target being
    as before.  When it raises, cache and trash target are untouched, but
    the name may already be the new one: with [create] false and a select
    that fails with [NoSuchMailboxError], [switch] raises
    [NoSuchMailboxError] after the flush and the select, leaving the
    handle renamed to the folder that does not exist, with the old
    folder's cache entry still in place. *)
Theorem switch_outcomes (w : World S) (nm : string) (create : bool) :
  (forall w', switch nm create w = (Ok tt, w') ->
     self w' = mkImapMailbox nm (_server (self w)) (_factory (self w)) None PNone
                 (trash (self w))) /\
  (forall e w', switch nm create w = (Raise e, w') ->
     self w' = self w \/ self w' = set_name nm (self w)) /\
  (forall s1 e s2,
     port_expunge (remote w) = (Ok tt, s1) ->
     port_select nm s1 = (Raise e, s2) ->
     e_class e = NoSuchMailboxError ->
     create = false ->
     switch nm create w =
       (Raise (mkExn NoSuchMailboxError "mailbox %s does not exist." [PStr nm]),
        mkWorld (set_name nm (self w)) s2 (trace w ++ [EExpunge; ESelect nm]) (stdout w))).
Proof.
  unfold switch, flush, expunge, server_expunge, server_select, server_create,
    try_except, bind, call, set_self, raise, ret.
  split; [|split].
  - intros w'.
    destruct (port_expunge (remote w)) as [[[]|e0] s1]; simpl; [|discriminate].
    destruct (port_select nm s1) as [[[]|e1] s2]; simpl.
    + intro H. injection H as <-. reflexivity.
    + destruct (isinstance_exn e1 NoSuchMailboxError); simpl; [|discriminate].
      destruct create; simpl; [|discriminate].
      destruct (port_create nm s2) as [[[]|e2] s3]; simpl; [|discriminate].
      destruct (port_select nm s3) as [[[]|e3] s4]; simpl; [|discriminate].
      intro H. injection H as <-. reflexivity.
  - intros e w'.
    destruct (port_expunge (remote w)) as [[[]|e0] s1]; simpl.
    2:{ intro H. injection H as _ <-. now left. }
    destruct (port_select nm s1) as [[[]|e1] s2]; simpl; [discriminate|].
    destruct (isinstance_exn e1 NoSuchMailboxError); simpl.
    2:{ intro H. injection H as _ <-. now right. }
    destruct create; simpl.
    2:{ intro H. injection H as _ <-. now right. }
    destruct (port_create nm s2) as [[[]|e2] s3]; simpl.
    2:{ intro H. injection H as _ <-. now right. }
    destruct (port_select nm s3) as [[[]|e3] s4]; simpl; [discriminate|].
    intro H. injection H as _ <-. now right.
  - intros s1 e s2 E1 E2 C ->. rewrite E1. simpl. rewrite E2. simpl.
    unfold isinstance_exn. rewrite C. simpl. now rewrite <- app_assoc.
Qed.


(** X5. When the fetch itself raises [TypeError] or [ValueError], the
    three getters part ways: [get_size] and [get_internaldate] turn it
    into their [ValueError], while the handler of [get_imapflags] formats
    [code] and [data], which were never bound, and so raises
    [UnboundLocalError]. *)
Theorem getters_on_raising_fetch (w : World S) (u : Z) (e : exn) :
  e_class e = TypeError \/ e_class e = ValueError ->
  (forall s', port_uid "fetch" [PInt u; PStr "(FLAGS)"] (remote w) = (Raise e, s') ->
     fst (get_imapflags u w) =
       Raise (mkExn UnboundLocalError
                "local variable 'code' referenced before assignment" [])) /\
  (forall s', port_uid "fetch" [PInt u; PStr "(RFC822.SIZE)"] (remote w) = (Raise e, s') ->
     fst (get_size u w) =
       Raise (mkExn ValueError
                "Unexpected results while fetching flags from server for message %s"
                [PInt u])) /\
  (forall s', port_uid "fetch" [PInt u; PStr "(INTERNALDATE)"] (remote w) = (Raise e, s') ->
     fst (get_internaldate u w) =
       Raise (mkExn ValueError
                "Unexpected results while fetching flags from server for message %s"
                [PInt u])).
Proof.
  intro C.
  assert (K : isinstance_exn e TypeError || isinstance_exn e ValueError = true).
  { unfold isinstance_exn. destruct C as [-> | ->]; reflexivity. }
  split; [|split]; intros s' E.
  - unfold get_imapflags, attempt, bind, server_uid, call. rewrite E. simpl.
    now rewrite K.
  - unfold get_size, try_except, bind, server_uid, call. rewrite E. simpl.
    rewrite orb_false_r. now rewrite K.
  - unfold get_internaldate, try_except, bind, server_uid, call. rewrite E. simpl.
    rewrite orb_false_r. now rewrite K.
Qed.

(** What [get_size] cuts out of an answer whose number is followed by a
    blank, [p ++ "SIZE " ++ d ++ " " ++ tail]. *)
Lemma size_field_blank (p d tail : string) :
  all_chars (fun x => negb (Ascii.eqb "S" x)) p = true ->
  all_chars (fun x => negb (Ascii.eqb " " x)) d = true ->
  let s := (p ++ "SIZE " ++ d ++ " " ++ tail)%string in
  let startindex := Py.find s "SIZE" 0 + 5 in
  let stopindex := Py.find s " " startindex in
  Py.slice s startindex stopindex = d.
Proof.
  intros Hp Hd s startindex stopindex.
  assert (Ls : Py.len s = Py.len p + 5 + Py.len d + 1 + Py.len tail).
  { unfold s. rewrite !PyFacts.len_append.
    change (Py.len "SIZE ") with 5. change (Py.len " ") with 1. lia. }
  pose proof (PyFacts.len_nonneg p) as Lp. pose proof (PyFacts.len_nonneg d) as Ld.
  pose proof (PyFacts.len_nonneg tail) as Lt.
  assert (Es : startindex = Py.len p + 5).
  { unfold startindex. rewrite PyFacts.find_from_start. unfold s.
    rewrite (PyFacts.find_at_skip "S" "IZE" p _ 0 Hp).
    rewrite PyFacts.find_at_here by reflexivity. lia. }
  assert (Dr : Py.drop (Z.to_nat startindex) s = (d ++ " " ++ tail)%string).
  { rewrite Es. unfold s.
    replace (Z.to_nat (Py.len p + 5)) with (String.length (p ++ "SIZE "))
      by (rewrite PyFacts.length_append; unfold Py.len; simpl; lia).
    rewrite <- (PyFacts.drop_append (p ++ "SIZE ") (d ++ " " ++ tail)) at 2.
    now rewrite !PyFacts.append_assoc. }
  assert (Cs : Py.clip s startindex = startindex).
  { unfold Py.clip. destruct (startindex <? 0) eqn:E; [apply Z.ltb_lt in E; lia|].
    rewrite Z.min_l, Z.max_r by lia. reflexivity. }
  assert (Et : stopindex = startindex + Py.len d).
  { unfold stopindex, Py.find. rewrite Cs, Dr.
    destruct (startindex <? 0) eqn:E; [apply Z.ltb_lt in E; lia|].
    destruct (Py.len s <? startindex) eqn:E2; [apply Z.ltb_lt in E2; lia|].
    rewrite (PyFacts.find_at_skip " " "" d _ startindex Hd).
    now rewrite PyFacts.find_at_here. }
  unfold Py.slice. rewrite Cs, Dr, Et.
  assert (Ce : Py.clip s (startindex + Py.len d) = startindex + Py.len d).
  { unfold Py.clip.
    destruct (startindex + Py.len d <? 0) eqn:E; [apply Z.ltb_lt in E; lia|].
    rewrite Z.min_l, Z.max_r by lia. reflexivity. }
  rewrite Ce.
  replace (Z.to_nat (startindex + Py.len d - startindex)) with (String.length d)
    by (unfold Py.len in *; lia).
  apply PyFacts.take_append.
Qed.

Lemma numeric_no_blank (z : Z) :
  all_chars (fun x => negb (Ascii.eqb " " x)) (Py.str_int z) = true.
Proof.
  apply (PyFacts.all_chars_weaken numeric); [|apply PyFacts.str_int_numeric].
  intro c. destruct c as [[] [] [] [] [] [] [] []]; vm_compute; congruence.
Qed.

(** X6. [get_size] finds the number after the first ["SIZE"] of the
    answer, whether it is closed by the parenthesis that ends the answer
    or followed by a blank and further items: for an answer
    [p ++ "SIZE " ++ str(n) ++ ")"] or [p ++ "SIZE " ++ str(n) ++ " " ++ tail]
    with no [S] in [p], it returns [n]. *)
Theorem get_size_reads_number (w : World S) (u n : Z) (p : string) rest s' :
  all_chars (fun x => negb (Ascii.eqb "S" x)) p = true ->
  (port_uid "fetch" [PInt u; PStr "(RFC822.SIZE)"] (remote w)
     = (Ok ("OK"%string, PList (PStr (p ++ "SIZE " ++ Py.str_int n ++ ")")%string :: rest)), s') ->
   fst (get_size u w) = Ok n) /\
  (forall tail,
   port_uid "fetch" [PInt u; PStr "(RFC822.SIZE)"] (remote w)
     = (Ok ("OK"%string,
            PList (PStr (p ++ "SIZE " ++ Py.str_int n ++ " " ++ tail)%string :: rest)), s') ->
   fst (get_size u w) = Ok n).
Proof.
  intro Hp. split.
  - intro E. unfold get_size, try_except, bind, server_uid, call. rewrite E.
    unfold lift, ret, raise. cbv beta iota.
    change (Py.getitem (PList (?x :: rest)) 0) with (Ok x). cbv beta iota.
    change (negb ("OK" =? "OK")%string) with false. cbv beta iota.
    rewrite (PyFacts.size_field p (Py.str_int n) Hp (numeric_no_blank n)).
    now rewrite PyFacts.int_str_int.
  - intros tail E. unfold get_size, try_except, bind, server_uid, call. rewrite E.
    unfold lift, ret, raise. cbv beta iota.
    change (Py.getitem (PList (?x :: rest)) 0) with (Ok x). cbv beta iota.
    change (negb ("OK" =? "OK")%string) with false. cbv beta iota.
    rewrite (size_field_blank p (Py.str_int n) tail Hp (numeric_no_blank n)).
    now rewrite PyFacts.int_str_int.
Qed.

Lemma lstrip_list_forallb (P : ascii -> bool) (l : list ascii) :
  forallb P l = true -> forallb P (Py.lstrip_list l) = true.
Proof.
  induction l as [|c l IH]; intro H; [reflexivity|].
  cbn [Py.lstrip_list]. destruct (Py.isspace c); [|exact H].
  apply IH. simpl in H. now apply andb_prop in H.
Qed.

Lemma strip_all_chars (P : ascii -> bool) (s : string) :
  all_chars P s = true -> all_chars P (Py.strip s) = true.
Proof.
  intro H. rewrite PyFacts.all_chars_list in *. unfold Py.strip.
  rewrite list_ascii_of_string_of_list_ascii, PyFacts.forallb_rev.
  apply lstrip_list_forallb. rewrite PyFacts.forallb_rev.
  now apply lstrip_list_forallb.
Qed.

Lemma digits_no_digit (c : ascii) (r : string) :
  is_digit c = false -> Py.digits (String c r) = None.
Proof.
  intro H. unfold Py.digits. cbn [NilEmpty.uint_of_string].
  destruct (NilEmpty.uint_of_string r);
    destruct c as [[] [] [] [] [] [] [] []]; try reflexivity; discriminate H.
Qed.

(** [int] needs a digit: a string without one is a [ValueError]. *)
Lemma int_no_digit (s : string) :
  all_chars (fun c => negb (is_digit c)) s = true -> Py.int s = None.
Proof.
  intro H. apply strip_all_chars in H. unfold Py.int.
  destruct (Py.strip s) as [|c r]; [reflexivity|].
  cbn [all_chars] in H. apply andb_prop in H. destruct H as [Hc Hr].
  apply negb_true_iff in Hc.
  assert (R : Py.digits r = None).
  { destruct r as [|c' r']; [reflexivity|]. cbn [all_chars] in Hr.
    apply andb_prop in Hr. destruct Hr as [Hc' _]. apply negb_true_iff in Hc'.
    now apply digits_no_digit. }
  destruct (Ascii.eqb c "-"); [now rewrite R|].
  destruct (Ascii.eqb c "+"); [exact R|].
  now apply digits_no_digit.
Qed.

(** X7. How [get_size] fails.  The first record is read before the
    status is looked at: (1) a first record [None] under status OK is
    [NoSuchUIDError]; (2) a non-OK status with a first record is
    [ImapNotOkError]; (3) response data that is [None] instead of a list
    is the [ValueError] of the handler, whatever the status; (4) an empty
    list of records lets [IndexError] escape, whatever the status; (5) a
    string in which what is cut out after the first ["SIZE"] (or, when
    there is none, from the fifth character on) holds no digit is the
    handler's [ValueError]. *)
Theorem get_size_failures (w : World S) (u : Z) s' :
  let answers a := port_uid "fetch" [PInt u; PStr "(RFC822.SIZE)"] (remote w) = (Ok a, s') in
  let value_error :=
    Raise (mkExn ValueError
             "Unexpected results while fetching flags from server for message %s"
             [PInt u]) in
  (forall rest, answers ("OK"%string, PList (PNone :: rest)) ->
     fst (get_size u w) = Raise (mkExn NoSuchUIDError "No message %s in get_size" [PInt u])) /\
  (forall code d rest, code <> "OK"%string -> answers (code, PList (d :: rest)) ->
     fst (get_size u w) =
       Raise (mkExn ImapNotOkError "%s in get_imapflags(%s)" [PStr code; PInt u])) /\
  (forall code, answers (code, PNone) -> fst (get_size u w) = value_error) /\
  (forall code, answers (code, PList []) ->
     fst (get_size u w) = Raise (mkExn IndexError "index out of range" [])) /\
  (forall s rest,
     all_chars (fun c => negb (is_digit c))
       (Py.slice s (Py.find s "SIZE" 0 + 5) (Py.find s " " (Py.find s "SIZE" 0 + 5))) = true ->
     answers ("OK"%string, PList (PStr s :: rest)) ->
     fst (get_size u w) = value_error).
Proof.
  intros answers value_error. unfold answers, value_error.
  repeat split.
  - intros rest E. unfold get_size, try_except, bind, server_uid, call. rewrite E.
    reflexivity.
  - intros code d rest N E. apply String.eqb_neq in N.
    unfold get_size, try_except, bind, server_uid, call. rewrite E.
    unfold lift. cbv beta iota.
    change (Py.getitem (PList (d :: rest)) 0) with (Ok d). cbv beta iota.
    rewrite N. reflexivity.
  - intros code E. unfold get_size, try_except, bind, server_uid, call. rewrite E.
    reflexivity.
  - intros code E. unfold get_size, try_except, bind, server_uid, call. rewrite E.
    reflexivity.
  - intros s rest N E. apply int_no_digit in N.
    unfold get_size, try_except, bind, server_uid, call. rewrite E.
    unfold lift, ret, raise. cbv beta iota.
    change (Py.getitem (PList (?x :: rest)) 0) with (Ok x). cbv beta iota.
    change (negb ("OK" =? "OK")%string) with false. cbv beta iota.
    rewrite N. reflexivity.
Qed.

Lemma keeps_get_header P u : keeps (S := S) P (get_header u).
Proof.
  pose proof (keeps_get_imapflags (S := S) P u).
  pose proof (keeps_get_internaldate (S := S) P u).
  pose proof (keeps_get_size (S := S) P u).
  unfold get_header, server_uid. frame.
Qed.

Ltac break_all :=
  repeat (simpl;
          match goal with
          | |- context [match ?x with _ => _ end] =>
              let T := type of x in
              lazymatch T with
              | result _ => destruct x
              | bool => destruct x
              | pyval => destruct x
              | option _ => destruct x
              end
          end);
  simpl; auto.

Lemma get_imapflags_trace (w : World S) (u : Z) :
  trace (snd (get_imapflags u w)) = trace w ++ [EUid "fetch" [PInt u; PStr "(FLAGS)"]].
Proof.
  unfold get_imapflags, attempt, try_except, bind, server_uid, call, lift, raise, ret.
  destruct (port_uid _ _ (remote w)) as [[[code data]|e] s1]; break_all.
Qed.

Lemma get_internaldate_trace (w : World S) (u : Z) :
  trace (snd (get_internaldate u w))
    = trace w ++ [EUid "fetch" [PInt u; PStr "(INTERNALDATE)"]].
Proof.
  unfold get_internaldate, try_except, bind, server_uid, call, lift, raise, ret.
  destruct (port_uid _ _ (remote w)) as [[[code data]|e] s1]; break_all.
Qed.

Lemma get_size_trace (w : World S) (u : Z) :
  trace (snd (get_size u w)) = trace w ++ [EUid "fetch" [PInt u; PStr "(RFC822.SIZE)"]].
Proof.
  unfold get_size, try_except, bind, server_uid, call, lift, raise, ret.
  destruct (port_uid _ _ (remote w)) as [[[code data]|e] s1]; simpl.
  - destruct (Py.getitem data 0) as [d|e]; simpl.
    + destruct (String.eqb code "OK"); simpl; [|reflexivity].
      destruct d; simpl; try reflexivity.
      destruct (Py.int _); reflexivity.
    + destruct (isinstance_exn e TypeError || (isinstance_exn e ValueError || false));
        reflexivity.
  - destruct (isinstance_exn e TypeError || (isinstance_exn e ValueError || false));
      reflexivity.
Qed.

(** X8. [get_header] reads the header with its own fetch and never goes
    through the cache: it leaves the mailbox object as it found it, and
    what it sends is a prefix of the four fetches of the header, the
    flags, the internal date and the size (all four when it returns), so
    no full-message fetch is ever among them.  When the header fetch
    reports the UID absent, it raises [KeyError] after that one fetch. *)
Theorem get_header_bypasses_cache (w : World S) (u : Z) :
  let w' := snd (get_header u w) in
  self w' = self w /\
  (exists k,
     trace w' = trace w ++ firstn k (header_fetches u) /\
     match fst (get_header u w) with
     | Ok _ => k = 4%nat
     | Raise _ => (1 <= k <= 4)%nat
     end) /\
  (forall v, raw_fetches v (trace w') = raw_fetches v (trace w)) /\
  (forall s',
     port_uid "fetch" [PInt u; PStr "(BODY.PEEK[HEADER])"] (remote w)
       = (Ok ("OK"%string, PList [PNone]), s') ->
     get_header u w =
       (Raise (mkExn KeyError "No UID %s in get_header" [PInt u]),
        mkWorld (self w) s' (trace w ++ [EUid "fetch" [PInt u; PStr "(BODY.PEEK[HEADER])"]])
                (stdout w))).
Proof.
  intro w'.
  assert (Sf : self w' = self w).
  { apply (keeps_get_header (fun _ => True) u). exact I. }
  assert (Tr : exists k,
     trace w' = trace w ++ firstn k (header_fetches u) /\
     match fst (get_header u w) with
     | Ok _ => k = 4%nat
     | Raise _ => (1 <= k <= 4)%nat
     end).
  { unfold w'. remember (get_header u w) as p eqn:E.
    unfold get_header in E. unfold bind at 1 in E. unfold server_uid, call in E.
    destruct (port_uid _ _ (remote w)) as [[[code data]|e] s1]; cbv beta iota in E.
    2:{ subst p. exists 1%nat. simpl. split; [reflexivity|lia]. }
    unfold bind at 1 in E.
    destruct (String.eqb code "OK"); cbn [negb] in E;
      [unfold ret at 1 in E|unfold raise at 1 in E]; cbv beta iota in E.
    2:{ subst p. exists 1%nat. simpl. split; [reflexivity|lia]. }
    unfold bind at 1 in E.
    match type of E with context [try_except ?b ?c ?h ?W] =>
      assert (X : trace (snd (try_except b c h W)) = trace W);
      [unfold try_except, bind, lift, raise; break_all|];
      destruct (try_except b c h W) as [[r|e] w1] end; cbv beta iota in E.
    2:{ subst p. exists 1%nat. cbn [fst snd] in *. rewrite X. simpl.
        split; [reflexivity|lia]. }
    cbn [fst snd] in X.
    unfold bind at 1 in E. pose proof (get_imapflags_trace w1 u) as T1.
    destruct (get_imapflags u w1) as [[fl|e] w2]; cbn [snd] in T1; cbv beta iota in E.
    2:{ subst p. exists 2%nat. cbn [fst snd]. rewrite T1, X. simpl. rewrite <- app_assoc.
        split; [reflexivity|lia]. }
    unfold bind at 1 in E. pose proof (get_internaldate_trace w2 u) as T2.
    destruct (get_internaldate u w2) as [[d|e] w3]; cbn [snd] in T2; cbv beta iota in E.
    2:{ subst p. exists 3%nat. cbn [fst snd]. rewrite T2, T1, X. simpl.
        rewrite <- !app_assoc. split; [reflexivity|lia]. }
    unfold bind at 1 in E. pose proof (get_size_trace w3 u) as T3.
    destruct (get_size u w3) as [[n|e] w4]; cbn [snd] in T3; cbv beta iota in E.
    2:{ subst p. exists 4%nat. cbn [fst snd]. rewrite T3, T2, T1, X. simpl.
        rewrite <- !app_assoc. split; [reflexivity|lia]. }
    exists 4%nat. unfold bind, get_self, ret in E.
    destruct (_factory (self w4)); subst p; cbn [fst snd]; rewrite T3, T2, T1, X; simpl;
      rewrite <- !app_assoc; split; reflexivity. }
  split; [exact Sf|]. split; [exact Tr|]. split.
  - intro v. destruct Tr as (k & T & _). rewrite T, raw_fetches_app.
    assert (Z0 : raw_fetches v (firstn k (header_fetches u)) = 0%nat).
    { destruct k as [|[|[|[|[|k]]]]]; reflexivity. }
    rewrite Z0. lia.
  - intros s' E. unfold get_header, try_except, bind, server_uid, call.
    rewrite E. reflexivity.
Qed.

(** X9. [reconnect()] retries once after a failed select, and its
    handler for a folder that is still missing reads the name [create],
    which the method does not have: when the select fails, and after the
    second reconnect and login fails again with [NoSuchMailboxError],
    [reconnect] raises [NameError]; the folder is not created, and the
    mailbox object is as before. *)
Theorem reconnect_missing_folder (w : World S) s1 s2 e1 s3 s4 s5 e2 s6 :
  port_reconnect (remote w) = (Ok tt, s1) ->
  port_login s1 = (Ok tt, s2) ->
  port_select (name (self w)) s2 = (Raise e1, s3) ->
  port_reconnect s3 = (Ok tt, s4) ->
  port_login s4 = (Ok tt, s5) ->
  port_select (name (self w)) s5 = (Raise e2, s6) ->
  e_class e2 = NoSuchMailboxError ->
  reconnect w =
    (Raise (mkExn NameError "global name 'create' is not defined" []),
     mkWorld (self w) s6
       (trace w ++ [EReconnect; ELogin; ESelect (name (self w));
                    EReconnect; ELogin; ESelect (name (self w))])
       (stdout w)).
Proof.
  intros R1 L1 S1 R2 L2 S2 C.
  unfold reconnect, server_reconnect, server_login, server_select,
    try_finally, try_except_all, try_except, bind, call, get_self, raise, ret.
  rewrite R1. simpl. rewrite L1. simpl. rewrite S1. simpl.
  rewrite R2. simpl. rewrite L2. simpl. rewrite S2. simpl.
  unfold isinstance_exn. rewrite C. simpl.
  now rewrite <- !app_assoc.
Qed.

End OnAnySession.

(** *** Further properties of the methods, on the server model *)

Section FolderViews.
Import Server ServerFacts PyFacts.

Implicit Types (w : World Server.state) (f : folder) (m : stored).

(** X10. [__init__((server, name), create)] binds the handle to the
    folder: when the folder exists it is selected; when it does not, it
    is created empty and then selected if [create] is set, and
    [NoSuchMailboxError] is raised after the one select, nothing being
    created, if it is not.  On success the handle has the name, an empty
    cache and no trash target. *)
Theorem init_binds_folder w (nm : string) :
  let fresh := mkImapMailbox nm (_server (self w)) (_factory (self w)) None PNone None in
  (forall f create,
     lookup nm (folders (remote w)) = Some f ->
     __init__ nm create w =
       (Ok tt, mkWorld fresh (mkState (folders (remote w)) (Some nm) (delivered (remote w)))
                 (trace w ++ [ESelect nm]) (stdout w)) /\
     serves (remote (snd (__init__ nm create w))) nm f) /\
  (lookup nm (folders (remote w)) = None ->
     self (snd (__init__ nm true w)) = fresh /\
     fst (__init__ nm true w) = Ok tt /\
     trace (snd (__init__ nm true w)) = trace w ++ [ESelect nm; ECreate nm; ESelect nm] /\
     serves (remote (snd (__init__ nm true w))) nm (mkFolder [] 1) /\
     fst (__len__ (snd (__init__ nm true w))) = Ok 0) /\
  (lookup nm (folders (remote w)) = None ->
     __init__ nm false w =
       (Raise (mkExn NoSuchMailboxError "mailbox %s does not exist." [PStr nm]),
        mkWorld (set_name nm (self w)) (remote w) (trace w ++ [ESelect nm]) (stdout w))).
Proof.
  intro fresh. split; [|split].
  - intros f create L.
    assert (E : __init__ nm create w =
       (Ok tt, mkWorld fresh (mkState (folders (remote w)) (Some nm) (delivered (remote w)))
                 (trace w ++ [ESelect nm]) (stdout w))).
    { unfold __init__, try_except, bind, set_self, server_select, call.
      change (@port_select _ Server.port) with on_select.
      cbn [remote self trace stdout]. unfold on_select. rewrite L. reflexivity. }
    rewrite E. split; [reflexivity|]. split; [reflexivity|exact L].
  - intro L.
    assert (E : __init__ nm true w =
       (Ok tt, mkWorld fresh
                 (mkState (update nm (mkFolder [] 1) (folders (remote w))) (Some nm)
                          (delivered (remote w)))
                 (trace w ++ [ESelect nm; ECreate nm; ESelect nm]) (stdout w))).
    { unfold __init__, try_except, bind, set_self, server_select, server_create, call.
      change (@port_select _ Server.port) with on_select.
      change (@port_create _ Server.port) with on_create.
      cbn [remote self trace stdout]. unfold on_select at 1. rewrite L.
      cbn [existsb isinstance_exn e_class exn_class_eqb orb remote self trace stdout].
      unfold on_create. cbn [remote]. rewrite L.
      cbn [remote self trace stdout]. unfold on_select. cbn [folders].
      rewrite lookup_update_eq. cbn [remote self trace stdout delivered selected folders].
      now rewrite <- !app_assoc. }
    rewrite E. cbn [fst snd self trace remote].
    assert (B : serves (mkState (update nm (mkFolder [] 1) (folders (remote w))) (Some nm)
                          (delivered (remote w))) nm (mkFolder [] 1)).
    { split; [reflexivity|apply lookup_update_eq]. }
    repeat split; try exact B; try apply lookup_update_eq.
    unfold __len__, bind.
    match goal with |- context [search _ _ ?W] =>
      rewrite (search_all_on W (mkFolder [] 1) B) end.
    reflexivity.
  - intro L.
    unfold __init__, try_except, bind, set_self, server_select, call.
    change (@port_select _ Server.port) with on_select.
    cbn [remote self trace stdout]. unfold on_select. rewrite L. reflexivity.
Qed.

Lemma In_uids_locate (u : Z) (k : Z) (ms : list stored) :
  In u (uids_of ms) -> exists n m, locate u k ms = Some (n, m) /\ In m ms.
Proof.
  revert k. induction ms as [|x ms IH]; intros k H; [easy|]. simpl.
  destruct (Z.eqb (s_uid x) u) eqn:E.
  - exists k, x. split; [reflexivity|now left].
  - destruct H as [H|H]; [apply Z.eqb_neq in E; contradiction|].
    destruct (IH (k + 1) H) as (n & m & L & I). exists n, m. split; [exact L|now right].
Qed.

Lemma mem_Z_true_iff (u : Z) (l : list Z) : mem_Z u l = true <-> In u l.
Proof.
  unfold mem_Z. rewrite existsb_exists. split.
  - intros (x & I & E). apply Z.eqb_eq in E. now subst.
  - intro I. exists u. split; [exact I|apply Z.eqb_refl].
Qed.

(** X11. On a folder the session serves, the collection view agrees with
    [search("ALL")]: [__len__] is the number of messages in the folder,
    [has_key] holds exactly of the UIDs listed, and every listed UID that
    is not the cached one can be retrieved: [get_message] returns a
    message with the text and the byte count of a stored message of that
    UID, leaves that text in the cache and does not change the server. *)
Theorem listed_uids_are_retrievable w f :
  serves (remote w) (name (self w)) f ->
  fst (__len__ w) = Ok (Z.of_nat (List.length (messages f))) /\
  (forall u, fst (has_key u w) = Ok true <-> In u (uids_of (messages f))) /\
  (forall u,
     In u (uids_of (messages f)) ->
     _cached_uid (self w) <> Some u ->
     exists m msg w',
       In m (messages f) /\ s_uid m = u /\
       get_message u w = (Ok (through_factory (self w) msg), w') /\
       im_content msg = PStr (s_text m) /\
       size msg = PInt (Py.len (s_text m)) /\
       cache_slot (self w') = Some (u, PStr (s_text m)) /\
       remote w' = remote w).
Proof.
  intro B. split; [|split].
  - unfold __len__, bind. rewrite (search_all_on w f B). unfold ret. cbn [fst].
    unfold uids_of. now rewrite length_map.
  - intro u. unfold has_key, bind. rewrite (search_all_on w f B). unfold ret. cbn [fst].
    rewrite <- mem_Z_true_iff. split; [now intros [= ->]|now intros ->].
  - intros u I C.
    destruct (In_uids_locate u 1 _ I) as (n & m & L & Im).
    pose proof (locate_uid _ _ _ _ _ L) as U.
    assert (Co : coherent (self w) m).
    { unfold coherent. rewrite U. intro X. contradiction. }
    destruct (get_message_on w f u n m B L Co) as (msg & w' & E & C1 & C2 & R & _ & Sl).
    exists m, msg, w'. repeat split; assumption.
Qed.

Lemma mem_Z_false (u : Z) (l : list Z) : ~ In u l -> mem_Z u l = false.
Proof.
  intro H. destruct (mem_Z u l) eqn:E; [|reflexivity].
  apply mem_Z_true_iff in E. contradiction.
Qed.

(** X12. [remove(uid)] followed by [expunge()] takes the UID out of the
    folder: for a UID the folder holds (no trash target, or one elsewhere
    on the server), both succeed, after which [has_key(uid)] is false,
    [search("ALL")] lists what the expunge left, without the UID, and a
    second [remove(uid)] raises [KeyError] having sent only its search. *)
Theorem remove_then_expunge_forgets w f u :
  serves (remote w) (name (self w)) f ->
  NoDup (uids_of (messages f)) ->
  In u (uids_of (messages f)) ->
  trash_elsewhere (self w) (remote w) ->
  let w1 := snd (remove u w) in
  let w2 := snd (expunge w1) in
  fst (remove u w) = Ok tt /\
  fst (expunge w1) = Ok tt /\
  fst (search (Some "ALL"%string) None w2) = Ok (uids_of (messages (flushed (mark u f)))) /\
  ~ In u (uids_of (messages (flushed (mark u f)))) /\
  fst (has_key u w2) = Ok false /\
  remove u w2 =
    (Raise (mkExn KeyError "No UID %s" [PInt u]),
     tick w2 (search_request (Some "ALL"%string) None)).
Proof.
  intros B ND I T w1 w2.
  destruct (In_uids_locate u 1 _ I) as (n & m & L & _).
  destruct (remove_on w f u n m B L T) as (w' & E & Sf & B1).
  assert (B1' : serves (remote w') (name (self w')) (mark u f)) by now rewrite Sf.
  unfold w2, w1. rewrite E. cbn [fst snd].
  rewrite (expunge_on w' _ B1'). cbn [fst snd].
  set (w3 := step w' (put (remote w') (name (self w')) (flushed (mark u f))) EExpunge).
  assert (B3 : serves (remote w3) (name (self w3)) (flushed (mark u f)))
    by now apply (serves_put _ _ (mark u f)).
  pose proof (expunged_gone u f ND) as G.
  split; [reflexivity|]. split; [reflexivity|].
  split; [now rewrite (search_all_on w3 _ B3)|].
  split; [exact G|].
  split.
  - unfold has_key, bind. rewrite (search_all_on w3 _ B3). unfold ret. cbn [fst].
    now rewrite (mem_Z_false _ _ G).
  - unfold remove, bind. rewrite (search_all_on w3 _ B3).
    rewrite (mem_Z_false _ _ G). reflexivity.
Qed.

(** X13. [pop(uid)] on a UID the folder holds returns its message and
    takes it out of the folder: the content of the message returned is
    the stored text, and afterwards the folder is what flagging the UID
    deleted and expunging leaves, in which the UID is no longer found. *)
Theorem pop_takes_message w f u n m (default : pyval) :
  serves (remote w) (name (self w)) f ->
  NoDup (uids_of (messages f)) ->
  locate u 1 (messages f) = Some (n, m) ->
  coherent (self w) m ->
  trash_elsewhere (self w) (remote w) ->
  exists msg w',
    pop u default w = (Ok (inl (through_factory (self w) msg)), w') /\
    im_content msg = PStr (s_text m) /\
    serves (remote w') (name (self w')) (flushed (mark u f)) /\
    fst (search (Some "ALL"%string) None w') = Ok (uids_of (messages (flushed (mark u f)))) /\
    ~ In u (uids_of (messages (flushed (mark u f)))).
Proof.
  intros B ND L Co T.
  destruct (get_message_on w f u n m B L Co) as (msg & w1 & E1 & C1 & _ & R1 & SB1 & _).
  pose proof (serves_same_box _ _ _ B R1 SB1) as B1.
  assert (T1 : trash_elsewhere (self w1) (remote w1)).
  { rewrite R1. now apply (trash_elsewhere_same_box (self w)). }
  destruct (remove_on w1 f u n m B1 L T1) as (w2 & E2 & S2 & B2).
  assert (B2' : serves (remote w2) (name (self w2)) (mark u f)) by now rewrite S2.
  set (w3 := step w2 (put (remote w2) (name (self w2)) (flushed (mark u f))) EExpunge).
  assert (B3 : serves (remote w3) (name (self w3)) (flushed (mark u f)))
    by now apply (serves_put _ _ (mark u f)).
  exists msg, w3. split; [|split; [exact C1|split; [exact B3|split]]].
  - unfold pop, try_except, bind, __getitem__, __delitem__.
    rewrite E1, E2, (expunge_on w2 _ B2'). reflexivity.
  - now rewrite (search_all_on w3 _ B3).
  - now apply expunged_gone.
Qed.

(** [discard] keeps the folder served and the trash target valid. *)
Lemma discard_keeps_serving w f u n m :
  serves (remote w) (name (self w)) f ->
  locate u 1 (messages f) = Some (n, m) ->
  trash_elsewhere (self w) (remote w) ->
  exists w',
    discard u w = (Ok tt, w') /\
    self w' = self w /\
    serves (remote w') (name (self w)) (mark u f) /\
    trash_elsewhere (self w) (remote w').
Proof.
  intros B E T. pose proof T as T0. unfold trash_elsewhere in T.
  destruct (trash (self w)) as [t|] eqn:Tr.
  - destruct T as (tn & g & F & N & G).
    rewrite (discard_to_trash_on w f u n m t tn g B E Tr F N G).
    eexists. split; [reflexivity|]. split; [reflexivity|]. split.
    + apply (serves_put _ _ f). now apply serves_put_other.
    + cbn [snd remote]. unfold trash_elsewhere. rewrite Tr.
      exists tn, (copy_of m g). repeat split; try assumption.
      cbn [put folders]. rewrite lookup_update_ne by congruence.
      apply lookup_update_eq.
  - rewrite (discard_no_trash_on w f u n m B E Tr).
    eexists. split; [reflexivity|]. split; [reflexivity|]. split.
    + now apply (serves_put _ _ f).
    + now apply trash_elsewhere_put.
Qed.

Lemma uids_mark_all us f : uids_of (messages (mark_all us f)) = uids_of (messages f).
Proof.
  revert f. induction us as [|u us IH]; intro f; [reflexivity|].
  cbn [mark_all fold_left]. unfold mark_all in IH. rewrite IH. apply uids_mark.
Qed.

Lemma uidnext_mark_all us f : uidnext (mark_all us f) = uidnext f.
Proof.
  revert f. induction us as [|u us IH]; intro f; [reflexivity|].
  cbn [mark_all fold_left]. unfold mark_all in IH. now rewrite IH.
Qed.

Lemma discard_each_on us : forall w f,
  serves (remote w) (name (self w)) f ->
  trash_elsewhere (self w) (remote w) ->
  (forall u, In u us -> In u (uids_of (messages f))) ->
  exists w',
    discard_each us w = (Ok tt, w') /\
    self w' = self w /\
    serves (remote w') (name (self w)) (mark_all us f).
Proof.
  induction us as [|u us IH]; intros w f B T I.
  - exists w. split; [reflexivity|]. split; [reflexivity|exact B].
  - destruct (In_uids_locate u 1 _ (I u (or_introl eq_refl))) as (n & m & L & _).
    destruct (discard_keeps_serving w f u n m B L T) as (w1 & E1 & S1 & B1 & T1).
    destruct (IH w1 (mark u f)) as (w2 & E2 & S2 & B2).
    + now rewrite S1.
    + now rewrite S1.
    + intros v Hv. rewrite uids_mark. apply I. now right.
    + exists w2. cbn [discard_each]. unfold bind. rewrite E1, E2.
      split; [reflexivity|]. split; [congruence|]. now rewrite S1 in B2.
Qed.

Lemma replace_cases u (g : stored -> stored) ms x :
  NoDup (uids_of ms) ->
  In x (replace u g ms) ->
  (exists y, x = g y) \/ (In x ms /\ s_uid x <> u).
Proof.
  induction ms as [|x0 ms IH]; simpl; intros ND H; [easy|].
  inversion ND as [|? ? Hn ND']; subst.
  destruct (Z.eqb (s_uid x0) u) eqn:E.
  - destruct H as [<-|H]; [left; now exists x0|].
    right. split; [now right|]. apply Z.eqb_eq in E. subst u.
    intro X. apply Hn. rewrite <- X. unfold uids_of. now apply in_map.
  - destruct H as [<-|H]; [right; split; [now left|now apply Z.eqb_neq]|].
    destruct (IH ND' H) as [L|[R1 R2]]; [now left|right; split; [now right|exact R2]].
Qed.

Lemma mark_all_cases us : forall f x,
  NoDup (uids_of (messages f)) ->
  In x (messages (mark_all us f)) ->
  deleted x = true \/ (In x (messages f) /\ ~ In (s_uid x) us).
Proof.
  induction us as [|u us IH]; intros f x ND H.
  - right. split; [exact H|easy].
  - cbn [mark_all fold_left] in H.
    destruct (IH (mark u f) x) as [D|[I N]].
    + now rewrite uids_mark.
    + exact H.
    + now left.
    + unfold mark in I. cbn [messages] in I.
      destruct (replace_cases u marked _ x ND I) as [(y & ->)|[I1 N1]].
      * left. apply deleted_marked.
      * right. split; [exact I1|]. intros [X|X]; [congruence|contradiction].
Qed.

Lemma filter_none {A : Type} (P : A -> bool) (l : list A) :
  (forall x, In x l -> P x = false) -> filter P l = [].
Proof.
  induction l as [|x l IH]; intro H; [reflexivity|]. simpl.
  rewrite (H x (or_introl eq_refl)). apply IH. intros y Hy. apply H. now right.
Qed.

(** X14. [clear()] empties the folder: it discards every UID that
    [search("UNDELETED")] lists and expunges, after which
    [search("ALL")] lists nothing and [__len__] is 0, the messages that
    were flagged deleted beforehand being expunged with the rest. *)
Theorem clear_empties_folder w f :
  serves (remote w) (name (self w)) f ->
  NoDup (uids_of (messages f)) ->
  trash_elsewhere (self w) (remote w) ->
  let w' := snd (clear w) in
  fst (clear w) = Ok tt /\
  serves (remote w') (name (self w')) (mkFolder [] (uidnext f)) /\
  fst (search (Some "ALL"%string) None w') = Ok [] /\
  fst (__len__ w') = Ok 0.
Proof.
  intros B ND T w'.
  set (us := uids_of (filter live (messages f))).
  set (w1 := tick w (search_request (Some "UNDELETED"%string) None)).
  assert (I : forall u, In u us -> In u (uids_of (messages f))).
  { intros u H. unfold us, uids_of in *. apply in_map_iff in H.
    destruct H as (x & <- & Hx). apply filter_In in Hx. now apply in_map. }
  destruct (discard_each_on us w1 f B T I) as (w2 & E2 & S2 & B2).
  assert (B2' : serves (remote w2) (name (self w2)) (mark_all us f)) by now rewrite S2.
  assert (Em : filter live (messages (mark_all us f)) = []).
  { apply filter_none. intros x Hx.
    destruct (mark_all_cases us f x ND Hx) as [D|[Ix N]].
    - unfold live. now rewrite D.
    - destruct (live x) eqn:Lx; [|reflexivity]. exfalso. apply N.
      unfold us, uids_of. apply in_map. apply filter_In. now split. }
  assert (E : clear w =
    (Ok tt, step w2 (put (remote w2) (name (self w2)) (flushed (mark_all us f))) EExpunge)).
  { unfold clear, bind, get_all_uids. rewrite (search_undeleted_on w f B).
    fold us. fold w1. rewrite E2. apply (expunge_on w2 _ B2'). }
  assert (Ff : flushed (mark_all us f) = mkFolder [] (uidnext f)).
  { unfold flushed. now rewrite Em, uidnext_mark_all. }
  unfold w'. rewrite E. cbn [fst snd]. rewrite Ff.
  set (w3 := step w2 (put (remote w2) (name (self w2)) (mkFolder [] (uidnext f))) EExpunge).
  assert (B3 : serves (remote w3) (name (self w3)) (mkFolder [] (uidnext f)))
    by now apply (serves_put _ _ (mark_all us f)).
  split; [reflexivity|]. split; [exact B3|].
  split.
  - now rewrite (search_all_on w3 _ B3).
  - unfold __len__, bind. now rewrite (search_all_on w3 _ B3).
Qed.

Lemma located_self (ms : list stored) (m : stored) (k : Z) :
  NoDup (uids_of ms) -> In m ms -> exists n, locate (s_uid m) k ms = Some (n, m).
Proof.
  revert k. induction ms as [|x ms IH]; intros k ND I; [easy|]. simpl.
  inversion ND as [|? ? Hn ND']; subst.
  destruct I as [->|I].
  - rewrite Z.eqb_refl. now exists k.
  - destruct (Z.eqb (s_uid x) (s_uid m)) eqn:E.
    + apply Z.eqb_eq in E. exfalso. apply Hn. rewrite E. unfold uids_of. now apply in_map.
    + apply (IH (k + 1) ND' I).
Qed.

Lemma get_each_on f (l : list stored) : forall w,
  serves (remote w) (name (self w)) f ->
  NoDup (uids_of (messages f)) ->
  (forall m, In m l -> In m (messages f)) ->
  NoDup (uids_of l) ->
  (forall m, In m l -> coherent (self w) m) ->
  exists raw w',
    get_each (uids_of l) w = (Ok (map (through_factory (self w)) raw), w') /\
    map im_content raw = map (fun m => PStr (s_text m)) l /\
    remote w' = remote w.
Proof.
  induction l as [|m l IH]; intros w B ND Sub NDl Co.
  - exists [], w. repeat split.
  - destruct (located_self _ m 1 ND (Sub m (or_introl eq_refl))) as (n & L).
    destruct (get_message_on w f (s_uid m) n m B L (Co m (or_introl eq_refl)))
      as (msg & w1 & E1 & C1 & _ & R1 & SB1 & Sl1).
    pose proof (serves_same_box _ _ _ B R1 SB1) as B1.
    destruct (cache_slot_uid _ _ _ Sl1) as [Cu _].
    inversion NDl as [|? ? Hn NDl']; subst.
    destruct (IH w1 B1 ND) as (raw & w2 & E2 & C2 & R2).
    + intros x Hx. apply Sub. now right.
    + exact NDl'.
    + intros x Hx X. rewrite Cu in X. injection X as X.
      exfalso. apply Hn. rewrite X. unfold uids_of. now apply in_map.
    + assert (F : forall x, through_factory (self w1) x = through_factory (self w) x).
      { intro x. unfold through_factory. destruct SB1 as (_ & _ & -> & _). reflexivity. }
      exists (msg :: raw), w2. split; [|split].
      * cbn [uids_of map get_each]. unfold bind, __getitem__. rewrite E1.
        unfold uids_of in E2. rewrite E2. unfold ret. cbn [map].
        f_equal. f_equal. f_equal. apply map_ext, F.
      * cbn [map]. now rewrite C1, C2.
      * congruence.
Qed.

(** X15. [values()] (the generator [itervalues()] run to its end)
    returns one message per message of the folder, in the folder's
    order, each with the stored text as its content, and does not change
    the server; the cache must not hold other text under one of the
    folder's UIDs when it starts. *)
Theorem values_lists_contents w f :
  serves (remote w) (name (self w)) f ->
  NoDup (uids_of (messages f)) ->
  (forall m, In m (messages f) -> coherent (self w) m) ->
  exists raw w',
    values w = (Ok (map (through_factory (self w)) raw), w') /\
    map im_content raw = map (fun m => PStr (s_text m)) (messages f) /\
    List.length raw = List.length (messages f) /\
    remote w' = remote w.
Proof.
  intros B ND Co.
  set (w1 := tick w (search_request (Some "ALL"%string) None)).
  destruct (get_each_on f (messages f) w1 B ND (fun m H => H) ND Co)
    as (raw & w2 & E & C & R).
  exists raw, w2. split; [|split; [exact C|split; [|exact R]]].
  - unfold values, bind. rewrite (search_all_on w f B). exact E.
  - rewrite <- (length_map im_content), C. apply length_map.
Qed.

(** X16. [copy(uid, target)] onto another folder of the same server (a
    name, or a handle bound to the same server) is one server-side copy
    and nothing else: (1) for a UID the folder holds and a target that
    exists, the target gains a message with the flags, date and text of
    the source message under the target's next UID, while the source
    folder is untouched and nothing is flagged; (2) when the target
    folder does not exist, [ImapNotOkError] is raised and nothing has
    changed; (3) for a UID the folder does not hold, [copy] returns
    without having changed anything. *)
Theorem copy_on_same_server w f u t tn :
  serves (remote w) (name (self w)) f ->
  folder_on_server (self w) t = Some tn ->
  tn <> name (self w) ->
  let request := EUid "copy" [PInt u; PStr tn] in
  (forall g n m,
     lookup tn (folders (remote w)) = Some g ->
     locate u 1 (messages f) = Some (n, m) ->
     copy u t w = (Ok tt, step w (put (remote w) tn (copy_of m g)) request) /\
     serves (put (remote w) tn (copy_of m g)) (name (self w)) f /\
     lookup tn (folders (put (remote w) tn (copy_of m g))) = Some (copy_of m g) /\
     messages (copy_of m g)
       = messages g ++ [mkStored (uidnext g) (s_flags m) (s_date m) (s_text m)]) /\
  (lookup tn (folders (remote w)) = None ->
     copy u t w =
       (Raise (mkExn ImapNotOkError "%s in copy: %s"
                 [PStr "NO"; PList [PStr "[TRYCREATE] Mailbox does not exist"]]),
        tick w request)) /\
  (forall g,
     lookup tn (folders (remote w)) = Some g ->
     locate u 1 (messages f) = None ->
     copy u t w = (Ok tt, tick w request)).
Proof.
  intros B F N request.
  assert (Nb : String.eqb tn (name (self w)) = false) by now apply String.eqb_neq.
  assert (X : match t with
              | TImapMailbox _ srv nm0 =>
                  if Nat.eqb srv (_server (self w)) then TStr nm0 else t
              | _ => t
              end = TStr tn).
  { destruct t as [x|id srv x| |]; simpl in F; try discriminate.
    - now injection F as ->.
    - destruct (Nat.eqb srv (_server (self w))); [now injection F as ->|discriminate]. }
  assert (C : copy u t w =
                (let (r, s') := on_uid "copy" [PInt u; PStr tn] (remote w) in
                 match r with
                 | Ok (code, data) =>
                     if negb (String.eqb code "OK")
                     then (Raise (mkExn ImapNotOkError "%s in copy: %s" [PStr code; data]),
                           step w s' request)
                     else (Ok tt, step w s' request)
                 | Raise e => (Raise e, step w s' request)
                 end)).
  { unfold copy, bind, get_self. cbv beta iota. rewrite X, Nb.
    change (negb false) with true. cbv beta iota.
    unfold server_uid, call.
    change (@port_uid _ Server.port) with on_uid.
    destruct (on_uid "copy" [PInt u; PStr tn] (remote w)) as [[[code data]|e] s'];
      [|reflexivity].
    cbv beta iota. now destruct (negb (String.eqb code "OK")). }
  split; [|split].
  - intros g n m G L. rewrite C, (uid_copy _ _ _ u n m tn g B G L).
    split; [reflexivity|]. split; [now apply serves_put_other|].
    split; [apply lookup_update_eq|reflexivity].
  - intro G. rewrite C. unfold on_uid. rewrite (serves_current _ _ _ B).
    cbv beta iota. rewrite G. reflexivity.
  - intros g G L. rewrite C. unfold on_uid. rewrite (serves_current _ _ _ B).
    cbv beta iota. rewrite G, L. reflexivity.
Qed.

(** X17. [copy(uid, target)] to a mailbox that is not on the server
    locks the target first and reads the message afterwards, outside
    any [try]: (1) for a UID the folder holds, the target is handed the
    message (content: the stored text) between lock and flush/unlock, and
    the folders are untouched; (2) for a UID the folder does not hold,
    [KeyError] is raised after the lock and the raw fetch, and no unlock
    is sent: the target stays locked. *)
Theorem copy_to_foreign_mailbox w f u id :
  serves (remote w) (name (self w)) f ->
  _cached_uid (self w) <> Some u ->
  (forall n m,
     locate u 1 (messages f) = Some (n, m) ->
     exists msg w',
       copy u (TMailbox id) w = (Ok tt, w') /\
       im_content msg = PStr (s_text m) /\
       delivered (remote w') = delivered (remote w) ++ [(id, through_factory (self w) msg)] /\
       folders (remote w') = folders (remote w) /\
       selected (remote w') = selected (remote w)) /\
  (locate u 1 (messages f) = None ->
     copy u (TMailbox id) w =
       (Raise (mkExn KeyError "No message %s in _cache_message" [PInt u]),
        mkWorld (self w) (remote w) (trace w ++ [ETarget id McLock; fetch_rfc822 u])
                (stdout w))).
Proof.
  intros B C.
  set (w0 := step w (remote w) (ETarget id McLock)).
  assert (B0 : serves (remote w0) (name (self w0)) f) by exact B.
  split.
  - intros n m L.
    assert (Co : coherent (self w0) m).
    { unfold coherent. rewrite (locate_uid _ _ _ _ _ L). intro X. contradiction. }
    destruct (get_message_on w0 f u n m B0 L Co) as (msg & w1 & E1 & C1 & _ & R1 & _ & _).
    eexists msg, _. split; [|split; [exact C1|]].
    + unfold copy, bind, get_self. cbv beta iota.
      change (negb (mailbox_eq (self w) (TMailbox id))) with true. cbv beta iota.
      unfold target_call at 1, call at 1.
      change (@port_target _ Server.port) with on_target.
      change (on_target id McLock (remote w)) with (Ok tt, remote w).
      cbv beta iota.
      change (mkWorld (self w) (remote w) (trace w ++ [ETarget id McLock]) (stdout w)) with w0.
      unfold __getitem__. rewrite E1.
      unfold target_call, call.
      change (@port_target _ Server.port) with on_target.
      reflexivity.
    + cbn [snd remote trace self stdout on_target delivered folders selected fst].
      rewrite R1. repeat split.
  - intro L.
    unfold copy, bind, get_self. cbv beta iota.
    change (negb (mailbox_eq (self w) (TMailbox id))) with true. cbv beta iota.
    unfold target_call at 1, call at 1.
    change (@port_target _ Server.port) with on_target.
    change (on_target id McLock (remote w)) with (Ok tt, remote w).
    cbv beta iota.
    change (mkWorld (self w) (remote w) (trace w ++ [ETarget id McLock]) (stdout w)) with w0.
    unfold __getitem__, get_message, bind.
    rewrite (_cache_message_absent w0 u (remote w0) C).
    + cbv beta iota. unfold w0, step. cbn [self remote trace stdout].
      now rewrite <- app_assoc.
    + change (@port_uid _ Server.port) with on_uid.
      apply (uid_fetch_absent _ _ _ _ _ B0 L).
Qed.

End FolderViews.

(** *** The further properties on sample worlds *)

(** X1 on scripted sessions: the answers "5 9 12" and "" to a search. *)
Lemma search_reads_printed_uids_witness :
  fst (search (Some "ALL"%string) None
         (Scripted.world_of [Ok ("OK"%string, PList [PStr "5 9 12"])])) = Ok [5; 9; 12] /\
  fst (search (Some "UNSEEN"%string) None
         (Scripted.world_of [Ok ("OK"%string, PList [PStr ""])])) = Ok [].
Proof.
  split.
  - rewrite (search_reads_printed_uids
               (Scripted.world_of [Ok ("OK"%string, PList [PStr "5 9 12"])])
               (Some "ALL"%string) None [5; 9; 12] [] []); reflexivity.
  - rewrite (search_reads_printed_uids
               (Scripted.world_of [Ok ("OK"%string, PList [PStr ""])])
               (Some "UNSEEN"%string) None [] [] []); reflexivity.
Defined.

(** X3 on the sample server: a switch to a folder that does not exist,
    and one to the folder "Trash". *)
Lemma switch_outcomes_witness :
  fst (switch "Gone" false Sample.world)
    = Raise (mkExn NoSuchMailboxError "mailbox %s does not exist." [PStr "Gone"]) /\
  name (self (snd (switch "Gone" false Sample.world))) = "Gone"%string /\
  self (snd (switch "Trash" false Sample.world)) = mkImapMailbox "Trash" 0 None None PNone None.
Proof.
  destruct (switch_outcomes Sample.world "Gone" false) as (_ & _ & H).
  destruct (switch_outcomes Sample.world "Trash" false) as (K & _ & _).
  split; [|split].
  - erewrite H; reflexivity.
  - erewrite H; reflexivity.
  - apply (K (snd (switch "Trash" false Sample.world))). reflexivity.
Defined.


(** X5 on a scripted session whose fetch raises [TypeError]. *)
Lemma getters_on_raising_fetch_witness :
  fst (get_imapflags 5 (Scripted.world_of [Raise (mkExn TypeError "bad argument" [])]))
    = Raise (mkExn UnboundLocalError "local variable 'code' referenced before assignment" []) /\
  fst (get_size 5 (Scripted.world_of [Raise (mkExn TypeError "bad argument" [])]))
    = Raise (mkExn ValueError
               "Unexpected results while fetching flags from server for message %s" [PInt 5]).
Proof.
  destruct (getters_on_raising_fetch
              (Scripted.world_of [Raise (mkExn TypeError "bad argument" [])]) 5
              (mkExn TypeError "bad argument" []) (or_introl eq_refl)) as (H1 & H2 & _).
  split.
  - exact (H1 [] eq_refl).
  - exact (H2 [] eq_refl).
Defined.

(** X6 on scripted sessions: the size last in the answer, and the size
    followed by another item. *)
Lemma get_size_reads_number_witness :
  fst (get_size 5 (Scripted.world_of
                     [Ok ("OK"%string, PList [PStr "1 (UID 5 RFC822.SIZE 1234)"])])) = Ok 1234 /\
  fst (get_size 5 (Scripted.world_of
                     [Ok ("OK"%string, PList [PStr "1 (RFC822.SIZE 1234 UID 5)"])])) = Ok 1234.
Proof.
  split.
  - destruct (get_size_reads_number
                (Scripted.world_of [Ok ("OK"%string, PList [PStr "1 (UID 5 RFC822.SIZE 1234)"])])
                5 1234 "1 (UID 5 RFC822." [] [] eq_refl) as [H _].
    exact (H eq_refl).
  - destruct (get_size_reads_number
                (Scripted.world_of [Ok ("OK"%string, PList [PStr "1 (RFC822.SIZE 1234 UID 5)"])])
                5 1234 "1 (RFC822." [] [] eq_refl) as [_ H].
    exact (H "UID 5)"%string eq_refl).
Defined.

(** X7 on scripted sessions, one per way of failing. *)
Lemma get_size_failures_witness :
  fst (get_size 7 (Scripted.world_of [Ok ("OK"%string, PList [PNone])]))
    = Raise (mkExn NoSuchUIDError "No message %s in get_size" [PInt 7]) /\
  fst (get_size 7 (Scripted.world_of [Ok ("NO"%string, PList [PNone])]))
    = Raise (mkExn ImapNotOkError "%s in get_imapflags(%s)" [PStr "NO"; PInt 7]) /\
  fst (get_size 7 (Scripted.world_of [Ok ("OK"%string, PList [])]))
    = Raise (mkExn IndexError "index out of range" []) /\
  fst (get_size 7 (Scripted.world_of [Ok ("OK"%string, PList [PStr "1 (UID 7)"])]))
    = Raise (mkExn ValueError
               "Unexpected results while fetching flags from server for message %s" [PInt 7]).
Proof.
  split; [|split; [|split]].
  - destruct (get_size_failures (Scripted.world_of [Ok ("OK"%string, PList [PNone])]) 7 [])
      as (H & _). exact (H [] eq_refl).
  - destruct (get_size_failures (Scripted.world_of [Ok ("NO"%string, PList [PNone])]) 7 [])
      as (_ & H & _). apply (H "NO"%string PNone []); [discriminate|reflexivity].
  - destruct (get_size_failures (Scripted.world_of [Ok ("OK"%string, PList [])]) 7 [])
      as (_ & _ & _ & H & _). exact (H "OK"%string eq_refl).
  - destruct (get_size_failures (Scripted.world_of [Ok ("OK"%string, PList [PStr "1 (UID 7)"])])
                7 []) as (_ & _ & _ & _ & H). exact (H "1 (UID 7)"%string [] eq_refl eq_refl).
Defined.

(** X8 on a scripted session that reports the UID absent. *)
Lemma get_header_bypasses_cache_witness :
  get_header 7 (Scripted.world_of [Ok ("OK"%string, PList [PNone])]) =
    (Raise (mkExn KeyError "No UID %s in get_header" [PInt 7]),
     mkWorld (mkImapMailbox "INBOX" 0 None None PNone None) []
       [EUid "fetch" [PInt 7; PStr "(BODY.PEEK[HEADER])"]] []).
Proof.
  destruct (get_header_bypasses_cache (Scripted.world_of [Ok ("OK"%string, PList [PNone])]) 7)
    as (_ & _ & _ & H).
  exact (H [] eq_refl).
Defined.

(** X9 on the sample server, from a handle whose folder "Gone" is not
    there. *)
Lemma reconnect_missing_folder_witness :
  fst (reconnect (mkWorld (mkImapMailbox "Gone" 0 None None PNone None)
                    (Sample.server_of Sample.inbox) [] []))
    = Raise (mkExn NameError "global name 'create' is not defined" []).
Proof.
  erewrite reconnect_missing_folder; reflexivity.
Defined.

(** X10 on the sample server: the folder "Trash" exists, "New" does not. *)
Lemma init_binds_folder_witness :
  fst (__init__ "Trash" false Sample.world) = Ok tt /\
  fst (__len__ (snd (__init__ "New" true Sample.world))) = Ok 0 /\
  fst (__init__ "New" false Sample.world)
    = Raise (mkExn NoSuchMailboxError "mailbox %s does not exist." [PStr "New"]).
Proof.
  split; [|split].
  - destruct (init_binds_folder Sample.world "Trash") as (H & _ & _).
    destruct (H (Server.mkFolder [] 1) false eq_refl) as [E _]. now rewrite E.
  - destruct (init_binds_folder Sample.world "New") as (_ & H & _).
    destruct (H eq_refl) as (_ & _ & _ & _ & E). exact E.
  - destruct (init_binds_folder Sample.world "New") as (_ & _ & H).
    now rewrite (H eq_refl).
Defined.

(** X11 on the sample folder: three messages, UID 9 among them. *)
Lemma listed_uids_are_retrievable_witness :
  fst (__len__ Sample.world) = Ok 3 /\
  (exists msg,
     fst (get_message 9 Sample.world) = Ok msg /\
     im_content msg = PStr "Subject: nine" /\
     size msg = PInt 13).
Proof.
  destruct (listed_uids_are_retrievable Sample.world Sample.inbox) as (L & _ & G).
  - split; reflexivity.
  - split; [exact L|].
    destruct (G 9) as (m & msg & w' & I & U & E & C & Sz & _).
    + simpl. auto.
    + simpl. discriminate.
    + exists msg. split; [now rewrite E|].
      destruct I as [<-|[<-|[<-|[]]]]; try discriminate U.
      split; [exact C|exact Sz].
Defined.

(** The UIDs 5, 9 and 12 of the sample folder are distinct. *)
Lemma sample_uids_distinct : NoDup (Server.uids_of (Server.messages Sample.inbox)).
Proof.
  repeat constructor; simpl; intuition discriminate.
Defined.

(** X12 on the sample folder: UID 9 removed and expunged. *)
Lemma remove_then_expunge_forgets_witness :
  fst (remove 9 Sample.world) = Ok tt /\
  fst (search (Some "ALL"%string) None (snd (expunge (snd (remove 9 Sample.world)))))
    = Ok [5; 12] /\
  fst (remove 9 (snd (expunge (snd (remove 9 Sample.world)))))
    = Raise (mkExn KeyError "No UID %s" [PInt 9]).
Proof.
  destruct (remove_then_expunge_forgets Sample.world Sample.inbox 9)
    as (R & _ & A & _ & _ & R2).
  - split; reflexivity.
  - exact sample_uids_distinct.
  - simpl. auto.
  - exact I.
  - split; [exact R|]. split; [exact A|]. now rewrite R2.
Defined.

(** X13 on the sample folder: UID 9 popped. *)
Lemma pop_takes_message_witness :
  exists msg w',
    pop 9 PNone Sample.world = (Ok (inl msg), w') /\
    im_content msg = PStr "Subject: nine" /\
    fst (search (Some "ALL"%string) None w') = Ok [5; 12].
Proof.
  destruct (pop_takes_message Sample.world Sample.inbox 9 2 (Sample.msg 9 [] "Subject: nine")
              PNone) as (msg & w' & E & C & _ & A & _).
  - split; reflexivity.
  - exact sample_uids_distinct.
  - reflexivity.
  - intro X. discriminate X.
  - exact I.
  - exists msg, w'. split; [exact E|]. split; [exact C|exact A].
Defined.

(** X14 on the sample folder. *)
Lemma clear_empties_folder_witness :
  fst (clear Sample.world) = Ok tt /\
  fst (__len__ (snd (clear Sample.world))) = Ok 0.
Proof.
  destruct (clear_empties_folder Sample.world Sample.inbox) as (C & _ & _ & L).
  - split; reflexivity.
  - exact sample_uids_distinct.
  - exact I.
  - split; [exact C|exact L].
Defined.

(** X15 on the sample folder: the three texts, in order. *)
Lemma values_lists_contents_witness :
  exists raw w',
    values Sample.world = (Ok raw, w') /\
    map im_content raw
      = [PStr "Subject: five"; PStr "Subject: nine"; PStr "Subject: twelve"].
Proof.
  destruct (values_lists_contents Sample.world Sample.inbox) as (raw & w' & E & C & _).
  - split; reflexivity.
  - exact sample_uids_distinct.
  - intros m _ X. discriminate X.
  - exists raw, w'. split; [|exact C].
    rewrite E. f_equal. f_equal. apply map_id.
Defined.

(** X16 on the sample server: UID 5 copied to "Trash", and to a folder
    that does not exist. *)
Lemma copy_on_same_server_witness :
  fst (copy 5 (TStr "Trash") Sample.world) = Ok tt /\
  Server.lookup "Trash" (Server.folders (remote (snd (copy 5 (TStr "Trash") Sample.world))))
    = Some (Server.mkFolder [Sample.msg 1 [] "Subject: five"] 2) /\
  Server.lookup "INBOX" (Server.folders (remote (snd (copy 5 (TStr "Trash") Sample.world))))
    = Some Sample.inbox /\
  fst (copy 5 (TStr "Nowhere") Sample.world)
    = Raise (mkExn ImapNotOkError "%s in copy: %s"
               [PStr "NO"; PList [PStr "[TRYCREATE] Mailbox does not exist"]]).
Proof.
  destruct (copy_on_same_server Sample.world Sample.inbox 5 (TStr "Trash") "Trash")
    as (H & _ & _).
  - split; reflexivity.
  - reflexivity.
  - discriminate.
  - destruct (copy_on_same_server Sample.world Sample.inbox 5 (TStr "Nowhere") "Nowhere")
      as (_ & K & _).
    + split; reflexivity.
    + reflexivity.
    + discriminate.
    + destruct (H (Server.mkFolder [] 1) 1 (Sample.msg 5 [] "Subject: five") eq_refl eq_refl)
        as (E & _ & _ & _).
      rewrite E, (K eq_refl). repeat split.
Defined.

(** X17 on the sample server: UID 7, which the folder does not hold, and
    UID 5, copied to a mailbox outside the server. *)
Lemma copy_to_foreign_mailbox_witness :
  copy 7 (TMailbox 1) Sample.world =
    (Raise (mkExn KeyError "No message %s in _cache_message" [PInt 7]),
     mkWorld (self Sample.world) (remote Sample.world)
       [ETarget 1 McLock; fetch_rfc822 7] []) /\
  (exists msg w',
     copy 5 (TMailbox 1) Sample.world = (Ok tt, w') /\
     im_content msg = PStr "Subject: five" /\
     Server.delivered (remote w') = [(1%nat, msg)]).
Proof.
  destruct (copy_to_foreign_mailbox Sample.world Sample.inbox 7 1) as (_ & H).
  - split; reflexivity.
  - simpl. discriminate.
  - destruct (copy_to_foreign_mailbox Sample.world Sample.inbox 5 1) as (K & _).
    + split; reflexivity.
    + simpl. discriminate.
    + split; [exact (H eq_refl)|].
      destruct (K 1 (Sample.msg 5 [] "Subject: five") eq_refl) as (msg & w' & E & C & D & _).
      exists msg, w'. split; [exact E|]. split; [exact C|exact D].
Defined.
